(** * Payment-orchestration demo API: the three server programs of the repository

    The repository holds three Express programs that serve the same six
    endpoints over one in-memory object [paymentsDb]:

    - [Server]   : src/backend/server.js (status guards, signed callback);
    - [Variant1] : the first program of src/unnamed/part_000 (create stores a
                   fresh record, capture and refund carry no status guard);
    - [Variant2] : the second program of src/unnamed/part_000 (status guards,
                   no authentication and no signature check on the callback).

    Each route handler is embedded as a function from the request, the values
    the handler draws from its environment (clock, uuidv4, randomBytes) and
    the store before the call, to the response and the store after the call.

    Conventions of the embedding.
    - [paymentsDb] is a plain object: [paymentsDb[paymentId]] looks at its
      own properties and then along its prototype chain, so it also finds
      what [Object.prototype] holds ('constructor', 'toString', '__proto__',
      ...).  A handler that assigns to such a find writes on
      [Object.prototype] or on a built-in function; the store therefore
      carries, next to the payment records, what the handlers have added to
      those objects.  The properties a handler can add there are the eight it
      assigns by name ([written]); reading one of these names from any object
      that lacks it finds the added value.  The code outside the handlers
      (Express and the middlewares) is taken not to read these eight names
      from objects that lack them.
    - The three programs are CommonJS modules without 'use strict': an
      assignment to a property of a string, number or boolean is ignored.
    - A string is the sequence of its UTF-16 code units; the model has the
      strings whose code units are below 256, one character per code unit.
    - [process.env] is taken to be configured; the HMAC, [JSON.stringify] and
      the built-in prototypes of strings, arrays, numbers and booleans are
      fields of [runtime].
    - The express-validator chains in front of a handler only record errors
      on the request; a handler sees them through [validationResult], which
      the request carries as [validationErrors].
    - A synchronous exception in a handler reaches the error middleware,
      which answers 500; assignments made before the throw stay. *)

From Stdlib Require Import Ascii.
From stdpp Require Import gmap strings list fin_maps pretty.

Set Warnings "-register-all,-clear-no-such-hyp".

(** ** JavaScript values and objects *)

Module JS.

(** A JSON value, plus [undefined].  A number is kept by its canonical
    decimal text (what [Number.prototype.toString] yields): the handlers
    store numbers and echo them, and never compute with them.  An array
    carries, next to its elements, the named properties that an assignment
    [array.name = v] has given it (none for an array that JSON.parse built). *)
Inductive jsval : Type :=
| JUndefined
| JNull
| JBool (b : bool)
| JNum (text : string)
| JStr (s : string)
| JArr (elems : list jsval) (named : gmap string jsval)
| JObj (props : gmap string jsval).

Abbreviation object := (gmap string jsval).

(** The own property [k] of an object, [undefined] when it has none. *)
Definition own (o : object) (k : string) : jsval := default JUndefined (o !! k).

(** ToBoolean. *)
Definition truthy (v : jsval) : bool :=
  match v with
  | JUndefined | JNull => false
  | JBool b => b
  | JNum t => negb (bool_decide (t = "0"))
  | JStr s => negb (bool_decide (s = ""))
  | JArr _ _ | JObj _ => true
  end.

(** ToString, as used by template literals, by [+=] on a string and by
    property keys.  [None] is a TypeError: an object built by JSON.parse
    with an own property 'toString' has no callable toString, and the
    inherited valueOf returns the object itself.  An array joins the
    strings of its elements. *)
Fixpoint to_string (v : jsval) : option string :=
  match v with
  | JUndefined => Some "undefined"
  | JNull => Some "null"
  | JBool true => Some "true"
  | JBool false => Some "false"
  | JNum t => Some t
  | JStr s => Some s
  | JArr l named =>
      match named !! "toString", named !! "join" with
      | Some _, _ => None
      | None, Some _ => Some "[object Array]"
      | None, None =>
          (fix join (l : list jsval) : option string :=
             match l with
             | [] => Some ""
             | x :: l' =>
                 match match x with
                       | JUndefined | JNull => Some ""
                       | _ => to_string x
                       end with
                 | None => None
                 | Some sx =>
                     match l' with
                     | [] => Some sx
                     | _ =>
                         match join l' with
                         | None => None
                         | Some rest => Some (sx +:+ "," +:+ rest)
                         end
                     end
                 end
             end) l
      end
  | JObj o =>
      match o !! "toString" with
      | Some _ => None
      | None => Some "[object Object]"
      end
  end.

(** [v === 'lit'] for a string literal. *)
Definition strict_eq_str (v : jsval) (lit : string) : bool :=
  match v with
  | JStr s => bool_decide (s = lit)
  | _ => false
  end.

(** [[...lits].includes(v)] for an array of string literals. *)
Definition includes (lits : list string) (v : jsval) : bool :=
  existsb (strict_eq_str v) lits.

(** [a || b] *)
Definition or_else (a b : jsval) : jsval := if truthy a then a else b.

Fixpoint drop_chars (n : nat) (s : string) : string :=
  match n, s with
  | S n', String _ s' => drop_chars n' s'
  | _, _ => s
  end.

(** [s.slice(-4)] on a string: the last four code units, the whole string
    when it is shorter. *)
Definition slice_last4 (s : string) : string :=
  drop_chars (String.length s - 4) s.

(** The method call [v.slice(-4)].  A string and an array have [slice];
    the slice of an array is a new array of its last four elements (the
    whole array when it has at most four).  Every other value, and an array
    that has been given a property 'slice', raises a TypeError ([None]). *)
Definition call_slice_last4 (v : jsval) : option jsval :=
  match v with
  | JStr s => Some (JStr (slice_last4 s))
  | JArr l named =>
      match named !! "slice" with
      | None => Some (JArr (drop (length l - 4) l) ∅)
      | Some _ => None
      end
  | _ => None
  end.

(** The named properties of a value that is an object, [None] for a
    string, number or boolean. *)
Definition props (v : jsval) : option object :=
  match v with
  | JObj o => Some o
  | JArr _ named => Some named
  | _ => None
  end.

(** [v.f = x] on a value: an object gains or updates the own property; on a
    string, number or boolean the assignment is ignored. *)
Definition with_prop (f : string) (x : jsval) (v : jsval) : jsval :=
  match v with
  | JObj o => JObj (<[f := x]> o)
  | JArr l named => JArr l (<[f := x]> named)
  | _ => v
  end.

(** *** What the handlers write *)

(** The property names that the handlers of the three programs assign on a
    payment they have looked up: server.js 119-121, 148-150, 177-179,
    204-205, 233-234; part_000 152-154, 175-177, 201-202, 229-230, 348-350,
    382-384, 418-421, 454-456, 489-490. *)
Inductive written : Type :=
| Status | CardLast4 | CapturedAmount | RefundedAmount | UpdatedAt
| PaymentMethod | RefundReason | CancelReason.

Definition name (w : written) : string :=
  match w with
  | Status => "status"
  | CardLast4 => "cardLast4"
  | CapturedAmount => "capturedAmount"
  | RefundedAmount => "refundedAmount"
  | UpdatedAt => "updatedAt"
  | PaymentMethod => "paymentMethod"
  | RefundReason => "refundReason"
  | CancelReason => "cancelReason"
  end.

Definition written_of (f : string) : option written :=
  if String.eqb f "status" then Some Status
  else if String.eqb f "cardLast4" then Some CardLast4
  else if String.eqb f "capturedAmount" then Some CapturedAmount
  else if String.eqb f "refundedAmount" then Some RefundedAmount
  else if String.eqb f "updatedAt" then Some UpdatedAt
  else if String.eqb f "paymentMethod" then Some PaymentMethod
  else if String.eqb f "refundReason" then Some RefundReason
  else if String.eqb f "cancelReason" then Some CancelReason
  else None.

Definition written_code (w : written) : nat :=
  match w with
  | Status => 0 | CardLast4 => 1 | CapturedAmount => 2 | RefundedAmount => 3
  | UpdatedAt => 4 | PaymentMethod => 5 | RefundReason => 6 | CancelReason => 7
  end.

Definition written_decode (n : nat) : written :=
  match n with
  | 0 => Status | 1 => CardLast4 | 2 => CapturedAmount | 3 => RefundedAmount
  | 4 => UpdatedAt | 5 => PaymentMethod | 6 => RefundReason | _ => CancelReason
  end.

#[global] Instance written_eq_dec : EqDecision written.
Proof. solve_decision. Defined.

#[global] Instance written_countable : Countable written :=
  inj_countable' written_code written_decode
    (λ w, match w with
          | Status | CardLast4 | CapturedAmount | RefundedAmount | UpdatedAt
          | PaymentMethod | RefundReason | CancelReason => eq_refl
          end).

(** *** The store *)

(** [paymentsDb] and the objects a handler can reach through it. *)
Record store := Store {
  (* the own properties of paymentsDb: paymentId to payment record *)
  payments : gmap string object;
  (* the record that an assignment paymentsDb['__proto__'] = record has made
     the prototype of paymentsDb (part_000 122), if there was one; the
     prototype of paymentsDb is Object.prototype otherwise, and is the
     prototype of every record *)
  payments_proto : option object;
  (* the properties that handlers have added to Object.prototype *)
  object_proto : gmap written jsval;
  (* the properties that handlers have added to the built-in functions that
     Object.prototype holds, by the name Object.prototype holds them under *)
  builtin_props : gmap string object
}.

(** The record stored under a paymentId, the store with a record put under
    a paymentId, and the store of a program that has just started. *)
#[global] Instance store_lookup : Lookup string object store :=
  λ id db, payments db !! id.

#[global] Instance store_insert : Insert string object store :=
  λ id record db,
    Store (<[id := record]> (payments db)) (payments_proto db) (object_proto db)
      (builtin_props db).

#[global] Instance store_empty : Empty store := Store ∅ None ∅ ∅.

(** The functions that Object.prototype holds, each with the name the
    function carries; '__proto__' is an accessor and is treated apart. *)
Definition object_prototype_functions : list (string * string) :=
  [("constructor", "Object");
   ("__defineGetter__", "__defineGetter__");
   ("__defineSetter__", "__defineSetter__");
   ("hasOwnProperty", "hasOwnProperty");
   ("__lookupGetter__", "__lookupGetter__");
   ("__lookupSetter__", "__lookupSetter__");
   ("isPrototypeOf", "isPrototypeOf");
   ("propertyIsEnumerable", "propertyIsEnumerable");
   ("toString", "toString");
   ("valueOf", "valueOf");
   ("toLocaleString", "toLocaleString")].

Definition object_prototype_function (key : string) : option string :=
  snd <$> find (λ p, String.eqb p.1 key) object_prototype_functions.

(** What an object that lacks [f] inherits from Object.prototype under a
    name [f] that is none of its built-in members: the value a handler has
    added under that name, if any. *)
Definition inherited (db : store) (f : string) : option jsval :=
  match written_of f with
  | Some w => object_proto db !! w
  | None => None
  end.

(** [o.f] on a plain object, for a property name [f] that the programs
    spell out (none of which is a built-in member of Object.prototype). *)
Definition get (db : store) (o : object) (f : string) : jsval :=
  match o !! f with
  | Some v => v
  | None => default JUndefined (inherited db f)
  end.

(** [v.f] on any value, for the property names the programs spell out after
    a value of the request ('number', 'expiry', 'cvv', 'success', 'failure',
    'cancel': none is a built-in property of strings, arrays, numbers or
    booleans).  [None] is the TypeError of reading a property of [undefined]
    or [null]. *)
Definition member (db : store) (v : jsval) (f : string) : option jsval :=
  match v with
  | JUndefined | JNull => None
  | JObj o => Some (get db o f)
  | JArr _ named => Some (get db named f)
  | JBool _ | JNum _ | JStr _ => Some (default JUndefined (inherited db f))
  end.

(** The own property [k] of the record that has been made the prototype of
    paymentsDb, if there is such a record and it has the property. *)
Definition proto_field (db : store) (k : string) : option jsval :=
  match payments_proto db with
  | Some proto => proto !! k
  | None => None
  end.

(** *** Where [paymentsDb[key]] is found *)

Inductive place : Type :=
| Stored (id : string)          (* an own property of paymentsDb: a record *)
| DbProto                       (* the record made prototype of paymentsDb *)
| DbProtoField (k : string)     (* the value of its own property k *)
| ObjectProto                   (* Object.prototype *)
| ObjectProtoField (w : written) (* a value that a handler has added to it *)
| Builtin (key : string).       (* the built-in function Object.prototype[key] *)

(** The lookup on Object.prototype, the end of every prototype chain. *)
Definition find_in_object_proto (db : store) (key : string) : option place :=
  match object_prototype_function key with
  | Some _ => Some (Builtin key)
  | None =>
      match written_of key with
      | Some w =>
          match object_proto db !! w with
          | Some _ => Some (ObjectProtoField w)
          | None => None
          end
      | None => None
      end
  end.

(** [paymentsDb[key]]: the own properties of paymentsDb, then those of the
    record that has been made its prototype, then Object.prototype, whose
    accessor '__proto__' yields the prototype of paymentsDb.  [None] is
    [undefined]. *)
Definition find_place (db : store) (key : string) : option place :=
  match db !! key with
  | Some _ => Some (Stored key)
  | None =>
      match payments_proto db with
      | Some proto =>
          match proto !! key with
          | Some _ => Some (DbProtoField key)
          | None =>
              if String.eqb key "__proto__" then Some DbProto
              else find_in_object_proto db key
          end
      | None =>
          if String.eqb key "__proto__" then Some ObjectProto
          else find_in_object_proto db key
      end
  end.

(** ToBoolean of what is found at a place: objects and functions are
    truthy, a value added to an object is as [truthy] says. *)
Definition truthy_at (db : store) (p : place) : bool :=
  match p with
  | Stored _ | DbProto | ObjectProto | Builtin _ => true
  | DbProtoField k =>
      truthy (default JUndefined (proto_field db k))
  | ObjectProtoField w => truthy (default JUndefined (object_proto db !! w))
  end.

(** [const payment = paymentsDb[key]; if (!payment) ...]: the place of the
    payment when the lookup yields a truthy value. *)
Definition find_payment (db : store) (key : string) : option place :=
  match find_place db key with
  | Some p => if truthy_at db p then Some p else None
  | None => None
  end.

(** The own named properties of what is found at a place; a string, number
    or boolean has none. *)
Definition props_at (db : store) (p : place) : object :=
  match p with
  | Stored id => default ∅ (db !! id)
  | DbProto => default ∅ (payments_proto db)
  | DbProtoField k => default ∅ (proto_field db k ≫= props)
  | ObjectProto => ∅
  | ObjectProtoField w => default ∅ (object_proto db !! w ≫= props)
  | Builtin key => default ∅ (builtin_props db !! key)
  end.

(** [payment.f] for a payment found at [p] and a property name [f] that the
    programs spell out: an own property, or what Object.prototype has been
    given under that name (the built-in prototypes of functions, strings,
    numbers and booleans hold none of these names). *)
Definition read (db : store) (p : place) (f : string) : jsval :=
  get db (props_at db p) f.

(** [payment.w = v] for a payment found at [p]. *)
Definition write (db : store) (p : place) (w : written) (v : jsval) : store :=
  match p with
  | Stored id =>
      Store (alter (<[name w := v]>) id (payments db)) (payments_proto db)
        (object_proto db) (builtin_props db)
  | DbProto =>
      Store (payments db) (<[name w := v]> <$> payments_proto db)
        (object_proto db) (builtin_props db)
  | DbProtoField k =>
      Store (payments db) (alter (with_prop (name w) v) k <$> payments_proto db)
        (object_proto db) (builtin_props db)
  | ObjectProto =>
      Store (payments db) (payments_proto db) (<[w := v]> (object_proto db))
        (builtin_props db)
  | ObjectProtoField w' =>
      Store (payments db) (payments_proto db)
        (alter (with_prop (name w) v) w' (object_proto db)) (builtin_props db)
  | Builtin key =>
      Store (payments db) (payments_proto db) (object_proto db)
        (<[key := <[name w := v]> (default ∅ (builtin_props db !! key))]>
           (builtin_props db))
  end.

(** [paymentsDb[key] = record]: an own property of paymentsDb, except for
    the key '__proto__', which reaches the setter of Object.prototype and
    makes the record the prototype of paymentsDb (unless paymentsDb or its
    prototype record has an own property of that name). *)
Definition define (db : store) (key : string) (record : object) : store :=
  if String.eqb key "__proto__" then
    match db !! key, proto_field db key with
    | None, None =>
        Store (payments db) (Some record) (object_proto db) (builtin_props db)
    | _, _ => <[key := record]> db
    end
  else <[key := record]> db.

End JS.

Export JS.

(** ** Requests, responses and the runtime *)

Record request := Request {
  headers : gmap string string;      (* req.headers, names in lower case *)
  body : object;                     (* req.body as parsed by bodyParser.json() *)
  validationErrors : list jsval      (* validationResult(req).array() *)
}.

Record response := Response {
  res_status : nat;                  (* HTTP status code *)
  res_body : jsval                   (* the value given to res.json *)
}.

(** The built-in prototypes of strings, arrays, numbers and booleans map
    the name of a member to the name of the function found there; which
    members there are depends on the version of the engine. *)
Record runtime := Runtime {
  API_KEY : string;                              (* process.env.API_KEY *)
  HMAC_SECRET : string;                          (* process.env.HMAC_SECRET *)
  PAYMENT_DOMAIN : string;                       (* process.env.PAYMENT_DOMAIN *)
  hmac_sha256_hex : string -> string -> string;  (* crypto.createHmac('sha256', key).update(msg).digest('hex') *)
  JSON_stringify : jsval -> string;              (* JSON.stringify *)
  String_prototype : gmap string string;
  Array_prototype : gmap string string;
  Number_prototype : gmap string string;
  Boolean_prototype : gmap string string
}.

(** [res.status(code).json({...})] *)
Definition json (code : nat) (fields : list (string * jsval)) : response :=
  Response code (JObj (list_to_map fields)).

(** The error-handling middleware, common to [Server] and [Variant1]. *)
Definition internal_error : response :=
  json 500 [("error", JStr "Internal server error")].

Definition not_found : response :=
  json 404 [("error", JStr "Payment not found")].

(** The property key of [paymentsDb[paymentId]] for the paymentId that a
    handler destructures from the request body; [None] when the conversion
    of the paymentId to a key raises a TypeError. *)
Definition key_of (req : request) : option string :=
  to_string (own (body req) "paymentId").

(** One request to the API together with what its handler draws from the
    environment: uuidv4() results, the random token, the clock. *)
Inductive call : Type :=
| Redirect (req : request) (uuid1 uuid2 token now : string)
| Create (req : request) (now1 now2 : string)
| Capture (req : request) (uuid now : string)
| Refund (req : request) (uuid now : string)
| Cancel (req : request) (uuid now : string)
| Callback (req : request) (now : string).

(** ** Property access with a computed key *)

Inductive builtin_class : Type :=
| OfObject | OfArray | OfString | OfNumber | OfBoolean.

(** What [v[key]] yields: a value of the data, a built-in function (by its
    name), or the prototype object of a class of values. *)
Inductive looked_up : Type :=
| Data (v : jsval)
| Native (name : string)
| Prototype (c : builtin_class).

Fixpoint decimal_value (s : string) (acc : N) : option N :=
  match s with
  | EmptyString => Some acc
  | String c s' =>
      match Ascii.is_nat c with
      | Some d => decimal_value s' (10 * acc + N.of_nat d)%N
      | None => None
      end
  end.

(** The index that a property key denotes: the key is '0' or a string of
    decimal digits that does not start with '0'. *)
Definition index_of_key (key : string) : option N :=
  match key with
  | EmptyString => None
  | String c rest =>
      if Ascii.eqb c "0"
      then if String.eqb rest "" then Some 0%N else None
      else decimal_value key 0
  end.

(** The index that [key] denotes, if it denotes one below [n]. *)
Definition index_below (key : string) (n : nat) : option nat :=
  match index_of_key key with
  | Some i => if (i <? N.of_nat n)%N then Some (N.to_nat i) else None
  | None => None
  end.

(** The lookup of [key] arrives at Object.prototype, for a value of class
    [c]: the accessor '__proto__' yields the prototype of the value. *)
Definition in_object_prototype (db : store) (key : string) (c : builtin_class)
    : looked_up :=
  if String.eqb key "__proto__" then Prototype c
  else
    match object_prototype_function key with
    | Some name => Native name
    | None => Data (default JUndefined (inherited db key))
    end.

Section ComputedKey.
Context (rt : runtime).

Definition in_prototype (members : gmap string string) (db : store)
    (key : string) (c : builtin_class) : looked_up :=
  match members !! key with
  | Some name => Native name
  | None => in_object_prototype db key c
  end.

(** [v[key]] for a key computed from the request: own properties (for an
    array its elements, 'length' and named properties, for a string its
    code units and 'length'), then the prototype of the class of [v], then
    Object.prototype.  [None] is the TypeError of reading a property of
    [undefined] or [null]. *)
Definition index (db : store) (v : jsval) (key : string) : option looked_up :=
  match v with
  | JUndefined | JNull => None
  | JObj o =>
      Some (match o !! key with
            | Some x => Data x
            | None => in_object_prototype db key OfObject
            end)
  | JArr l named =>
      Some (match index_below key (length l) ≫= (λ i, l !! i) with
            | Some x => Data x
            | None =>
                if String.eqb key "length" then Data (JNum (pretty (length l)))
                else
                  match named !! key with
                  | Some x => Data x
                  | None => in_prototype (Array_prototype rt) db key OfArray
                  end
            end)
  | JStr s =>
      Some (match index_below key (String.length s) ≫= (λ i, String.get i s) with
            | Some c => Data (JStr (String c ""))
            | None =>
                if String.eqb key "length"
                then Data (JNum (pretty (String.length s)))
                else in_prototype (String_prototype rt) db key OfString
            end)
  | JNum _ => Some (in_prototype (Number_prototype rt) db key OfNumber)
  | JBool _ => Some (in_prototype (Boolean_prototype rt) db key OfBoolean)
  end.

End ComputedKey.

(** The text of a built-in function. *)
Definition native_code (name : string) : string :=
  "function " +:+ name +:+ "() { [native code] }".

(** ToString of what a lookup has yielded.  Array.prototype is an empty
    array, String.prototype the empty string, Number.prototype the number 0
    and Boolean.prototype [false], each as an object. *)
Definition text (x : looked_up) : option string :=
  match x with
  | Data v => to_string v
  | Native name => Some (native_code name)
  | Prototype OfObject => Some "[object Object]"
  | Prototype OfArray | Prototype OfString => Some ""
  | Prototype OfNumber => Some "0"
  | Prototype OfBoolean => Some "false"
  end.

(** ToBoolean of what a lookup has yielded. *)
Definition truthy_found (x : looked_up) : bool :=
  match x with
  | Data v => truthy v
  | Native _ | Prototype _ => true
  end.

(** ** src/backend/server.js *)

Module Server.
Section Handlers.
Context (rt : runtime).

(** server.js 28-32 *)
Definition generateSignature (data : jsval) : string :=
  hmac_sha256_hex rt (HMAC_SECRET rt) (JSON_stringify rt data).

(** server.js 35-41: [true] is [next()], [false] the 401 answer. *)
Definition authenticate (req : request) : bool :=
  bool_decide (headers req !! "x-api-key" = Some (API_KEY rt)).

Definition unauthorized : response :=
  json 401 [("error", JStr "Unauthorized")].

Definition bad_request (req : request) : response :=
  json 400 [("errors", JArr (validationErrors req) ∅)].

(** server.js 70-97.  [uuid1] and [uuid2] are the two results of uuidv4(),
    [token] is crypto.randomBytes(16).toString('hex'), [now] is
    new Date().toISOString(). *)
Definition redirect (req : request) (uuid1 uuid2 token now : string)
    (paymentsDb : store) : response * store :=
  if negb (bool_decide (validationErrors req = [])) then (bad_request req, paymentsDb)
  else
    let orderId := get paymentsDb (body req) "orderId" in
    let amount := get paymentsDb (body req) "amount" in
    let callbackUrls := get paymentsDb (body req) "callbackUrls" in
    let paymentId := "pay_" +:+ uuid1 in
    let paymentsDb' :=
      define paymentsDb paymentId
        (list_to_map
           [("paymentId", JStr paymentId);
            ("orderId", orderId);
            ("amount", amount);
            ("currency", or_else (get paymentsDb (body req) "currency") (JStr "USD"));
            ("status", JStr "pending");
            ("callbackUrls", callbackUrls);
            ("createdAt", JStr now)]) in
    let redirectUrl :=
      PAYMENT_DOMAIN rt +:+ "/checkout?paymentId=" +:+ paymentId
        +:+ "&token=" +:+ token in
    (json 200 [("redirectUrl", JStr redirectUrl);
               ("transactionId", JStr ("trans_" +:+ uuid2));
               ("status", JStr "pending")],
     paymentsDb').

(** server.js 105-130 *)
Definition create (req : request) (now : string) (paymentsDb : store)
    : response * store :=
  if negb (bool_decide (validationErrors req = [])) then (bad_request req, paymentsDb)
  else
    let paymentId := get paymentsDb (body req) "paymentId" in
    let cardDetails := get paymentsDb (body req) "cardDetails" in
    match to_string paymentId with
    | None => (internal_error, paymentsDb)
    | Some key =>
        match find_payment paymentsDb key with
        | None => (not_found, paymentsDb)
        | Some payment =>
            (* payment.status = 'created' *)
            let paymentsDb1 := write paymentsDb payment Status (JStr "created") in
            (* payment.cardLast4 = cardDetails.number.slice(-4) *)
            match member paymentsDb1 cardDetails "number" ≫= call_slice_last4 with
            | None => (internal_error, paymentsDb1)
            | Some last4 =>
                let paymentsDb2 := write paymentsDb1 payment CardLast4 last4 in
                let paymentsDb3 := write paymentsDb2 payment UpdatedAt (JStr now) in
                (json 200 [("paymentId", paymentId);
                           ("status", JStr "created");
                           ("amount", read paymentsDb3 payment "amount");
                           ("currency", read paymentsDb3 payment "currency");
                           ("timestamp", read paymentsDb3 payment "updatedAt")],
                 paymentsDb3)
            end
        end
    end.

(** server.js 136-159 *)
Definition capture (req : request) (uuid now : string) (paymentsDb : store)
    : response * store :=
  let paymentId := get paymentsDb (body req) "paymentId" in
  let amount := get paymentsDb (body req) "amount" in
  match to_string paymentId with
  | None => (internal_error, paymentsDb)
  | Some key =>
      match find_payment paymentsDb key with
      | None => (not_found, paymentsDb)
      | Some payment =>
          if negb (strict_eq_str (read paymentsDb payment "status") "created")
          then (json 400 [("error", JStr "Payment not in creatable state")], paymentsDb)
          else
            let paymentsDb1 := write paymentsDb payment Status (JStr "captured") in
            let paymentsDb2 := write paymentsDb1 payment CapturedAmount amount in
            let paymentsDb3 := write paymentsDb2 payment UpdatedAt (JStr now) in
            (json 200 [("captureId", JStr ("cap_" +:+ uuid));
                       ("status", JStr "captured");
                       ("amount", amount);
                       ("timestamp", read paymentsDb3 payment "updatedAt")],
             paymentsDb3)
      end
  end.

(** server.js 165-187 *)
Definition refund (req : request) (uuid now : string) (paymentsDb : store)
    : response * store :=
  let paymentId := get paymentsDb (body req) "paymentId" in
  let amount := get paymentsDb (body req) "amount" in
  match to_string paymentId with
  | None => (internal_error, paymentsDb)
  | Some key =>
      match find_payment paymentsDb key with
      | None => (not_found, paymentsDb)
      | Some payment =>
          if negb (strict_eq_str (read paymentsDb payment "status") "captured")
          then (json 400 [("error", JStr "Payment not refundable")], paymentsDb)
          else
            let paymentsDb1 := write paymentsDb payment Status (JStr "refunded") in
            let paymentsDb2 := write paymentsDb1 payment RefundedAmount amount in
            let paymentsDb3 := write paymentsDb2 payment UpdatedAt (JStr now) in
            (json 200 [("refundId", JStr ("ref_" +:+ uuid));
                       ("status", JStr "refunded");
                       ("amount", amount);
                       ("timestamp", read paymentsDb3 payment "updatedAt")],
             paymentsDb3)
      end
  end.

(** server.js 192-212 *)
Definition cancel (req : request) (uuid now : string) (paymentsDb : store)
    : response * store :=
  let paymentId := get paymentsDb (body req) "paymentId" in
  match to_string paymentId with
  | None => (internal_error, paymentsDb)
  | Some key =>
      match find_payment paymentsDb key with
      | None => (not_found, paymentsDb)
      | Some payment =>
          if negb (includes ["pending"; "created"] (read paymentsDb payment "status"))
          then (json 400 [("error", JStr "Payment not cancelable")], paymentsDb)
          else
            let paymentsDb1 := write paymentsDb payment Status (JStr "canceled") in
            let paymentsDb2 := write paymentsDb1 payment UpdatedAt (JStr now) in
            (json 200 [("cancellationId", JStr ("can_" +:+ uuid));
                       ("status", JStr "canceled");
                       ("timestamp", read paymentsDb2 payment "updatedAt")],
             paymentsDb2)
      end
  end.

(** server.js 218-244 *)
Definition callback (req : request) (now : string) (paymentsDb : store)
    : response * store :=
  let paymentId := get paymentsDb (body req) "paymentId" in
  let status := get paymentsDb (body req) "status" in
  match to_string paymentId with
  | None => (internal_error, paymentsDb)
  | Some key =>
      match find_payment paymentsDb key with
      | None => (not_found, paymentsDb)
      | Some payment =>
          let signature := headers req !! "x-signature" in
          let expectedSignature := generateSignature (JObj (body req)) in
          if negb (bool_decide (signature = Some expectedSignature))
          then (json 403 [("error", JStr "Invalid signature")], paymentsDb)
          else
            let paymentsDb1 := write paymentsDb payment Status status in
            let paymentsDb2 := write paymentsDb1 payment UpdatedAt (JStr now) in
            (* `${payment.callbackUrls[status]}&sig=...` *)
            match (to_string status
                     ≫= index rt paymentsDb2 (read paymentsDb2 payment "callbackUrls"))
                    ≫= text with
            | None => (internal_error, paymentsDb2)
            | Some callbackUrl =>
                let signedCallbackUrl :=
                  callbackUrl +:+ "&sig=" +:+
                  generateSignature
                    (JObj (list_to_map [("paymentId", paymentId); ("status", status)])) in
                (json 200 [("redirectUrl", JStr signedCallbackUrl);
                           ("status", JStr "callback_processed")],
                 paymentsDb2)
            end
      end
  end.

(** A route with [authenticate] in front of its handler. *)
Definition authenticated (req : request) (h : store -> response * store)
    (paymentsDb : store) : response * store :=
  if authenticate req then h paymentsDb else (unauthorized, paymentsDb).

(** The routes of server.js: every route but the callback runs
    [authenticate] before its handler (server.js 64-70, 100-105, 133-136,
    162-165, 190-192, 215-218).  create reads the clock once. *)
Definition step (c : call) (paymentsDb : store) : response * store :=
  match c with
  | Redirect req uuid1 uuid2 token now =>
      authenticated req (redirect req uuid1 uuid2 token now) paymentsDb
  | Create req now _ => authenticated req (create req now) paymentsDb
  | Capture req uuid now => authenticated req (capture req uuid now) paymentsDb
  | Refund req uuid now => authenticated req (refund req uuid now) paymentsDb
  | Cancel req uuid now => authenticated req (cancel req uuid now) paymentsDb
  | Callback req now => callback req now paymentsDb
  end.

(** The store after a sequence of calls, each handled to completion. *)
Definition run (cs : list call) (paymentsDb : store) : store :=
  foldl (fun paymentsDb c => (step c paymentsDb).2) paymentsDb cs.

End Handlers.
End Server.

(** ** src/unnamed/part_000, first program *)

Module Variant1.
Section Handlers.
Context (rt : runtime).

(** part_000 32-36 *)
Definition generateSignature (data : jsval) : string :=
  hmac_sha256_hex rt (HMAC_SECRET rt) (JSON_stringify rt data).

Inductive auth_outcome := AuthNext | AuthDenied | AuthThrows.

(** part_000 51-61.  [verifyWixSignature] is declared nowhere in the
    program: evaluating the call raises a ReferenceError, which happens when
    the API key does not match and the x-wix-signature header is a non-empty
    string. *)
Definition authenticate (req : request) : auth_outcome :=
  if bool_decide (headers req !! "x-api-key" = Some (API_KEY rt)) then AuthNext
  else
    match headers req !! "x-wix-signature" with
    | Some wixSignature =>
        if bool_decide (wixSignature = "") then AuthDenied else AuthThrows
    | None => AuthDenied
    end.

(** part_000 87-114: the text of server.js 70-97. *)
Definition redirect := Server.redirect rt.

(** part_000 119-138.  The handler does not consult validationResult; the
    object literal and the key are evaluated before the store is assigned,
    so a throw in them leaves the store as it was.  [now1] and [now2] are
    the two readings of the clock.  The answer reads createdAt from
    [paymentsDb[paymentId]], which is the record just assigned. *)
Definition create (req : request) (now1 now2 : string) (paymentsDb : store)
    : response * store :=
  let paymentId := get paymentsDb (body req) "paymentId" in
  let cardDetails := get paymentsDb (body req) "cardDetails" in
  match member paymentsDb cardDetails "number" ≫= call_slice_last4,
        member paymentsDb cardDetails "expiry",
        to_string paymentId with
  | Some last4, Some expiry, Some key =>
      let record : object :=
        list_to_map
          [("id", paymentId);
           ("status", JStr "created");
           ("cardDetails", JObj (list_to_map [("last4", last4); ("expiry", expiry)]));
           ("createdAt", JStr now1);
           ("updatedAt", JStr now2)] in
      (json 200 [("paymentId", paymentId);
                 ("status", JStr "created");
                 ("timestamp", own record "createdAt")],
       define paymentsDb key record)
  | _, _, _ => (internal_error, paymentsDb)
  end.

(** part_000 143-162 *)
Definition capture (req : request) (now : string) (paymentsDb : store)
    : response * store :=
  let paymentId := get paymentsDb (body req) "paymentId" in
  let amount := get paymentsDb (body req) "amount" in
  match to_string paymentId with
  | None => (internal_error, paymentsDb)
  | Some key =>
      match find_payment paymentsDb key with
      | None => (not_found, paymentsDb)
      | Some payment =>
          let paymentsDb1 := write paymentsDb payment Status (JStr "captured") in
          let paymentsDb2 := write paymentsDb1 payment CapturedAmount amount in
          let paymentsDb3 := write paymentsDb2 payment UpdatedAt (JStr now) in
          (json 200 [("paymentId", paymentId);
                     ("status", JStr "captured");
                     ("amount", amount);
                     ("timestamp", read paymentsDb3 payment "updatedAt")],
           paymentsDb3)
      end
  end.

(** part_000 167-185 *)
Definition refund (req : request) (uuid now : string) (paymentsDb : store)
    : response * store :=
  let paymentId := get paymentsDb (body req) "paymentId" in
  let amount := get paymentsDb (body req) "amount" in
  match to_string paymentId with
  | None => (internal_error, paymentsDb)
  | Some key =>
      match find_payment paymentsDb key with
      | None => (not_found, paymentsDb)
      | Some payment =>
          let paymentsDb1 := write paymentsDb payment Status (JStr "refunded") in
          let paymentsDb2 := write paymentsDb1 payment RefundedAmount amount in
          let paymentsDb3 := write paymentsDb2 payment UpdatedAt (JStr now) in
          (json 200 [("refundId", JStr ("ref_" +:+ uuid));
                     ("status", JStr "refunded");
                     ("amount", amount);
                     ("timestamp", read paymentsDb3 payment "updatedAt")],
           paymentsDb3)
      end
  end.

(** part_000 189-209: the text of server.js 192-212. *)
Definition cancel := Server.cancel.

(** part_000 214-241 *)
Definition callback (req : request) (now : string) (paymentsDb : store)
    : response * store :=
  let paymentId := get paymentsDb (body req) "paymentId" in
  let status := get paymentsDb (body req) "status" in
  match to_string paymentId with
  | None => (internal_error, paymentsDb)
  | Some key =>
      match find_payment paymentsDb key with
      | None => (not_found, paymentsDb)
      | Some payment =>
          let signature := headers req !! "x-signature" in
          let expectedSignature := generateSignature (JObj (body req)) in
          if negb (bool_decide (signature = Some expectedSignature))
          then (json 403 [("error", JStr "Invalid signature")], paymentsDb)
          else
            let paymentsDb1 := write paymentsDb payment Status status in
            let paymentsDb2 := write paymentsDb1 payment UpdatedAt (JStr now) in
            (* payment.callbackUrls ? payment.callbackUrls[status] : null *)
            let callbackUrls := read paymentsDb2 payment "callbackUrls" in
            match if truthy callbackUrls
                  then to_string status ≫= index rt paymentsDb2 callbackUrls
                  else Some (Data JNull) with
            | None => (internal_error, paymentsDb2)
            | Some callbackUrl =>
                (* callbackUrl ? `${callbackUrl}&sig=...` : null *)
                match if truthy_found callbackUrl
                      then (λ url,
                              JStr (url +:+ "&sig=" +:+
                                    generateSignature
                                      (JObj (list_to_map
                                               [("paymentId", paymentId);
                                                ("status", status)]))))
                           <$> text callbackUrl
                      else Some JNull with
                | None => (internal_error, paymentsDb2)
                | Some signedCallbackUrl =>
                    (json 200 [("status", JStr "callback_processed");
                               ("redirectUrl", signedCallbackUrl)],
                     paymentsDb2)
                end
            end
      end
  end.

Definition authenticated (req : request) (h : store -> response * store)
    (paymentsDb : store) : response * store :=
  match authenticate req with
  | AuthNext => h paymentsDb
  | AuthDenied => (Server.unauthorized, paymentsDb)
  | AuthThrows => (internal_error, paymentsDb)
  end.

(** The routes of the program (part_000 81-87, 116-119, 140-143, 164-167,
    187-189, 211-214). *)
Definition step (c : call) (paymentsDb : store) : response * store :=
  match c with
  | Redirect req uuid1 uuid2 token now =>
      authenticated req (redirect req uuid1 uuid2 token now) paymentsDb
  | Create req now1 now2 => authenticated req (create req now1 now2) paymentsDb
  | Capture req _ now => authenticated req (capture req now) paymentsDb
  | Refund req uuid now => authenticated req (refund req uuid now) paymentsDb
  | Cancel req uuid now => authenticated req (cancel req uuid now) paymentsDb
  | Callback req now => callback req now paymentsDb
  end.

(** The store after a sequence of calls, each handled to completion. *)
Definition run (cs : list call) (paymentsDb : store) : store :=
  foldl (fun paymentsDb c => (step c paymentsDb).2) paymentsDb cs.

End Handlers.
End Variant1.

(** ** src/unnamed/part_000, second program *)

Module Variant2.
Section Handlers.
Context (rt : runtime).

(** part_000 267-271: [process.env.HMAC_SECRET || 'your_hmac_secret'] *)
Definition hmacSecret : string :=
  if bool_decide (HMAC_SECRET rt = "") then "your_hmac_secret" else HMAC_SECRET rt.

(** part_000 277-281 *)
Definition generateSignature (data : jsval) : string :=
  hmac_sha256_hex rt hmacSecret (JSON_stringify rt data).

(** The answer of every catch block of the program. *)
Definition caught : response :=
  json 500 [("error", JStr "Internal server error")].

(** part_000 284-321 *)
Definition redirect (req : request) (uuid1 uuid2 token now : string)
    (paymentsDb : store) : response * store :=
  let orderId := get paymentsDb (body req) "orderId" in
  let amount := get paymentsDb (body req) "amount" in
  let currency := get paymentsDb (body req) "currency" in
  let callbackUrls := get paymentsDb (body req) "callbackUrls" in
  if negb (truthy orderId) || negb (truthy amount) || negb (truthy currency)
     || negb (truthy callbackUrls)
  then (json 400 [("error", JStr "Missing required fields")], paymentsDb)
  else
    let paymentId := "pay_" +:+ uuid1 in
    let transactionId := "trans_" +:+ uuid2 in
    let paymentsDb' :=
      define paymentsDb paymentId
        (list_to_map
           [("paymentId", JStr paymentId);
            ("orderId", orderId);
            ("amount", amount);
            ("currency", currency);
            ("status", JStr "pending");
            ("createdAt", JStr now);
            ("callbackUrls", callbackUrls)]) in
    let redirectUrl :=
      "https://yourpaymentgateway.com/checkout?paymentId=" +:+ paymentId
        +:+ "&token=" +:+ token in
    (json 200 [("redirectUrl", JStr redirectUrl);
               ("transactionId", JStr transactionId);
               ("status", JStr "redirect")],
     paymentsDb').

(** In the handlers below the program writes [paymentsDb[paymentId]] anew
    in every statement; after the first lookup has found a truthy value,
    every later one finds the same object ([find_payment_write]). *)

(** part_000 475-520.  The handler never reads the x-signature header.
    [now1] and [now2] are the two readings of the clock. *)
Definition callback (req : request) (now1 now2 : string) (paymentsDb : store)
    : response * store :=
  let paymentId := get paymentsDb (body req) "paymentId" in
  let status := get paymentsDb (body req) "status" in
  match to_string paymentId with
  | None => (caught, paymentsDb)
  | Some key =>
      match find_payment paymentsDb key with
      | None => (not_found, paymentsDb)
      | Some payment =>
          if negb (includes ["success"; "failed"; "canceled"] status)
          then (json 400 [("error", JStr "Invalid status")], paymentsDb)
          else
            let paymentsDb1 := write paymentsDb payment Status status in
            let paymentsDb2 := write paymentsDb1 payment UpdatedAt (JStr now1) in
            (* switch (status) *)
            let callbackUrls := read paymentsDb2 payment "callbackUrls" in
            let selected :=
              if strict_eq_str status "success"
              then member paymentsDb2 callbackUrls "success"
              else if strict_eq_str status "failed"
              then member paymentsDb2 callbackUrls "failure"
              else if strict_eq_str status "canceled"
              then member paymentsDb2 callbackUrls "cancel"
              else Some JUndefined in
            (* redirectUrl += `&sig=${signature}` *)
            match selected ≫= to_string with
            | None => (caught, paymentsDb2)
            | Some redirectUrl =>
                let signature :=
                  generateSignature
                    (JObj (list_to_map [("paymentId", paymentId); ("status", status)])) in
                (json 200 [("redirectUrl",
                            JStr (redirectUrl +:+ "&sig=" +:+ signature));
                           ("status", JStr "callback_processed");
                           ("timestamp", JStr now2)],
                 paymentsDb2)
            end
      end
  end.

(** part_000 556-579, [cardNumber.replace(/\D/g, '')]: the digits of the
    string, in order. *)
Fixpoint remove_non_digits (s : string) : string :=
  match s with
  | EmptyString => EmptyString
  | String c s' =>
      match Ascii.is_nat c with
      | Some _ => String c (remove_non_digits s')
      | None => remove_non_digits s'
      end
  end.

(** [parseInt(cleaned.charAt(i), 10)] for an index of [cleaned], which holds
    digits only. *)
Definition digit_at (cleaned : string) (i : nat) : nat :=
  default 0 (String.get i cleaned ≫= Ascii.is_nat).

(** [digit *= 2; if (digit > 9) digit -= 9] *)
Definition doubled (digit : nat) : nat :=
  let digit := digit * 2 in
  if 9 <? digit then digit - 9 else digit.

(** The loop of validateCardNumber with [n] iterations left: the next index
    is [n - 1]. *)
Fixpoint luhn_loop (cleaned : string) (n : nat) (sum : nat) (shouldDouble : bool)
    : nat :=
  match n with
  | 0 => sum
  | S i =>
      let digit := digit_at cleaned i in
      let digit := if shouldDouble then doubled digit else digit in
      luhn_loop cleaned i (sum + digit) (negb shouldDouble)
  end.

(** part_000 556-579, on a string. *)
Definition validateCardNumber (cardNumber : string) : bool :=
  let cleaned := remove_non_digits cardNumber in
  luhn_loop cleaned (String.length cleaned) 0 false mod 10 =? 0.

(** The call [validateCardNumber(v)]: only strings have [replace], every
    other value raises a TypeError ([None]). *)
Definition call_validateCardNumber (v : jsval) : option bool :=
  match v with
  | JStr s => Some (validateCardNumber s)
  | _ => None
  end.

(** [v.k] where [v] is known to be truthy, or where a falsy [v] has already
    decided the enclosing [||]. *)
Definition field (db : store) (v : jsval) (k : string) : jsval :=
  default JUndefined (member db v k).

(** part_000 324-364.  [now1] and [now2] are the two readings of the
    clock. *)
Definition create (req : request) (now1 now2 : string) (paymentsDb : store)
    : response * store :=
  let paymentId := get paymentsDb (body req) "paymentId" in
  let paymentMethod := get paymentsDb (body req) "paymentMethod" in
  let cardDetails := get paymentsDb (body req) "cardDetails" in
  match to_string paymentId with
  | None => (caught, paymentsDb)
  | Some key =>
      match find_payment paymentsDb key with
      | None => (not_found, paymentsDb)
      | Some payment =>
          let proceed :=
            let paymentsDb1 := write paymentsDb payment Status (JStr "created") in
            let paymentsDb2 := write paymentsDb1 payment PaymentMethod paymentMethod in
            let paymentsDb3 := write paymentsDb2 payment UpdatedAt (JStr now1) in
            (json 200 [("paymentId", paymentId);
                       ("status", JStr "created");
                       ("amount", read paymentsDb3 payment "amount");
                       ("currency", read paymentsDb3 payment "currency");
                       ("timestamp", JStr now2)],
             paymentsDb3) in
          if strict_eq_str paymentMethod "credit_card" then
            if negb (truthy cardDetails)
               || negb (truthy (field paymentsDb cardDetails "number"))
               || negb (truthy (field paymentsDb cardDetails "expiry"))
               || negb (truthy (field paymentsDb cardDetails "cvv"))
            then (json 400 [("error", JStr "Invalid card details")], paymentsDb)
            else
              match call_validateCardNumber (field paymentsDb cardDetails "number") with
              | None => (caught, paymentsDb)
              | Some false =>
                  (json 400 [("error", JStr "Invalid card number")], paymentsDb)
              | Some true => proceed
              end
          else proceed
      end
  end.

(** part_000 367-400.  notifyWix (part_000 523-553) builds a payload and
    writes a line to the console; it is not awaited and nothing of the
    store or of the response depends on it. *)
Definition capture (req : request) (uuid now1 now2 : string) (paymentsDb : store)
    : response * store :=
  let paymentId := get paymentsDb (body req) "paymentId" in
  let amount := get paymentsDb (body req) "amount" in
  match to_string paymentId with
  | None => (caught, paymentsDb)
  | Some key =>
      match find_payment paymentsDb key with
      | None => (not_found, paymentsDb)
      | Some payment =>
          if negb (strict_eq_str (read paymentsDb payment "status") "created")
          then (json 400 [("error", JStr "Payment not in creatable state")], paymentsDb)
          else
            let paymentsDb1 := write paymentsDb payment Status (JStr "captured") in
            let paymentsDb2 := write paymentsDb1 payment CapturedAmount amount in
            let paymentsDb3 := write paymentsDb2 payment UpdatedAt (JStr now1) in
            (json 200 [("captureId", JStr ("cap_" +:+ uuid));
                       ("status", JStr "captured");
                       ("amount", amount);
                       ("timestamp", JStr now2)],
             paymentsDb3)
      end
  end.

(** part_000 403-438 *)
Definition refund (req : request) (uuid now1 now2 : string) (paymentsDb : store)
    : response * store :=
  let paymentId := get paymentsDb (body req) "paymentId" in
  let amount := get paymentsDb (body req) "amount" in
  let reason := get paymentsDb (body req) "reason" in
  match to_string paymentId with
  | None => (caught, paymentsDb)
  | Some key =>
      match find_payment paymentsDb key with
      | None => (not_found, paymentsDb)
      | Some payment =>
          if negb (strict_eq_str (read paymentsDb payment "status") "captured")
          then (json 400 [("error", JStr "Payment not in refundable state")], paymentsDb)
          else
            let paymentsDb1 := write paymentsDb payment Status (JStr "refunded") in
            let paymentsDb2 := write paymentsDb1 payment RefundedAmount amount in
            let paymentsDb3 := write paymentsDb2 payment RefundReason reason in
            let paymentsDb4 := write paymentsDb3 payment UpdatedAt (JStr now1) in
            (json 200 [("refundId", JStr ("ref_" +:+ uuid));
                       ("status", JStr "refunded");
                       ("amount", amount);
                       ("reason", reason);
                       ("timestamp", JStr now2)],
             paymentsDb4)
      end
  end.

(** part_000 441-472 *)
Definition cancel (req : request) (uuid now1 now2 : string) (paymentsDb : store)
    : response * store :=
  let paymentId := get paymentsDb (body req) "paymentId" in
  let reason := get paymentsDb (body req) "reason" in
  match to_string paymentId with
  | None => (caught, paymentsDb)
  | Some key =>
      match find_payment paymentsDb key with
      | None => (not_found, paymentsDb)
      | Some payment =>
          if negb (includes ["pending"; "created"] (read paymentsDb payment "status"))
          then (json 400 [("error", JStr "Payment not in cancelable state")], paymentsDb)
          else
            let paymentsDb1 := write paymentsDb payment Status (JStr "canceled") in
            let paymentsDb2 := write paymentsDb1 payment CancelReason reason in
            let paymentsDb3 := write paymentsDb2 payment UpdatedAt (JStr now1) in
            (json 200 [("cancellationId", JStr ("can_" +:+ uuid));
                       ("status", JStr "canceled");
                       ("reason", reason);
                       ("timestamp", JStr now2)],
             paymentsDb3)
      end
  end.

(** The six routes of the program; none runs a middleware in front of its
    handler. *)
Inductive route : Type :=
| PostRedirect | PostCreate | PostCapture | PostRefund | PostCancel
| PostCallback.

(** What a handler draws from its environment: uuidv4() results, the random
    token, two readings of the clock. *)
Record draws := Draws {
  uuid1 : string; uuid2 : string; token : string; now1 : string; now2 : string
}.

Definition handle (r : route) (req : request) (e : draws) (paymentsDb : store)
    : response * store :=
  match r with
  | PostRedirect => redirect req (uuid1 e) (uuid2 e) (token e) (now1 e) paymentsDb
  | PostCreate => create req (now1 e) (now2 e) paymentsDb
  | PostCapture => capture req (uuid1 e) (now1 e) (now2 e) paymentsDb
  | PostRefund => refund req (uuid1 e) (now1 e) (now2 e) paymentsDb
  | PostCancel => cancel req (uuid1 e) (now1 e) (now2 e) paymentsDb
  | PostCallback => callback req (now1 e) (now2 e) paymentsDb
  end.

(** The store after a sequence of requests, each handled to completion. *)
Definition run (rs : list (route * request * draws)) (paymentsDb : store)
    : store :=
  foldl (fun paymentsDb '(r, req, e) => (handle r req e paymentsDb).2) paymentsDb rs.

End Handlers.
End Variant2.

(** ** A concrete deployment, for evaluating the handlers

    [demo_runtime] fixes the configuration and puts transparent stand-ins in
    place of the HMAC and of JSON.stringify (the theorems below hold for
    every [runtime]). *)

(** A built-in prototype whose members are functions named as their keys,
    next to its constructor. *)
Definition methods (constructor : string) (names : list string)
    : gmap string string :=
  <["constructor" := constructor]> (list_to_map ((λ n, (n, n)) <$> names)).

Definition demo_runtime : runtime :=
  {| API_KEY := "k3y";
     HMAC_SECRET := "s3cret";
     PAYMENT_DOMAIN := "https://pay.example";
     hmac_sha256_hex := fun key msg => "hmac[" +:+ key +:+ "|" +:+ msg +:+ "]";
     JSON_stringify := fun v => default "" (to_string v);
     String_prototype :=
       methods "String"
         ["at"; "charAt"; "charCodeAt"; "codePointAt"; "concat"; "endsWith";
          "includes"; "indexOf"; "lastIndexOf"; "localeCompare"; "match";
          "matchAll"; "normalize"; "padEnd"; "padStart"; "repeat"; "replace";
          "replaceAll"; "search"; "slice"; "split"; "startsWith"; "substr";
          "substring"; "toLocaleLowerCase"; "toLocaleUpperCase"; "toLowerCase";
          "toString"; "toUpperCase"; "trim"; "trimEnd"; "trimStart"; "valueOf"];
     Array_prototype :=
       methods "Array"
         ["at"; "concat"; "copyWithin"; "entries"; "every"; "fill"; "filter";
          "find"; "findIndex"; "flat"; "flatMap"; "forEach"; "includes";
          "indexOf"; "join"; "keys"; "lastIndexOf"; "map"; "pop"; "push";
          "reduce"; "reduceRight"; "reverse"; "shift"; "slice"; "some"; "sort";
          "splice"; "toLocaleString"; "toString"; "unshift"; "values"];
     Number_prototype :=
       methods "Number"
         ["toExponential"; "toFixed"; "toLocaleString"; "toPrecision";
          "toString"; "valueOf"];
     Boolean_prototype := methods "Boolean" ["toString"; "valueOf"] |}.

Definition demo_urls : jsval :=
  JObj (list_to_map
          [("success", JStr "https://x/s?o=1");
           ("failure", JStr "https://x/f?o=1");
           ("cancel", JStr "https://x/c?o=1")]).

(** A request carrying the API key and no validation error. *)
Definition api_request (fields : list (string * jsval)) : request :=
  {| headers := {["x-api-key" := "k3y"]};
     body := list_to_map fields;
     validationErrors := [] |}.

Definition redirect_request (orderId : string) : request :=
  api_request
    [("orderId", JStr orderId); ("amount", JNum "10"); ("currency", JStr "EUR");
     ("callbackUrls", demo_urls)].

(** A create request whose card number is [number]. *)
Definition number_request (paymentId : string) (number : jsval) : request :=
  api_request
    [("paymentId", JStr paymentId);
     ("cardDetails",
      JObj (list_to_map
              [("number", number);
               ("expiry", JStr "12/30");
               ("cvv", JStr "123")]))].

Definition card_request (paymentId : string) : request :=
  number_request paymentId (JStr "4111111111111111").

Definition amount_request (paymentId : string) : request :=
  api_request [("paymentId", JStr paymentId); ("amount", JNum "10")].

(** A callback request with the given x-signature header. *)
Definition callback_request (paymentId status : string) (signature : string)
    : request :=
  {| headers := {["x-signature" := signature]};
     body := list_to_map [("paymentId", JStr paymentId); ("status", JStr status)];
     validationErrors := [] |}.

(** The record that redirect stores for [redirect_request orderId] under
    uuid ["u1"] at time ["t0"]. *)
Definition pending_record (orderId : string) : object :=
  list_to_map
    [("paymentId", JStr "pay_u1"); ("orderId", JStr orderId);
     ("amount", JNum "10"); ("currency", JStr "EUR");
     ("status", JStr "pending"); ("callbackUrls", demo_urls);
     ("createdAt", JStr "t0")].

(** The stores along redirect, create, capture, refund on server.js. *)
Definition demo_pending : store :=
  (Server.redirect demo_runtime (redirect_request "o1") "u1" "u2" "tok" "t0" ∅).2.

Definition demo_created : store :=
  (Server.create (card_request "pay_u1") "t1" demo_pending).2.

Definition demo_captured : store :=
  (Server.capture (amount_request "pay_u1") "u3" "t2" demo_created).2.

Definition demo_refunded : store :=
  (Server.refund (amount_request "pay_u1") "u4" "t3" demo_captured).2.

(** A callback request signed with the secret of [demo_runtime]. *)
Definition signed_callback_request (paymentId status : string) : request :=
  callback_request paymentId status
    (Server.generateSignature demo_runtime
       (JObj (list_to_map [("paymentId", JStr paymentId); ("status", JStr status)]))).

(** The store after a redirect on the second program of part_000. *)
Definition demo_pending2 : store :=
  (Variant2.redirect (redirect_request "o1") "u1" "u2" "tok" "t0" ∅).2.

Definition created_record : object :=
  <["updatedAt" := JStr "t1"]>
    (<["cardLast4" := JStr "1111"]>
       (<["status" := JStr "created"]> (pending_record "o1"))).

(** A create request of the second program of part_000, with the payment
    method and the card number given. *)
Definition method_request (paymentId : string) (paymentMethod number : jsval)
    : request :=
  api_request
    [("paymentId", JStr paymentId);
     ("paymentMethod", paymentMethod);
     ("cardDetails",
      JObj (list_to_map
              [("number", number); ("expiry", JStr "12/30"); ("cvv", JStr "123")]))].

(** A refund request with a reason. *)
Definition reason_request (paymentId reason : string) : request :=
  api_request
    [("paymentId", JStr paymentId); ("amount", JNum "10"); ("reason", JStr reason)].

Definition demo_draws (n : string) : Variant2.draws :=
  {| Variant2.uuid1 := "u" +:+ n; Variant2.uuid2 := "v" +:+ n;
     Variant2.token := "tok" +:+ n;
     Variant2.now1 := "t" +:+ n; Variant2.now2 := "t" +:+ n +:+ "'" |}.

(** ** Vocabulary of the properties *)

(** The call answers with HTTP status [code] and leaves the store as it
    was. *)
Definition rejected_with (code : nat) (db : store) (out : response * store)
    : Prop :=
  res_status out.1 = code ∧ out.2 = db.

(** Field [f] of the record stored under [id], if there is such a record. *)
Definition stored (db : store) (id f : string) : option jsval :=
  (λ record, own record f) <$> db !! id.

(** Every record of [db] other than the one under [id] is the same in
    [db']. *)
Definition others_kept (id : string) (db db' : store) : Prop :=
  ∀ id', id' ≠ id → db' !! id' = db !! id'.

(** [key] names a property that paymentsDb inherits: a member of
    Object.prototype, a property that a handler has added to it, or a
    property of the record that has been made the prototype of
    paymentsDb. *)
Definition inherits (db : store) (key : string) : bool :=
  String.eqb key "__proto__"
  || bool_decide (is_Some (object_prototype_function key))
  || bool_decide (is_Some (inherited db key))
  || bool_decide (is_Some (proto_field db key)).

(** Every stored record has a status of its own, as the records that
    redirect and create store have. *)
Definition records_have_status (db : store) : Prop :=
  ∀ id record, db !! id = Some record → is_Some (record !! "status").

(** The record that the create of the first program of part_000 stores. *)
Definition variant1_created_record (req : request) (last4 expiry : jsval)
    (now1 now2 : string) : object :=
  list_to_map
    [("id", own (body req) "paymentId");
     ("status", JStr "created");
     ("cardDetails", JObj (list_to_map [("last4", last4); ("expiry", expiry)]));
     ("createdAt", JStr now1);
     ("updatedAt", JStr now2)].

(** The status moves a call of server.js may make on a stored record, at
    the store [db] of the call. *)
Definition server_edge (rt : runtime) (db : store) (c : call) (s s' : jsval)
    : Prop :=
  match c with
  | Redirect _ _ _ _ _ => False
  | Create _ _ _ => s' = JStr "created"
  | Capture _ _ _ => s = JStr "created" ∧ s' = JStr "captured"
  | Refund _ _ _ => s = JStr "captured" ∧ s' = JStr "refunded"
  | Cancel _ _ _ =>
      (s = JStr "pending" ∨ s = JStr "created") ∧ s' = JStr "canceled"
  | Callback req _ =>
      headers req !! "x-signature"
        = Some (Server.generateSignature rt (JObj (body req)))
      ∧ s' = get db (body req) "status"
  end.


(** From [db] to [db'] every stored record is still stored, and its status
    is the same or has moved along [edge]. *)
Definition moves (edge : jsval → jsval → Prop) (db db' : store) : Prop :=
  ∀ id record, db !! id = Some record →
    ∃ record', db' !! id = Some record' ∧
      (own record' "status" = own record "status"
       ∨ edge (own record "status") (own record' "status")).

(** The paymentId that a redirect call generates is not yet a key. *)
Definition fresh_id (c : call) (db : store) : Prop :=
  match c with
  | Redirect _ uuid1 _ _ _ => db !! ("pay_" +:+ uuid1) = None
  | _ => True
  end.

(** The paymentId that a call adds to the store, if any. *)
Definition generated_id (c : call) : gset string :=
  match c with
  | Redirect _ uuid1 _ _ _ => {["pay_" +:+ uuid1]}
  | _ => ∅
  end.

(** The key under which a call of the first program of part_000 may store
    a record: the paymentId that redirect generates, and the paymentId that
    the caller of create has chosen. *)
Definition variant1_key (c : call) : gset string :=
  match c with
  | Redirect _ uuid1 _ _ _ => {["pay_" +:+ uuid1]}
  | Create req _ _ =>
      match key_of req with
      | Some key => {[key]}
      | None => ∅
      end
  | _ => ∅
  end.

(** The request of a call. *)
Definition request_of (c : call) : request :=
  match c with
  | Redirect req _ _ _ _ | Create req _ _ | Capture req _ _
  | Refund req _ _ | Cancel req _ _ | Callback req _ => req
  end.

(** The call with another request in place of its own. *)
Definition with_request (c : call) (req : request) : call :=
  match c with
  | Redirect _ uuid1 uuid2 token now => Redirect req uuid1 uuid2 token now
  | Create _ now1 now2 => Create req now1 now2
  | Capture _ uuid now => Capture req uuid now
  | Refund _ uuid now => Refund req uuid now
  | Cancel _ uuid now => Cancel req uuid now
  | Callback _ now => Callback req now
  end.

(** The values of the decimal digits of a string, in order. *)
Fixpoint digits_of (s : string) : list nat :=
  match s with
  | EmptyString => []
  | String c s' =>
      match Ascii.is_nat c with
      | Some d => d :: digits_of s'
      | None => digits_of s'
      end
  end.

(** The Luhn sum of a list of digits read from the last digit of the number
    to the first: every second digit counts doubled, starting with the
    digits at odd distance from the end when [shouldDouble] is [false]. *)
Fixpoint luhn_sum (digits_from_end : list nat) (shouldDouble : bool) : nat :=
  match digits_from_end with
  | [] => 0
  | digit :: rest =>
      (if shouldDouble then Variant2.doubled digit else digit)
      + luhn_sum rest (negb shouldDouble)
  end.

(** The record after a create of the second program of part_000. *)
Definition variant2_created_record (payment : object) (paymentMethod : jsval)
    (now : string) : object :=
  <["updatedAt" := JStr now]>
    (<["paymentMethod" := paymentMethod]>
       (<["status" := JStr "created"]> payment)).

(** The status moves a request to the second program of part_000 may make
    on a stored record, at the store [db] of the request. *)
Definition variant2_edge (db : store) (r : Variant2.route) (req : request)
    (s s' : jsval) : Prop :=
  match r with
  | Variant2.PostRedirect => False
  | Variant2.PostCreate => s' = JStr "created"
  | Variant2.PostCapture => s = JStr "created" ∧ s' = JStr "captured"
  | Variant2.PostRefund => s = JStr "captured" ∧ s' = JStr "refunded"
  | Variant2.PostCancel =>
      (s = JStr "pending" ∨ s = JStr "created") ∧ s' = JStr "canceled"
  | Variant2.PostCallback =>
      s' = get db (body req) "status"
      ∧ (s' = JStr "success" ∨ s' = JStr "failed" ∨ s' = JStr "canceled")
  end.

(** The fields of a record that the handlers of server.js assign after
    redirect has stored it. *)
Definition mutable_fields : list string :=
  ["status"; "cardLast4"; "capturedAmount"; "refundedAmount"; "updatedAt"].

(** From [db] to [db'] every stored record is still stored, with every
    field outside [fields] as it was. *)
Definition framed (fields : list string) (db db' : store) : Prop :=
  ∀ id record, db !! id = Some record →
    ∃ record', db' !! id = Some record' ∧
      ∀ f, f ∉ fields → record' !! f = record !! f.

(** The answer is 200 or 500, or the store is as it was. *)
Definition quiet_unless_done (db : store) (out : response * store) : Prop :=
  out.2 = db ∨ res_status out.1 = 200 ∨ res_status out.1 = 500.

(** The routes of server.js whose handler consults validationResult. *)
Definition server_validates (c : call) : bool :=
  match c with
  | Redirect _ _ _ _ _ | Create _ _ _ => true
  | _ => false
  end.

(** The same for the first program of part_000. *)
Definition variant1_validates (c : call) : bool :=
  match c with
  | Redirect _ _ _ _ _ => true
  | _ => false
  end.

(** The routes with [authenticate] in front of the handler. *)
Definition authenticated_route (c : call) : bool :=
  match c with
  | Callback _ _ => false
  | _ => true
  end.

(** The request with another list of validation errors. *)
Definition with_errors (req : request) (errors : list jsval) : request :=
  Request (headers req) (body req) errors.

(** The character of a decimal digit. *)
Definition digit_char (d : nat) : ascii := ascii_of_nat (48 + d).

(** The place is a record of the store. *)
Definition is_stored (p : place) : bool :=
  match p with
  | Stored _ => true
  | _ => false
  end.

(** From [db] to [db'] the records are the same, or one stored record has
    been assigned fields of [fields]. *)
Definition assigned (fields : list string) (db db' : store) : Prop :=
  payments db' = payments db
  ∨ ∃ id record record',
      db !! id = Some record ∧ db' = <[id := record']> db
      ∧ ∀ f, f ∉ fields → record' !! f = record !! f.

(** ** Properties *)

(** Closes a goal about concrete requests and stores by evaluation. *)
Ltac evaluate :=
  lazymatch goal with
  | |- _ ≠ _ => vm_compute; discriminate
  | |- _ => first [reflexivity | vm_compute; reflexivity]
  end.

(** *** JavaScript helpers *)

Lemma strict_eq_str_spec (v : jsval) (lit : string) :
  strict_eq_str v lit = true ↔ v = JStr lit.
Proof.
  destruct v; simpl; try (split; [discriminate | congruence]).
  rewrite bool_decide_eq_true. split; [intros ->; reflexivity | congruence].
Qed.

Lemma strict_eq_str_false (v : jsval) (lit : string) :
  strict_eq_str v lit = false ↔ v ≠ JStr lit.
Proof.
  rewrite <- strict_eq_str_spec. destruct (strict_eq_str v lit); split; congruence.
Qed.

Lemma includes_spec (lits : list string) (v : jsval) :
  includes lits v = true ↔ ∃ lit, lit ∈ lits ∧ v = JStr lit.
Proof.
  unfold includes. rewrite existsb_exists. split.
  - intros (lit & Hin & Heq). exists lit. split.
    + by apply list_elem_of_In.
    + by apply strict_eq_str_spec.
  - intros (lit & Hin & ->). exists lit. split.
    + by apply list_elem_of_In.
    + by apply strict_eq_str_spec.
Qed.

Lemma own_insert_eq (o : object) (f : string) (v : jsval) :
  own (<[f := v]> o) f = v.
Proof. unfold own. by rewrite lookup_insert_eq. Qed.

Lemma own_insert_ne (o : object) (f g : string) (v : jsval) :
  f ≠ g → own (<[f := v]> o) g = own o g.
Proof. intros Hne. unfold own. by rewrite lookup_insert_ne. Qed.

Lemma own_absent (o : object) (k : string) :
  o !! k = None → own o k = JUndefined.
Proof. intros H. unfold own. by rewrite H. Qed.

Lemma own_present (o : object) (k : string) (v : jsval) :
  o !! k = Some v → own o k = v.
Proof. intros H. unfold own. by rewrite H. Qed.

(** A name that no handler assigns is read from the object itself. *)
Lemma get_own (db : store) (o : object) (f : string) :
  written_of f = None → get db o f = own o f.
Proof. intros Hf. unfold get, own, inherited. by rewrite Hf. Qed.

Lemma get_present (db : store) (o : object) (f : string) :
  is_Some (o !! f) → get db o f = own o f.
Proof. intros [v Hv]. unfold get, own. by rewrite Hv. Qed.

Lemma get_insert_eq (db : store) (o : object) (f : string) (v : jsval) :
  get db (<[f := v]> o) f = v.
Proof. unfold get. by rewrite lookup_insert_eq. Qed.

Lemma get_insert_ne (db : store) (o : object) (f g : string) (v : jsval) :
  f ≠ g → get db (<[f := v]> o) g = get db o g.
Proof. intros Hne. unfold get. by rewrite lookup_insert_ne. Qed.

Lemma written_of_name (w : written) : written_of (name w) = Some w.
Proof. by destruct w. Qed.

Lemma written_of_Some (f : string) (w : written) :
  written_of f = Some w → f = name w.
Proof.
  unfold written_of.
  repeat match goal with
         | |- context [String.eqb f ?lit] =>
             destruct (String.eqb_spec f lit) as [-> | _]; [by intros [= <-] |]
         end.
  discriminate.
Qed.

Lemma drop_chars_length (n : nat) (s : string) :
  String.length (drop_chars n s) = String.length s - n.
Proof.
  revert s. induction n as [|n IH]; intros s.
  - destruct s; simpl; lia.
  - destruct s as [|c s]; simpl; [reflexivity | apply IH].
Qed.

Lemma slice_last4_length (s : string) :
  String.length (slice_last4 s) = 4 `min` String.length s.
Proof. unfold slice_last4. rewrite drop_chars_length. lia. Qed.

(** *** The store *)

Lemma store_lookup_insert_eq (db : store) (id : string) (record : object) :
  <[id := record]> db !! id = Some record.
Proof. apply (lookup_insert_eq (payments db)). Qed.

Lemma store_lookup_insert_ne (db : store) (id id' : string) (record : object) :
  id ≠ id' → <[id := record]> db !! id' = db !! id'.
Proof. apply (lookup_insert_ne (payments db)). Qed.

Lemma store_insert_insert (db : store) (id : string) (record record' : object) :
  <[id := record']> (<[id := record]> db) = <[id := record']> db.
Proof.
  unfold insert, store_insert. simpl. f_equal. apply insert_insert_eq.
Qed.

Lemma store_lookup_empty (id : string) : (∅ : store) !! id = None.
Proof. apply (lookup_empty (M := gmap string)). Qed.

Lemma get_store_insert (db : store) (id : string) (record o : object) (f : string) :
  get (<[id := record]> db) o f = get db o f.
Proof. reflexivity. Qed.

Lemma find_payment_stored (db : store) (id : string) (record : object) :
  db !! id = Some record → find_payment db id = Some (Stored id).
Proof. intros Hid. unfold find_payment, find_place. by rewrite Hid. Qed.

Lemma read_stored (db : store) (id : string) (record : object) (f : string) :
  db !! id = Some record → read db (Stored id) f = get db record f.
Proof. intros Hid. unfold read, props_at. by rewrite Hid. Qed.

Lemma write_stored (db : store) (id : string) (record : object) (w : written)
    (v : jsval) :
  db !! id = Some record →
  write db (Stored id) w v = <[id := <[name w := v]> record]> db.
Proof.
  intros Hid. unfold write, insert at 2, store_insert. f_equal.
  apply map_eq. intros id'. destruct (decide (id = id')) as [<- | Hne].
  - rewrite lookup_alter_eq, lookup_insert_eq.
    change (payments db !! id) with (db !! id). by rewrite Hid.
  - by rewrite lookup_alter_ne, lookup_insert_ne.
Qed.

(** A payment that is found is a record under the key, or is found on the
    prototype chain while the store has no record under the key. *)
Lemma find_payment_inv (db : store) (key : string) (p : place) :
  find_payment db key = Some p →
  (p = Stored key ∧ is_Some (db !! key)) ∨ (is_stored p = false ∧ db !! key = None).
Proof.
  unfold find_payment, find_place, find_in_object_proto.
  destruct (db !! key) as [record |] eqn:Hid.
  { intros [= <-]. left. eauto. }
  intros Hfind. right. split; [| done].
  repeat case_match; simplify_eq; done.
Qed.

Lemma write_payments (db : store) (p : place) (w : written) (v : jsval) :
  is_stored p = false → payments (write db p w v) = payments db.
Proof. by destruct p. Qed.

(** Names that paymentsDb does not inherit are not found unless stored. *)
Lemma find_place_unknown (db : store) (key : string) :
  db !! key = None → inherits db key = false → find_place db key = None.
Proof.
  unfold inherits, find_place, find_in_object_proto, inherited, proto_field.
  intros -> Hno.
  apply orb_false_iff in Hno as [Hno Hproto].
  apply orb_false_iff in Hno as [Hno Hadded].
  apply orb_false_iff in Hno as [-> Hbuiltin].
  apply bool_decide_eq_false in Hproto, Hadded, Hbuiltin.
  destruct (object_prototype_function key); [by destruct Hbuiltin |].
  assert (match written_of key with
          | Some w => match object_proto db !! w with
                      | Some _ => Some (ObjectProtoField w)
                      | None => None
                      end
          | None => None
          end = None) as ->.
  { destruct (written_of key) as [w |]; [| done].
    destruct (object_proto db !! w); [by destruct Hadded |]. done. }
  destruct (payments_proto db) as [proto |]; [| done].
  destruct (proto !! key); [by destruct Hproto | done].
Qed.

Lemma find_payment_unknown (db : store) (key : string) :
  db !! key = None → inherits db key = false → find_payment db key = None.
Proof.
  intros Hid Hno. unfold find_payment. by rewrite find_place_unknown.
Qed.

(** Reads the names that no handler assigns from the object itself. *)
Ltac own_names :=
  repeat match goal with
         | |- context [get ?db ?o ?f] => progress change (get db o f) with (own o f)
         end.

(** Unfolds a handler at a request whose key and stored record are known. *)
Ltac handler_at Hkey Hknown :=
  unfold key_of in Hkey;
  cbv beta delta [Server.capture Server.refund Server.cancel
    Server.callback Server.create Variant1.capture Variant1.refund
    Variant1.cancel Variant1.callback Variant2.create Variant2.capture
    Variant2.refund Variant2.cancel Variant2.callback];
  cbv zeta; own_names; rewrite Hkey;
  rewrite (find_payment_stored _ _ _ Hknown);
  rewrite ?(read_stored _ _ _ _ Hknown).

(** Rewrites the assignments of a handler to a stored record into one
    update of the store. *)
Ltac stored_writes Hknown :=
  rewrite (write_stored _ _ _ _ _ Hknown);
  repeat (rewrite (write_stored (<[_ := _]> _) _ _ _ _ (store_lookup_insert_eq _ _ _)),
            store_insert_insert);
  rewrite ?(read_stored (<[_ := _]> _) _ _ _ (store_lookup_insert_eq _ _ _));
  cbn [name].

(** *** The handlers, case by case *)

Section UnknownPayment.
Context (rt : runtime) (req : request) (db : store) (id : string).
Hypothesis Hkey : key_of req = Some id.
Hypothesis Hunknown : find_payment db id = None.

Ltac unknown :=
  unfold key_of in Hkey;
  cbv beta delta [Server.capture Server.refund Server.cancel Server.callback
    Variant1.capture Variant1.refund Variant1.cancel Variant1.callback
    Variant2.create Variant2.capture Variant2.refund Variant2.cancel
    Variant2.callback];
  cbv zeta; own_names; by rewrite Hkey, Hunknown.

Lemma server_create_unknown (now : string) :
  validationErrors req = [] → Server.create req now db = (not_found, db).
Proof.
  intros Hvalid. unfold Server.create. rewrite Hvalid. simpl. own_names.
  unfold key_of in Hkey. by rewrite Hkey, Hunknown.
Qed.

Lemma server_capture_unknown (uuid now : string) :
  Server.capture req uuid now db = (not_found, db).
Proof. unknown. Qed.

Lemma server_refund_unknown (uuid now : string) :
  Server.refund req uuid now db = (not_found, db).
Proof. unknown. Qed.

Lemma server_cancel_unknown (uuid now : string) :
  Server.cancel req uuid now db = (not_found, db).
Proof. unknown. Qed.

Lemma server_callback_unknown (now : string) :
  Server.callback rt req now db = (not_found, db).
Proof. unknown. Qed.

Lemma variant1_capture_unknown (now : string) :
  Variant1.capture req now db = (not_found, db).
Proof. unknown. Qed.

Lemma variant1_refund_unknown (uuid now : string) :
  Variant1.refund req uuid now db = (not_found, db).
Proof. unknown. Qed.

Lemma variant1_callback_unknown (now : string) :
  Variant1.callback rt req now db = (not_found, db).
Proof. unknown. Qed.

Lemma variant2_create_unknown (now1 now2 : string) :
  Variant2.create req now1 now2 db = (not_found, db).
Proof. unknown. Qed.

Lemma variant2_capture_unknown (uuid now1 now2 : string) :
  Variant2.capture req uuid now1 now2 db = (not_found, db).
Proof. unknown. Qed.

Lemma variant2_refund_unknown (uuid now1 now2 : string) :
  Variant2.refund req uuid now1 now2 db = (not_found, db).
Proof. unknown. Qed.

Lemma variant2_cancel_unknown (uuid now1 now2 : string) :
  Variant2.cancel req uuid now1 now2 db = (not_found, db).
Proof. unknown. Qed.

Lemma variant2_callback_unknown (now1 now2 : string) :
  Variant2.callback rt req now1 now2 db = (not_found, db).
Proof. unknown. Qed.

End UnknownPayment.

(** A paymentId that cannot be made a property key: the conversion throws
    before the store is read. *)
Section NoKey.
Context (rt : runtime) (req : request) (db : store).
Hypothesis Hkey : key_of req = None.

Ltac no_key :=
  unfold key_of in Hkey;
  cbv beta delta [Server.capture Server.refund Server.cancel Server.callback
    Variant1.capture Variant1.refund Variant1.cancel Variant1.callback
    Variant2.create Variant2.capture Variant2.refund Variant2.cancel
    Variant2.callback];
  cbv zeta; own_names; by rewrite Hkey.

Lemma server_create_no_key (now : string) :
  validationErrors req = [] → Server.create req now db = (internal_error, db).
Proof.
  intros Hvalid. unfold Server.create. rewrite Hvalid. simpl. own_names.
  unfold key_of in Hkey. by rewrite Hkey.
Qed.

Lemma server_capture_no_key (uuid now : string) :
  Server.capture req uuid now db = (internal_error, db).
Proof. no_key. Qed.

Lemma server_refund_no_key (uuid now : string) :
  Server.refund req uuid now db = (internal_error, db).
Proof. no_key. Qed.

Lemma server_cancel_no_key (uuid now : string) :
  Server.cancel req uuid now db = (internal_error, db).
Proof. no_key. Qed.

Lemma server_callback_no_key (now : string) :
  Server.callback rt req now db = (internal_error, db).
Proof. no_key. Qed.

Lemma variant1_capture_no_key (now : string) :
  Variant1.capture req now db = (internal_error, db).
Proof. no_key. Qed.

Lemma variant1_refund_no_key (uuid now : string) :
  Variant1.refund req uuid now db = (internal_error, db).
Proof. no_key. Qed.

Lemma variant1_callback_no_key (now : string) :
  Variant1.callback rt req now db = (internal_error, db).
Proof. no_key. Qed.

Lemma variant2_create_no_key (now1 now2 : string) :
  Variant2.create req now1 now2 db = (Variant2.caught, db).
Proof. no_key. Qed.

Lemma variant2_capture_no_key (uuid now1 now2 : string) :
  Variant2.capture req uuid now1 now2 db = (Variant2.caught, db).
Proof. no_key. Qed.

Lemma variant2_refund_no_key (uuid now1 now2 : string) :
  Variant2.refund req uuid now1 now2 db = (Variant2.caught, db).
Proof. no_key. Qed.

Lemma variant2_cancel_no_key (uuid now1 now2 : string) :
  Variant2.cancel req uuid now1 now2 db = (Variant2.caught, db).
Proof. no_key. Qed.

Lemma variant2_callback_no_key (now1 now2 : string) :
  Variant2.callback rt req now1 now2 db = (Variant2.caught, db).
Proof. no_key. Qed.

End NoKey.

Lemma server_create_invalid (req : request) (now : string) (db : store) :
  validationErrors req ≠ [] →
  Server.create req now db = (Server.bad_request req, db).
Proof.
  intros Hinvalid. unfold Server.create.
  destruct (validationErrors req); [done | reflexivity].
Qed.

Section KnownPayment.
Context (rt : runtime) (req : request) (db : store) (id : string)
  (payment : object).
Hypothesis Hkey : key_of req = Some id.
Hypothesis Hknown : db !! id = Some payment.

Lemma server_capture_conflict (uuid now : string) :
  get db payment "status" ≠ JStr "created" →
  Server.capture req uuid now db =
    (json 400 [("error", JStr "Payment not in creatable state")], db).
Proof.
  intros Hst%strict_eq_str_false. handler_at Hkey Hknown. by rewrite Hst.
Qed.

Lemma server_capture_created (uuid now : string) :
  get db payment "status" = JStr "created" →
  Server.capture req uuid now db =
    (json 200 [("captureId", JStr ("cap_" +:+ uuid));
               ("status", JStr "captured");
               ("amount", own (body req) "amount");
               ("timestamp", JStr now)],
     <[id :=
         <["updatedAt" := JStr now]>
           (<["capturedAmount" := own (body req) "amount"]>
              (<["status" := JStr "captured"]> payment))]> db).
Proof.
  intros Hst%strict_eq_str_spec. handler_at Hkey Hknown. rewrite Hst. cbn [negb].
  stored_writes Hknown. by rewrite get_insert_eq.
Qed.

Lemma server_refund_conflict (uuid now : string) :
  get db payment "status" ≠ JStr "captured" →
  Server.refund req uuid now db =
    (json 400 [("error", JStr "Payment not refundable")], db).
Proof.
  intros Hst%strict_eq_str_false. handler_at Hkey Hknown. by rewrite Hst.
Qed.

Lemma server_refund_captured (uuid now : string) :
  get db payment "status" = JStr "captured" →
  Server.refund req uuid now db =
    (json 200 [("refundId", JStr ("ref_" +:+ uuid));
               ("status", JStr "refunded");
               ("amount", own (body req) "amount");
               ("timestamp", JStr now)],
     <[id :=
         <["updatedAt" := JStr now]>
           (<["refundedAmount" := own (body req) "amount"]>
              (<["status" := JStr "refunded"]> payment))]> db).
Proof.
  intros Hst%strict_eq_str_spec. handler_at Hkey Hknown. rewrite Hst. cbn [negb].
  stored_writes Hknown. by rewrite get_insert_eq.
Qed.

Lemma variant1_refund_any (uuid now : string) :
  Variant1.refund req uuid now db =
    (json 200 [("refundId", JStr ("ref_" +:+ uuid));
               ("status", JStr "refunded");
               ("amount", own (body req) "amount");
               ("timestamp", JStr now)],
     <[id :=
         <["updatedAt" := JStr now]>
           (<["refundedAmount" := own (body req) "amount"]>
              (<["status" := JStr "refunded"]> payment))]> db).
Proof.
  handler_at Hkey Hknown. stored_writes Hknown. by rewrite get_insert_eq.
Qed.

Lemma variant1_capture_any (now : string) :
  Variant1.capture req now db =
    (json 200 [("paymentId", own (body req) "paymentId");
               ("status", JStr "captured");
               ("amount", own (body req) "amount");
               ("timestamp", JStr now)],
     <[id :=
         <["updatedAt" := JStr now]>
           (<["capturedAmount" := own (body req) "amount"]>
              (<["status" := JStr "captured"]> payment))]> db).
Proof.
  handler_at Hkey Hknown. stored_writes Hknown. by rewrite get_insert_eq.
Qed.

Lemma server_cancel_conflict (uuid now : string) :
  get db payment "status" ≠ JStr "pending" →
  get db payment "status" ≠ JStr "created" →
  Server.cancel req uuid now db =
    (json 400 [("error", JStr "Payment not cancelable")], db).
Proof.
  intros Hp%strict_eq_str_false Hc%strict_eq_str_false.
  handler_at Hkey Hknown. unfold includes. simpl. by rewrite Hp, Hc.
Qed.

Lemma server_cancel_open (uuid now : string) :
  get db payment "status" = JStr "pending"
  ∨ get db payment "status" = JStr "created" →
  Server.cancel req uuid now db =
    (json 200 [("cancellationId", JStr ("can_" +:+ uuid));
               ("status", JStr "canceled");
               ("timestamp", JStr now)],
     <[id :=
         <["updatedAt" := JStr now]>
           (<["status" := JStr "canceled"]> payment)]> db).
Proof.
  intros Hst. handler_at Hkey Hknown.
  assert (includes ["pending"; "created"] (get db payment "status") = true) as ->.
  { apply includes_spec. destruct Hst as [-> | ->]; eexists; split; eauto.
    - apply list_elem_of_here.
    - apply list_elem_of_further, list_elem_of_here. }
  cbn [negb]. stored_writes Hknown. by rewrite get_insert_eq.
Qed.

Lemma server_callback_forged (now : string) :
  headers req !! "x-signature"
    ≠ Some (Server.generateSignature rt (JObj (body req))) →
  Server.callback rt req now db =
    (json 403 [("error", JStr "Invalid signature")], db).
Proof.
  intros Hsig. handler_at Hkey Hknown. by rewrite bool_decide_eq_false_2.
Qed.

Lemma variant1_callback_forged (now : string) :
  headers req !! "x-signature"
    ≠ Some (Variant1.generateSignature rt (JObj (body req))) →
  Variant1.callback rt req now db =
    (json 403 [("error", JStr "Invalid signature")], db).
Proof.
  intros Hsig. handler_at Hkey Hknown. by rewrite bool_decide_eq_false_2.
Qed.

(** **** create on server.js *)

Lemma server_create_ok (now : string) (last4 : jsval) :
  validationErrors req = [] →
  member db (own (body req) "cardDetails") "number" ≫= call_slice_last4 = Some last4 →
  Server.create req now db =
    (json 200 [("paymentId", own (body req) "paymentId");
               ("status", JStr "created");
               ("amount", own payment "amount");
               ("currency", own payment "currency");
               ("timestamp", JStr now)],
     <[id :=
         <["updatedAt" := JStr now]>
           (<["cardLast4" := last4]>
              (<["status" := JStr "created"]> payment))]> db).
Proof.
  intros Hvalid Hslice. unfold Server.create.
  destruct (validationErrors req); [| done]. cbn [bool_decide decide_rel negb].
  handler_at Hkey Hknown.
  change (member (write db (Stored id) Status (JStr "created")))
    with (member db).
  rewrite Hslice. stored_writes Hknown. own_names.
  by rewrite get_insert_eq, !own_insert_ne by done.
Qed.

Lemma server_create_throws (now : string) :
  validationErrors req = [] →
  member db (own (body req) "cardDetails") "number" ≫= call_slice_last4 = None →
  Server.create req now db =
    (internal_error, <[id := <["status" := JStr "created"]> payment]> db).
Proof.
  intros Hvalid Hslice. unfold Server.create.
  destruct (validationErrors req); [| done]. cbn [bool_decide decide_rel negb].
  handler_at Hkey Hknown.
  change (member (write db (Stored id) Status (JStr "created")))
    with (member db).
  rewrite Hslice. by stored_writes Hknown.
Qed.

(** **** callback with a valid signature *)

Section Signed.
Context (now : string).
Hypothesis Hsigned :
  headers req !! "x-signature"
    = Some (hmac_sha256_hex rt (HMAC_SECRET rt) (JSON_stringify rt (JObj (body req)))).

Lemma server_callback_signed (callbackUrl : string) :
  (to_string (get db (body req) "status")
     ≫= index rt db (own payment "callbackUrls")) ≫= text = Some callbackUrl →
  Server.callback rt req now db =
    (json 200 [("redirectUrl",
                JStr (callbackUrl +:+ "&sig=" +:+
                      Server.generateSignature rt
                        (JObj (list_to_map
                                 [("paymentId", own (body req) "paymentId");
                                  ("status", get db (body req) "status")]))));
               ("status", JStr "callback_processed")],
     <[id :=
         <["updatedAt" := JStr now]>
           (<["status" := get db (body req) "status"]> payment)]> db).
Proof.
  intros Hurl. handler_at Hkey Hknown. unfold Server.generateSignature at 1.
  rewrite bool_decide_eq_true_2 by done. cbn [negb].
  stored_writes Hknown. own_names. rewrite !own_insert_ne by done.
  change (index rt (<[id := ?r]> db)) with (index rt db).
  by rewrite Hurl.
Qed.

Lemma server_callback_signed_throws :
  (to_string (get db (body req) "status")
     ≫= index rt db (own payment "callbackUrls")) ≫= text = None →
  Server.callback rt req now db =
    (internal_error,
     <[id :=
         <["updatedAt" := JStr now]>
           (<["status" := get db (body req) "status"]> payment)]> db).
Proof.
  intros Hurl. handler_at Hkey Hknown. unfold Server.generateSignature at 1.
  rewrite bool_decide_eq_true_2 by done. cbn [negb].
  stored_writes Hknown. own_names. rewrite !own_insert_ne by done.
  change (index rt (<[id := ?r]> db)) with (index rt db).
  by rewrite Hurl.
Qed.

(** A signed callback of the first program of part_000 writes status and
    updatedAt and answers 200, or 500 when the status cannot be made a key
    or the URL cannot be made a string. *)
Lemma variant1_callback_signed :
  ∃ answer,
    Variant1.callback rt req now db =
      (answer,
       <[id :=
           <["updatedAt" := JStr now]>
             (<["status" := get db (body req) "status"]> payment)]> db)
    ∧ (res_status answer = 200 ∨ res_status answer = 500).
Proof.
  handler_at Hkey Hknown. unfold Variant1.generateSignature at 1.
  rewrite bool_decide_eq_true_2 by done. cbn [negb].
  stored_writes Hknown.
  repeat case_match; eexists; (split; [reflexivity |]); simpl; auto.
Qed.

(** The answer when the record has no truthy callbackUrls: the handler
    does not index, and redirectUrl is null. *)
Lemma variant1_callback_signed_no_urls :
  truthy (own payment "callbackUrls") = false →
  (Variant1.callback rt req now db).1 =
    json 200 [("status", JStr "callback_processed"); ("redirectUrl", JNull)].
Proof.
  intros Hurls. handler_at Hkey Hknown. unfold Variant1.generateSignature at 1.
  rewrite bool_decide_eq_true_2 by done. cbn [negb].
  stored_writes Hknown. own_names. rewrite !own_insert_ne by done.
  by rewrite Hurls.
Qed.

(** The answer when the record has truthy callbackUrls and the lookup
    yields [found]. *)
Lemma variant1_callback_signed_found (found : looked_up) :
  truthy (own payment "callbackUrls") = true →
  to_string (get db (body req) "status")
    ≫= index rt db (own payment "callbackUrls") = Some found →
  (Variant1.callback rt req now db).1 =
    match if truthy_found found
          then (λ url,
                  JStr (url +:+ "&sig=" +:+
                        Variant1.generateSignature rt
                          (JObj (list_to_map
                                   [("paymentId", own (body req) "paymentId");
                                    ("status", get db (body req) "status")]))))
               <$> text found
          else Some JNull with
    | None => internal_error
    | Some signedCallbackUrl =>
        json 200 [("status", JStr "callback_processed");
                  ("redirectUrl", signedCallbackUrl)]
    end.
Proof.
  intros Hurls Hfound. handler_at Hkey Hknown.
  unfold Variant1.generateSignature at 1.
  rewrite bool_decide_eq_true_2 by done. cbn [negb].
  stored_writes Hknown. own_names. rewrite !own_insert_ne by done.
  rewrite Hurls.
  change (index rt (<[id := ?r]> db)) with (index rt db).
  rewrite Hfound. by case_match.
Qed.

End Signed.

(** **** The second program of part_000 *)

(** create either leaves the store as it was or writes status,
    paymentMethod and updatedAt; it answers 200 exactly in the second
    case. *)
Lemma variant2_create_cases (now1 now2 : string) :
  (res_status (Variant2.create req now1 now2 db).1 ≠ 200
   ∧ (Variant2.create req now1 now2 db).2 = db)
  ∨ (res_status (Variant2.create req now1 now2 db).1 = 200
     ∧ (Variant2.create req now1 now2 db).2
       = <[id :=
             variant2_created_record payment (get db (body req) "paymentMethod") now1]> db).
Proof.
  handler_at Hkey Hknown. stored_writes Hknown.
  destruct (strict_eq_str (get db (body req) "paymentMethod") "credit_card");
    [| by right].
  destruct (negb (truthy (own (body req) "cardDetails")) || _ || _ || _);
    [by left |].
  destruct (Variant2.call_validateCardNumber _) as [[|] |];
    [by right | by left | by left].
Qed.

Lemma variant2_capture_conflict (uuid now1 now2 : string) :
  get db payment "status" ≠ JStr "created" →
  Variant2.capture req uuid now1 now2 db =
    (json 400 [("error", JStr "Payment not in creatable state")], db).
Proof.
  intros Hst%strict_eq_str_false. handler_at Hkey Hknown. by rewrite Hst.
Qed.

Lemma variant2_capture_created (uuid now1 now2 : string) :
  get db payment "status" = JStr "created" →
  Variant2.capture req uuid now1 now2 db =
    (json 200 [("captureId", JStr ("cap_" +:+ uuid));
               ("status", JStr "captured");
               ("amount", own (body req) "amount");
               ("timestamp", JStr now2)],
     <[id :=
         <["updatedAt" := JStr now1]>
           (<["capturedAmount" := own (body req) "amount"]>
              (<["status" := JStr "captured"]> payment))]> db).
Proof.
  intros Hst%strict_eq_str_spec. handler_at Hkey Hknown. rewrite Hst. cbn [negb].
  by stored_writes Hknown.
Qed.

Lemma variant2_refund_conflict (uuid now1 now2 : string) :
  get db payment "status" ≠ JStr "captured" →
  Variant2.refund req uuid now1 now2 db =
    (json 400 [("error", JStr "Payment not in refundable state")], db).
Proof.
  intros Hst%strict_eq_str_false. handler_at Hkey Hknown. by rewrite Hst.
Qed.

Lemma variant2_refund_captured (uuid now1 now2 : string) :
  get db payment "status" = JStr "captured" →
  Variant2.refund req uuid now1 now2 db =
    (json 200 [("refundId", JStr ("ref_" +:+ uuid));
               ("status", JStr "refunded");
               ("amount", own (body req) "amount");
               ("reason", own (body req) "reason");
               ("timestamp", JStr now2)],
     <[id :=
         <["updatedAt" := JStr now1]>
           (<["refundReason" := own (body req) "reason"]>
              (<["refundedAmount" := own (body req) "amount"]>
                 (<["status" := JStr "refunded"]> payment)))]> db).
Proof.
  intros Hst%strict_eq_str_spec. handler_at Hkey Hknown. rewrite Hst. cbn [negb].
  by stored_writes Hknown.
Qed.

Lemma variant2_cancel_conflict (uuid now1 now2 : string) :
  get db payment "status" ≠ JStr "pending" →
  get db payment "status" ≠ JStr "created" →
  Variant2.cancel req uuid now1 now2 db =
    (json 400 [("error", JStr "Payment not in cancelable state")], db).
Proof.
  intros Hp%strict_eq_str_false Hc%strict_eq_str_false.
  handler_at Hkey Hknown. unfold includes. simpl. by rewrite Hp, Hc.
Qed.

Lemma variant2_cancel_open (uuid now1 now2 : string) :
  get db payment "status" = JStr "pending"
  ∨ get db payment "status" = JStr "created" →
  Variant2.cancel req uuid now1 now2 db =
    (json 200 [("cancellationId", JStr ("can_" +:+ uuid));
               ("status", JStr "canceled");
               ("reason", own (body req) "reason");
               ("timestamp", JStr now2)],
     <[id :=
         <["updatedAt" := JStr now1]>
           (<["cancelReason" := own (body req) "reason"]>
              (<["status" := JStr "canceled"]> payment))]> db).
Proof.
  intros Hst. handler_at Hkey Hknown.
  assert (includes ["pending"; "created"] (get db payment "status") = true) as ->.
  { apply includes_spec. destruct Hst as [-> | ->]; eexists; split; eauto.
    - apply list_elem_of_here.
    - apply list_elem_of_further, list_elem_of_here. }
  cbn [negb]. by stored_writes Hknown.
Qed.

Lemma variant2_callback_invalid (now1 now2 : string) :
  includes ["success"; "failed"; "canceled"] (get db (body req) "status") = false →
  Variant2.callback rt req now1 now2 db =
    (json 400 [("error", JStr "Invalid status")], db).
Proof. intros Hst. handler_at Hkey Hknown. by rewrite Hst. Qed.

(** For a status of the list, callback writes status and updatedAt and
    answers 200 with the URL it selects, or 500 when the URL cannot be
    read or cannot be made a string. *)
Lemma variant2_callback_valid (now1 now2 : string) :
  includes ["success"; "failed"; "canceled"] (get db (body req) "status") = true →
  (Variant2.callback rt req now1 now2 db).2 =
    <[id :=
        <["updatedAt" := JStr now1]>
          (<["status" := get db (body req) "status"]> payment)]> db
  ∧ (res_status (Variant2.callback rt req now1 now2 db).1 = 200
     ∨ res_status (Variant2.callback rt req now1 now2 db).1 = 500).
Proof.
  intros Hst. handler_at Hkey Hknown. rewrite Hst. cbn [negb].
  stored_writes Hknown.
  destruct (_ ≫= to_string); simpl; auto.
Qed.

End KnownPayment.

(** *** Records, answers and stores *)

Lemma stored_insert_eq (db : store) (id f : string) (record : object) :
  stored (<[id := record]> db) id f = Some (own record f).
Proof. unfold stored. by rewrite store_lookup_insert_eq. Qed.

Lemma others_kept_insert (db : store) (id : string) (record : object) :
  others_kept id db (<[id := record]> db).
Proof. intros id' Hne. by rewrite store_lookup_insert_ne. Qed.

Lemma rejected_with_intro (code : nat) (db : store) (fields : list (string * jsval)) :
  rejected_with code db (json code fields, db).
Proof. by split. Qed.

(** *** redirect *)

Lemma define_generated (db : store) (uuid : string) (record : object) :
  define db ("pay_" +:+ uuid) record = <["pay_" +:+ uuid := record]> db.
Proof. reflexivity. Qed.

Lemma server_redirect_valid (rt : runtime) (req : request)
    (uuid1 uuid2 token now : string) (db : store) :
  validationErrors req = [] →
  Server.redirect rt req uuid1 uuid2 token now db =
    (json 200 [("redirectUrl",
                JStr (PAYMENT_DOMAIN rt +:+ "/checkout?paymentId=" +:+
                      ("pay_" +:+ uuid1) +:+ "&token=" +:+ token));
               ("transactionId", JStr ("trans_" +:+ uuid2));
               ("status", JStr "pending")],
     <["pay_" +:+ uuid1 := list_to_map
         [("paymentId", JStr ("pay_" +:+ uuid1));
          ("orderId", own (body req) "orderId");
          ("amount", own (body req) "amount");
          ("currency", or_else (own (body req) "currency") (JStr "USD"));
          ("status", JStr "pending");
          ("callbackUrls", own (body req) "callbackUrls");
          ("createdAt", JStr now)]]> db).
Proof. intros Hvalid. unfold Server.redirect. by rewrite Hvalid. Qed.

Lemma server_redirect_invalid (rt : runtime) (req : request)
    (uuid1 uuid2 token now : string) (db : store) :
  validationErrors req ≠ [] →
  Server.redirect rt req uuid1 uuid2 token now db = (Server.bad_request req, db).
Proof.
  intros Hinvalid. unfold Server.redirect.
  destruct (validationErrors req); [done | reflexivity].
Qed.

Lemma variant2_redirect_ok (req : request) (uuid1 uuid2 token now : string)
    (db : store) :
  truthy (own (body req) "orderId") && truthy (own (body req) "amount")
  && truthy (own (body req) "currency") && truthy (own (body req) "callbackUrls")
    = true →
  Variant2.redirect req uuid1 uuid2 token now db =
    (json 200 [("redirectUrl",
                JStr ("https://yourpaymentgateway.com/checkout?paymentId=" +:+
                      ("pay_" +:+ uuid1) +:+ "&token=" +:+ token));
               ("transactionId", JStr ("trans_" +:+ uuid2));
               ("status", JStr "redirect")],
     <["pay_" +:+ uuid1 := list_to_map
         [("paymentId", JStr ("pay_" +:+ uuid1));
          ("orderId", own (body req) "orderId");
          ("amount", own (body req) "amount");
          ("currency", own (body req) "currency");
          ("status", JStr "pending");
          ("createdAt", JStr now);
          ("callbackUrls", own (body req) "callbackUrls")]]> db).
Proof.
  intros Hok. unfold Variant2.redirect. cbv zeta. own_names.
  destruct (truthy (own (body req) "orderId")), (truthy (own (body req) "amount")),
    (truthy (own (body req) "currency")), (truthy (own (body req) "callbackUrls"));
    by simpl in *.
Qed.

Lemma variant2_redirect_missing (req : request) (uuid1 uuid2 token now : string)
    (db : store) :
  truthy (own (body req) "orderId") && truthy (own (body req) "amount")
  && truthy (own (body req) "currency") && truthy (own (body req) "callbackUrls")
    = false →
  Variant2.redirect req uuid1 uuid2 token now db =
    (json 400 [("error", JStr "Missing required fields")], db).
Proof.
  intros Hok. unfold Variant2.redirect. cbv zeta. own_names.
  destruct (truthy (own (body req) "orderId")), (truthy (own (body req) "amount")),
    (truthy (own (body req) "currency")), (truthy (own (body req) "callbackUrls"));
    by simpl in *.
Qed.

(** *** Payments found on the prototype chain *)

(** When the store has no record under the key of the request, whatever
    the handler finds and assigns is outside the records: they stay as they
    are. *)
Section NoRecord.
Context (rt : runtime) (req : request) (db : store) (id : string).
Hypothesis Hkey : key_of req = Some id.
Hypothesis Hnone : db !! id = None.

Ltac keeps_records :=
  unfold key_of in Hkey;
  cbv beta delta [Server.create Server.capture Server.refund Server.cancel
    Server.callback Variant1.capture Variant1.refund Variant1.cancel
    Variant1.callback Variant2.create Variant2.capture Variant2.refund
    Variant2.cancel Variant2.callback];
  cbv zeta; own_names; rewrite ?Hkey;
  destruct (find_payment db id) as [p |] eqn:Hfind;
    [| by repeat case_match];
  destruct (find_payment_inv _ _ _ Hfind) as [[_ [? Hsome]] | [Hp _]];
    [congruence |];
  repeat case_match; cbn [snd]; rewrite ?(write_payments _ _ _ _ Hp); reflexivity.

Lemma server_create_keeps_records (now : string) :
  payments (Server.create req now db).2 = payments db.
Proof. keeps_records. Qed.

Lemma server_capture_keeps_records (uuid now : string) :
  payments (Server.capture req uuid now db).2 = payments db.
Proof. keeps_records. Qed.

Lemma server_refund_keeps_records (uuid now : string) :
  payments (Server.refund req uuid now db).2 = payments db.
Proof. keeps_records. Qed.

Lemma server_cancel_keeps_records (uuid now : string) :
  payments (Server.cancel req uuid now db).2 = payments db.
Proof. keeps_records. Qed.

Lemma server_callback_keeps_records (now : string) :
  payments (Server.callback rt req now db).2 = payments db.
Proof. keeps_records. Qed.

Lemma variant1_capture_keeps_records (now : string) :
  payments (Variant1.capture req now db).2 = payments db.
Proof. keeps_records. Qed.

Lemma variant1_refund_keeps_records (uuid now : string) :
  payments (Variant1.refund req uuid now db).2 = payments db.
Proof. keeps_records. Qed.

Lemma variant1_callback_keeps_records (now : string) :
  payments (Variant1.callback rt req now db).2 = payments db.
Proof. keeps_records. Qed.

Lemma variant2_create_keeps_records (now1 now2 : string) :
  payments (Variant2.create req now1 now2 db).2 = payments db.
Proof. keeps_records. Qed.

Lemma variant2_capture_keeps_records (uuid now1 now2 : string) :
  payments (Variant2.capture req uuid now1 now2 db).2 = payments db.
Proof. keeps_records. Qed.

Lemma variant2_refund_keeps_records (uuid now1 now2 : string) :
  payments (Variant2.refund req uuid now1 now2 db).2 = payments db.
Proof. keeps_records. Qed.

Lemma variant2_cancel_keeps_records (uuid now1 now2 : string) :
  payments (Variant2.cancel req uuid now1 now2 db).2 = payments db.
Proof. keeps_records. Qed.

Lemma variant2_callback_keeps_records (now1 now2 : string) :
  payments (Variant2.callback rt req now1 now2 db).2 = payments db.
Proof. keeps_records. Qed.

End NoRecord.

(** *** Status moves, handler by handler *)

Lemma lookup_same_records (db db' : store) (id : string) :
  payments db' = payments db → db' !! id = db !! id.
Proof.
  intros Heq. change (payments db' !! id = payments db !! id). by rewrite Heq.
Qed.

Lemma moves_refl (edge : jsval → jsval → Prop) (db : store) : moves edge db db.
Proof. intros id record Hid. exists record. auto. Qed.

Lemma moves_same_records (edge : jsval → jsval → Prop) (db db' : store) :
  payments db' = payments db → moves edge db db'.
Proof.
  intros Heq id record Hid. exists record.
  rewrite (lookup_same_records db db') by done. auto.
Qed.

Lemma moves_insert (edge : jsval → jsval → Prop) (db : store) (k : string)
    (payment' : object) :
  (∀ payment, db !! k = Some payment →
     own payment' "status" = own payment "status"
     ∨ edge (own payment "status") (own payment' "status")) →
  moves edge db (<[k := payment']> db).
Proof.
  intros Hk id record Hid. destruct (decide (id = k)) as [-> | Hne].
  - exists payment'. rewrite store_lookup_insert_eq. split; [done | by apply Hk].
  - exists record. rewrite store_lookup_insert_ne by done. auto.
Qed.

Lemma moves_weaken (edge edge' : jsval → jsval → Prop) (db db' : store) :
  (∀ s s', edge s s' → edge' s s') → moves edge db db' → moves edge' db db'.
Proof.
  intros Hsub Hmoves id record Hid.
  destruct (Hmoves id record Hid) as (record' & Hid' & [Hsame | Hedge]);
    exists record'; auto.
Qed.

Lemma records_have_status_same (db db' : store) :
  payments db' = payments db → records_have_status db → records_have_status db'.
Proof.
  intros Heq Hstatus id record Hid. apply (Hstatus id).
  by rewrite <- (lookup_same_records db db').
Qed.

Lemma records_have_status_insert (db : store) (id : string) (record : object) :
  is_Some (record !! "status") →
  records_have_status db → records_have_status (<[id := record]> db).
Proof.
  intros Hrecord Hstatus id' record' Hid'.
  destruct (decide (id = id')) as [<- | Hne].
  - rewrite store_lookup_insert_eq in Hid'. by injection Hid' as <-.
  - rewrite store_lookup_insert_ne in Hid' by done. by apply (Hstatus id').
Qed.

Lemma records_have_status_empty : records_have_status ∅.
Proof. intros id record. by rewrite store_lookup_empty. Qed.

(** The store after [define]: the record is stored under the key, or has
    become the prototype of paymentsDb while the records stay. *)
Lemma define_cases (db : store) (key : string) (record : object) :
  define db key record = <[key := record]> db
  ∨ payments (define db key record) = payments db.
Proof.
  unfold define. destruct (String.eqb key "__proto__"); [| by left].
  destruct (db !! key), (proto_field db key); auto.
Qed.

(** The status that a handler reads from a stored record is the record's
    own when it has one. *)
Lemma get_status (db : store) (id : string) (record : object) :
  records_have_status db → db !! id = Some record →
  get db record "status" = own record "status".
Proof. intros Hstatus Hid. apply get_present. by apply (Hstatus id). Qed.

(** The checks of a status move after an update of the record under [id]. *)
Ltac moved :=
  apply moves_insert; intros payment0 Hpayment0; right;
  repeat match goal with
         | H : ?db !! ?id = Some ?p, H' : ?db !! ?id = Some ?q |- _ =>
             assert (q = p) as -> by congruence; clear H'
         end;
  rewrite ?own_insert_ne, ?own_insert_eq by done; auto.

(** The same for a callback with a valid signature. *)
Ltac signed_move :=
  apply moves_insert; intros payment0 Hpayment0; right; split; [done |];
  by rewrite !own_insert_ne, own_insert_eq by done.

(** The record under [id] keeps a status of its own after an update. *)
Ltac still_has_status :=
  apply records_have_status_insert; [| assumption];
  rewrite ?lookup_insert_ne by done; rewrite ?lookup_insert_eq; eauto.

Section Moves.
Context (rt : runtime) (req : request) (db : store).


Lemma server_redirect_has_status (uuid1 uuid2 token now : string) :
  records_have_status db →
  records_have_status (Server.redirect rt req uuid1 uuid2 token now db).2.
Proof.
  intros Hstatus.
  destruct (decide (validationErrors req = [])) as [Hvalid | Hinvalid].
  - rewrite server_redirect_valid by done. cbn [snd]. still_has_status.
  - by rewrite server_redirect_invalid.
Qed.

Lemma server_create_moves (now : string) :
  moves (λ _ s', s' = JStr "created") db (Server.create req now db).2
  ∧ (records_have_status db → records_have_status (Server.create req now db).2).
Proof.
  destruct (decide (validationErrors req = [])) as [Hvalid | Hinvalid]; last first.
  { rewrite server_create_invalid by done. split; [apply moves_refl | done]. }
  destruct (key_of req) as [id |] eqn:Hkey; last first.
  { rewrite server_create_no_key by done. split; [apply moves_refl | done]. }
  destruct (db !! id) as [payment |] eqn:Hknown; last first.
  { pose proof (server_create_keeps_records req db id Hkey Hknown now) as Hkeeps.
    split; [by apply moves_same_records | by apply (records_have_status_same db)]. }
  destruct (member db (own (body req) "cardDetails") "number" ≫= call_slice_last4)
    as [last4 |] eqn:Hslice.
  - rewrite (server_create_ok req db id payment) with (last4 := last4) by done.
    split; [moved | intros Hstatus; cbn [snd]; still_has_status].
  - rewrite (server_create_throws req db id payment) by done.
    split; [moved | intros Hstatus; cbn [snd]; still_has_status].
Qed.


Lemma server_capture_moves (uuid now : string) :
  records_have_status db →
  moves (λ s s', s = JStr "created" ∧ s' = JStr "captured") db
    (Server.capture req uuid now db).2
  ∧ records_have_status (Server.capture req uuid now db).2.
Proof.
  intros Hstatus.
  destruct (key_of req) as [id |] eqn:Hkey; last first.
  { rewrite server_capture_no_key by done. split; [apply moves_refl | done]. }
  destruct (db !! id) as [payment |] eqn:Hknown; last first.
  { pose proof (server_capture_keeps_records req db id Hkey Hknown uuid now)
      as Hkeeps.
    split; [by apply moves_same_records | by apply (records_have_status_same db)]. }
  pose proof (get_status db id payment Hstatus Hknown) as Hown.
  destruct (strict_eq_str (get db payment "status") "created") eqn:Hst.
  - apply strict_eq_str_spec in Hst.
    rewrite (server_capture_created req db id payment) by done.
    rewrite Hown in Hst. split; [moved | cbn [snd]; still_has_status].
  - apply strict_eq_str_false in Hst.
    rewrite (server_capture_conflict req db id payment) by done.
    split; [apply moves_refl | done].
Qed.


Lemma server_refund_moves (uuid now : string) :
  records_have_status db →
  moves (λ s s', s = JStr "captured" ∧ s' = JStr "refunded") db
    (Server.refund req uuid now db).2
  ∧ records_have_status (Server.refund req uuid now db).2.
Proof.
  intros Hstatus.
  destruct (key_of req) as [id |] eqn:Hkey; last first.
  { rewrite server_refund_no_key by done. split; [apply moves_refl | done]. }
  destruct (db !! id) as [payment |] eqn:Hknown; last first.
  { pose proof (server_refund_keeps_records req db id Hkey Hknown uuid now)
      as Hkeeps.
    split; [by apply moves_same_records | by apply (records_have_status_same db)]. }
  pose proof (get_status db id payment Hstatus Hknown) as Hown.
  destruct (strict_eq_str (get db payment "status") "captured") eqn:Hst.
  - apply strict_eq_str_spec in Hst.
    rewrite (server_refund_captured req db id payment) by done.
    rewrite Hown in Hst. split; [moved | cbn [snd]; still_has_status].
  - apply strict_eq_str_false in Hst.
    rewrite (server_refund_conflict req db id payment) by done.
    split; [apply moves_refl | done].
Qed.


Lemma server_cancel_moves (uuid now : string) :
  records_have_status db →
  moves (λ s s', (s = JStr "pending" ∨ s = JStr "created") ∧ s' = JStr "canceled")
    db (Server.cancel req uuid now db).2
  ∧ records_have_status (Server.cancel req uuid now db).2.
Proof.
  intros Hstatus.
  destruct (key_of req) as [id |] eqn:Hkey; last first.
  { rewrite server_cancel_no_key by done. split; [apply moves_refl | done]. }
  destruct (db !! id) as [payment |] eqn:Hknown; last first.
  { pose proof (server_cancel_keeps_records req db id Hkey Hknown uuid now)
      as Hkeeps.
    split; [by apply moves_same_records | by apply (records_have_status_same db)]. }
  pose proof (get_status db id payment Hstatus Hknown) as Hown.
  destruct (strict_eq_str (get db payment "status") "pending") eqn:Hp;
    [| destruct (strict_eq_str (get db payment "status") "created") eqn:Hc].
  - apply strict_eq_str_spec in Hp.
    rewrite (server_cancel_open req db id payment) by auto.
    rewrite Hown in Hp. split; [moved | cbn [snd]; still_has_status].
  - apply strict_eq_str_spec in Hc.
    rewrite (server_cancel_open req db id payment) by auto.
    rewrite Hown in Hc. split; [moved | cbn [snd]; still_has_status].
  - apply strict_eq_str_false in Hp, Hc.
    rewrite (server_cancel_conflict req db id payment) by done.
    split; [apply moves_refl | done].
Qed.

Lemma server_callback_moves (now : string) :
  moves (server_edge rt db (Callback req now)) db (Server.callback rt req now db).2
  ∧ (records_have_status db →
     records_have_status (Server.callback rt req now db).2).
Proof.
  destruct (key_of req) as [id |] eqn:Hkey; last first.
  { rewrite server_callback_no_key by done. split; [apply moves_refl | done]. }
  destruct (db !! id) as [payment |] eqn:Hknown; last first.
  { pose proof (server_callback_keeps_records rt req db id Hkey Hknown now)
      as Hkeeps.
    split; [by apply moves_same_records | by apply (records_have_status_same db)]. }
  destruct (decide (headers req !! "x-signature"
                      = Some (Server.generateSignature rt (JObj (body req)))))
    as [Hsigned | Hforged]; last first.
  { rewrite (server_callback_forged rt req db id payment) by done.
    split; [apply moves_refl | done]. }
  destruct ((to_string (get db (body req) "status")
               ≫= index rt db (own payment "callbackUrls")) ≫= text)
    as [callbackUrl |] eqn:Hurl.
  - rewrite (server_callback_signed rt req db id payment Hkey Hknown now Hsigned
               callbackUrl Hurl).
    split; [signed_move | intros Hstatus; cbn [snd]; still_has_status].
  - rewrite (server_callback_signed_throws rt req db id payment Hkey Hknown now
               Hsigned Hurl).
    split; [signed_move | intros Hstatus; cbn [snd]; still_has_status].
Qed.




Lemma server_authenticated_has_status (h : store → response * store) :
  records_have_status db →
  records_have_status (h db).2 →
  records_have_status (Server.authenticated rt req h db).2.
Proof.
  intros Hdb Hh. unfold Server.authenticated.
  by destruct (Server.authenticate rt req).
Qed.


End Moves.

(** *** What the handlers assign *)

Lemma assigned_refl (fields : list string) (db : store) : assigned fields db db.
Proof. by left. Qed.

Lemma assigned_insert (fields : list string) (db : store) (id : string)
    (record record' : object) :
  db !! id = Some record →
  (∀ f, f ∉ fields → record' !! f = record !! f) →
  assigned fields db (<[id := record']> db).
Proof. intros Hid Hframe. right. by exists id, record, record'. Qed.

Lemma assigned_framed (fields : list string) (db db' : store) :
  assigned fields db db' → framed fields db db'.
Proof.
  intros [Hsame | (id & record & record' & Hid & -> & Hframe)] id0 record0 Hid0.
  - exists record0. by rewrite (lookup_same_records db db').
  - destruct (decide (id0 = id)) as [-> | Hne].
    + exists record'. rewrite store_lookup_insert_eq. split; [done |].
      assert (record0 = record) as -> by congruence. exact Hframe.
    + exists record0. rewrite store_lookup_insert_ne by done. auto.
Qed.

Lemma dom_store_insert (db : store) (id : string) (record : object) :
  dom (payments (<[id := record]> db)) = {[id]} ∪ dom (payments db).
Proof. apply (dom_insert_L (payments db)). Qed.

Lemma assigned_dom (fields : list string) (db db' : store) :
  assigned fields db db' → dom (payments db') = dom (payments db).
Proof.
  intros [-> | (id & record & record' & Hid & -> & _)]; [done |].
  rewrite dom_store_insert.
  assert (id ∈ dom (payments db)) by (apply elem_of_dom; eauto). set_solver.
Qed.

(** Closes the side condition of [assigned_insert] for assignments to
    fields of [mutable_fields]. *)
Ltac frame_fields :=
  intros f Hf; unfold mutable_fields in Hf;
  rewrite !elem_of_cons, elem_of_nil in Hf;
  rewrite !lookup_insert_ne by (intros Heq; apply Hf; subst f; auto 10);
  reflexivity.

Section Assigned.
Context (rt : runtime) (req : request) (db : store).

Lemma server_create_assigned (now : string) :
  assigned mutable_fields db (Server.create req now db).2.
Proof.
  destruct (decide (validationErrors req = [])) as [Hvalid | Hinvalid]; last first.
  { rewrite server_create_invalid by done. apply assigned_refl. }
  destruct (key_of req) as [id |] eqn:Hkey; last first.
  { rewrite server_create_no_key by done. apply assigned_refl. }
  destruct (db !! id) as [payment |] eqn:Hknown; last first.
  { left. by apply (server_create_keeps_records req db id). }
  destruct (member db (own (body req) "cardDetails") "number" ≫= call_slice_last4)
    as [last4 |] eqn:Hslice.
  - rewrite (server_create_ok req db id payment) with (last4 := last4) by done.
    apply (assigned_insert _ _ _ payment); [done | frame_fields].
  - rewrite (server_create_throws req db id payment) by done.
    apply (assigned_insert _ _ _ payment); [done | frame_fields].
Qed.

Lemma server_capture_assigned (uuid now : string) :
  assigned mutable_fields db (Server.capture req uuid now db).2.
Proof.
  destruct (key_of req) as [id |] eqn:Hkey; last first.
  { rewrite server_capture_no_key by done. apply assigned_refl. }
  destruct (db !! id) as [payment |] eqn:Hknown; last first.
  { left. by apply (server_capture_keeps_records req db id). }
  destruct (strict_eq_str (get db payment "status") "created") eqn:Hst.
  - apply strict_eq_str_spec in Hst.
    rewrite (server_capture_created req db id payment) by done.
    apply (assigned_insert _ _ _ payment); [done | frame_fields].
  - apply strict_eq_str_false in Hst.
    rewrite (server_capture_conflict req db id payment) by done.
    apply assigned_refl.
Qed.

Lemma variant1_capture_assigned (now : string) :
  assigned mutable_fields db (Variant1.capture req now db).2.
Proof.
  destruct (key_of req) as [id |] eqn:Hkey; last first.
  { rewrite variant1_capture_no_key by done. apply assigned_refl. }
  destruct (db !! id) as [payment |] eqn:Hknown; last first.
  { left. by apply (variant1_capture_keeps_records req db id). }
  rewrite (variant1_capture_any req db id payment) by done.
  apply (assigned_insert _ _ _ payment); [done | frame_fields].
Qed.

Lemma server_refund_assigned (uuid now : string) :
  assigned mutable_fields db (Server.refund req uuid now db).2.
Proof.
  destruct (key_of req) as [id |] eqn:Hkey; last first.
  { rewrite server_refund_no_key by done. apply assigned_refl. }
  destruct (db !! id) as [payment |] eqn:Hknown; last first.
  { left. by apply (server_refund_keeps_records req db id). }
  destruct (strict_eq_str (get db payment "status") "captured") eqn:Hst.
  - apply strict_eq_str_spec in Hst.
    rewrite (server_refund_captured req db id payment) by done.
    apply (assigned_insert _ _ _ payment); [done | frame_fields].
  - apply strict_eq_str_false in Hst.
    rewrite (server_refund_conflict req db id payment) by done.
    apply assigned_refl.
Qed.

Lemma variant1_refund_assigned (uuid now : string) :
  assigned mutable_fields db (Variant1.refund req uuid now db).2.
Proof.
  destruct (key_of req) as [id |] eqn:Hkey; last first.
  { rewrite variant1_refund_no_key by done. apply assigned_refl. }
  destruct (db !! id) as [payment |] eqn:Hknown; last first.
  { left. by apply (variant1_refund_keeps_records req db id). }
  rewrite (variant1_refund_any req db id payment) by done.
  apply (assigned_insert _ _ _ payment); [done | frame_fields].
Qed.

Lemma server_cancel_assigned (uuid now : string) :
  assigned mutable_fields db (Server.cancel req uuid now db).2.
Proof.
  destruct (key_of req) as [id |] eqn:Hkey; last first.
  { rewrite server_cancel_no_key by done. apply assigned_refl. }
  destruct (db !! id) as [payment |] eqn:Hknown; last first.
  { left. by apply (server_cancel_keeps_records req db id). }
  destruct (strict_eq_str (get db payment "status") "pending") eqn:Hp;
    [| destruct (strict_eq_str (get db payment "status") "created") eqn:Hc].
  - apply strict_eq_str_spec in Hp.
    rewrite (server_cancel_open req db id payment) by auto.
    apply (assigned_insert _ _ _ payment); [done | frame_fields].
  - apply strict_eq_str_spec in Hc.
    rewrite (server_cancel_open req db id payment) by auto.
    apply (assigned_insert _ _ _ payment); [done | frame_fields].
  - apply strict_eq_str_false in Hp, Hc.
    rewrite (server_cancel_conflict req db id payment) by done.
    apply assigned_refl.
Qed.

Lemma server_callback_assigned (now : string) :
  assigned mutable_fields db (Server.callback rt req now db).2.
Proof.
  destruct (key_of req) as [id |] eqn:Hkey; last first.
  { rewrite server_callback_no_key by done. apply assigned_refl. }
  destruct (db !! id) as [payment |] eqn:Hknown; last first.
  { left. by apply (server_callback_keeps_records rt req db id). }
  destruct (decide (headers req !! "x-signature"
                      = Some (Server.generateSignature rt (JObj (body req)))))
    as [Hsigned | Hforged]; last first.
  { rewrite (server_callback_forged rt req db id payment) by done.
    apply assigned_refl. }
  destruct ((to_string (get db (body req) "status")
               ≫= index rt db (own payment "callbackUrls")) ≫= text)
    as [callbackUrl |] eqn:Hurl.
  - rewrite (server_callback_signed rt req db id payment Hkey Hknown now Hsigned
               callbackUrl Hurl).
    apply (assigned_insert _ _ _ payment); [done | frame_fields].
  - rewrite (server_callback_signed_throws rt req db id payment Hkey Hknown now
               Hsigned Hurl).
    apply (assigned_insert _ _ _ payment); [done | frame_fields].
Qed.

Lemma variant1_callback_assigned (now : string) :
  assigned mutable_fields db (Variant1.callback rt req now db).2.
Proof.
  destruct (key_of req) as [id |] eqn:Hkey; last first.
  { rewrite variant1_callback_no_key by done. apply assigned_refl. }
  destruct (db !! id) as [payment |] eqn:Hknown; last first.
  { left. by apply (variant1_callback_keeps_records rt req db id). }
  destruct (decide (headers req !! "x-signature"
                      = Some (Server.generateSignature rt (JObj (body req)))))
    as [Hsigned | Hforged]; last first.
  { rewrite (variant1_callback_forged rt req db id payment) by done.
    apply assigned_refl. }
  destruct (variant1_callback_signed rt req db id payment Hkey Hknown now Hsigned)
    as (answer & -> & _).
  apply (assigned_insert _ _ _ payment); [done | frame_fields].
Qed.

End Assigned.

(** *** Where paymentIds come from *)

(** On server.js only redirect adds a key, and the key is the paymentId it
    has generated; the other handlers assign to what they have found. *)
Lemma server_step_dom (rt : runtime) (c : call) (db : store) :
  dom (payments (Server.step rt c db).2) ⊆ dom (payments db) ∪ generated_id c.
Proof.
  destruct c as [req u1 u2 tok now | req now1 now2 | req u now
    | req u now | req u now | req now]; simpl;
    unfold Server.authenticated;
    try (destruct (Server.authenticate rt req); [| set_solver]).
  - destruct (decide (validationErrors req = [])) as [Hvalid | Hinvalid].
    + rewrite server_redirect_valid by done. cbn [snd].
      rewrite dom_store_insert. set_solver.
    + rewrite server_redirect_invalid by done. set_solver.
  - rewrite (assigned_dom _ _ _ (server_create_assigned req db now1)). set_solver.
  - rewrite (assigned_dom _ _ _ (server_capture_assigned req db u now)). set_solver.
  - rewrite (assigned_dom _ _ _ (server_refund_assigned req db u now)). set_solver.
  - rewrite (assigned_dom _ _ _ (server_cancel_assigned req db u now)). set_solver.
  - rewrite (assigned_dom _ _ _ (server_callback_assigned rt req db now)). set_solver.
Qed.

(** Along any sequence of calls to server.js, every key of the store was a
    key at the start or is a paymentId generated by one of the redirect
    calls. *)
Lemma server_run_dom (rt : runtime) (cs : list call) (db : store) :
  dom (payments (Server.run rt cs db)) ⊆ dom (payments db) ∪ ⋃ (generated_id <$> cs).
Proof.
  revert db. induction cs as [| c cs IH]; intros db; simpl.
  - set_solver.
  - etrans; [apply IH |]. pose proof (server_step_dom rt c db). set_solver.
Qed.

(** On the first program of part_000 create adds a key too: the paymentId
    of its request. *)
Lemma variant1_step_dom (rt : runtime) (c : call) (db : store) :
  dom (payments (Variant1.step rt c db).2) ⊆ dom (payments db) ∪ variant1_key c.
Proof.
  destruct c as [req u1 u2 tok now | req now1 now2 | req u now
    | req u now | req u now | req now]; simpl;
    unfold Variant1.authenticated;
    try (destruct (Variant1.authenticate rt req); [| set_solver ..]).
  - unfold Variant1.redirect.
    destruct (decide (validationErrors req = [])) as [Hvalid | Hinvalid].
    + rewrite server_redirect_valid by done. cbn [snd].
      rewrite dom_store_insert. set_solver.
    + rewrite server_redirect_invalid by done. set_solver.
  - unfold Variant1.create, key_of. cbv zeta. own_names.
    destruct (member db _ "number" ≫= call_slice_last4) as [last4 |];
      [| set_solver].
    destruct (member db _ "expiry") as [expiry |]; [| set_solver].
    destruct (to_string _) as [key |]; [| set_solver].
    cbn [snd].
    match goal with
    | |- context [define db key ?r] =>
        destruct (define_cases db key r) as [-> | ->]
    end; [| set_solver].
    rewrite dom_store_insert. set_solver.
  - rewrite (assigned_dom _ _ _ (variant1_capture_assigned req db now)). set_solver.
  - rewrite (assigned_dom _ _ _ (variant1_refund_assigned req db u now)). set_solver.
  - unfold Variant1.cancel.
    rewrite (assigned_dom _ _ _ (server_cancel_assigned req db u now)). set_solver.
  - rewrite (assigned_dom _ _ _ (variant1_callback_assigned rt req db now)). set_solver.
Qed.

Lemma variant1_run_dom (rt : runtime) (cs : list call) (db : store) :
  dom (payments (Variant1.run rt cs db)) ⊆ dom (payments db) ∪ ⋃ (variant1_key <$> cs).
Proof.
  revert db. induction cs as [| c cs IH]; intros db; simpl.
  - set_solver.
  - etrans; [apply IH |]. pose proof (variant1_step_dom rt c db). set_solver.
Qed.

(** *** Steps and runs *)

Lemma server_step_has_status (rt : runtime) (c : call) (db : store) :
  records_have_status db → records_have_status (Server.step rt c db).2.
Proof.
  intros Hstatus.
  destruct c as [req u1 u2 tok now | req now1 now2 | req u now
    | req u now | req u now | req now]; cbn [Server.step];
    try apply server_authenticated_has_status; try done.
  - by apply server_redirect_has_status.
  - by apply server_create_moves.
  - by apply server_capture_moves.
  - by apply server_refund_moves.
  - by apply server_cancel_moves.
  - by apply (server_callback_moves rt req db now).
Qed.


Lemma server_run_has_status (rt : runtime) (cs : list call) (db : store) :
  records_have_status db → records_have_status (Server.run rt cs db).
Proof.
  revert db. induction cs as [| c cs IH]; intros db Hstatus; simpl; [done |].
  by apply IH, server_step_has_status.
Qed.


(** ** The properties of the specification *)

(** C1 (amended).  In server.js and in the first program of part_000, a
    callback request for a stored paymentId whose x-signature header differs
    from the HMAC-SHA256 of the received body (or is missing) answers 403 and
    leaves the store, hence the record with its status and updatedAt, as it
    was.  The second program of part_000 never reads the header. *)
Theorem callback_forged_signature_rejected (rt : runtime) (req : request)
    (now : string) (db : store) (id : string) (payment : object) :
  key_of req = Some id →
  db !! id = Some payment →
  headers req !! "x-signature"
    ≠ Some (hmac_sha256_hex rt (HMAC_SECRET rt) (JSON_stringify rt (JObj (body req)))) →
  rejected_with 403 db (Server.callback rt req now db) ∧
  rejected_with 403 db (Variant1.callback rt req now db).
Proof.
  intros Hkey Hknown Hsig. split.
  - rewrite (server_callback_forged rt req db id payment Hkey Hknown now Hsig).
    apply rejected_with_intro.
  - rewrite (variant1_callback_forged rt req db id payment Hkey Hknown now Hsig).
    apply rejected_with_intro.
Qed.

Lemma callback_forged_signature_rejected_witness :
  key_of (callback_request "pay_u1" "failed" "forged") = Some "pay_u1" ∧
  demo_pending !! "pay_u1" = Some (pending_record "o1") ∧
  rejected_with 403 demo_pending
    (Server.callback demo_runtime (callback_request "pay_u1" "failed" "forged")
       "t9" demo_pending).
Proof.
  split; [reflexivity |]. split; [reflexivity |].
  apply (callback_forged_signature_rejected demo_runtime
           (callback_request "pay_u1" "failed" "forged") "t9" demo_pending
           "pay_u1" (pending_record "o1")).
  - reflexivity.
  - reflexivity.
  - vm_compute. discriminate.
Defined.

(** C1, as stated, fails on the second program of part_000: on the record
    its redirect has stored, a callback whose x-signature is not the HMAC of
    the body answers 200 and overwrites status and updatedAt. *)
Lemma callback_forged_counterexample :
  headers (callback_request "pay_u1" "failed" "forged") !! "x-signature"
    ≠ Some (Variant2.generateSignature demo_runtime
              (JObj (body (callback_request "pay_u1" "failed" "forged")))) ∧
  stored
    demo_pending2
    "pay_u1" "status" = Some (JStr "pending") ∧
  res_status
    (Variant2.callback demo_runtime (callback_request "pay_u1" "failed" "forged")
       "t9" "t9"
       demo_pending2).1
    = 200 ∧
  stored
    (Variant2.callback demo_runtime (callback_request "pay_u1" "failed" "forged")
       "t9" "t9"
       demo_pending2).2
    "pay_u1" "status" = Some (JStr "failed") ∧
  stored
    (Variant2.callback demo_runtime (callback_request "pay_u1" "failed" "forged")
       "t9" "t9"
       demo_pending2).2
    "pay_u1" "updatedAt" = Some (JStr "t9").
Proof. split_and!; evaluate. Qed.




(** C3 (amended).  For a paymentId that [paymentsDb[paymentId]] does not
    find, that is, one that is neither a key of the store nor the name of a
    property that paymentsDb inherits: capture, refund, cancel and callback
    answer 404 and leave the store as it was, in server.js and in the first
    program of part_000; create of server.js does the same for a request
    without validation errors (and answers 400, store unchanged, for one
    with validation errors).  The create of the first program of part_000
    makes no existence check. *)
Theorem unknown_payment_not_found (rt : runtime) (req : request)
    (uuid now : string) (db : store) (id : string) :
  key_of req = Some id →
  db !! id = None →
  inherits db id = false →
  (validationErrors req = [] →
     rejected_with 404 db (Server.create req now db)) ∧
  (validationErrors req ≠ [] →
     rejected_with 400 db (Server.create req now db)) ∧
  rejected_with 404 db (Server.capture req uuid now db) ∧
  rejected_with 404 db (Server.refund req uuid now db) ∧
  rejected_with 404 db (Server.cancel req uuid now db) ∧
  rejected_with 404 db (Server.callback rt req now db) ∧
  rejected_with 404 db (Variant1.capture req now db) ∧
  rejected_with 404 db (Variant1.refund req uuid now db) ∧
  rejected_with 404 db (Variant1.cancel req uuid now db) ∧
  rejected_with 404 db (Variant1.callback rt req now db).
Proof.
  intros Hkey Hid Hno.
  pose proof (find_payment_unknown db id Hid Hno) as Hunknown.
  split_and!.
  - intros Hvalid. by rewrite (server_create_unknown req db id).
  - intros Hinvalid. by rewrite server_create_invalid.
  - by rewrite (server_capture_unknown req db id).
  - by rewrite (server_refund_unknown req db id).
  - by rewrite (server_cancel_unknown req db id).
  - by rewrite (server_callback_unknown rt req db id).
  - by rewrite (variant1_capture_unknown req db id).
  - by rewrite (variant1_refund_unknown req db id).
  - unfold Variant1.cancel. by rewrite (server_cancel_unknown req db id).
  - by rewrite (variant1_callback_unknown rt req db id).
Qed.

Lemma unknown_payment_not_found_witness :
  key_of (card_request "pay_zz") = Some "pay_zz" ∧
  demo_pending !! "pay_zz" = None ∧
  inherits demo_pending "pay_zz" = false ∧
  rejected_with 404 demo_pending (Server.create (card_request "pay_zz") "t1" demo_pending).
Proof.
  split; [reflexivity |]. split; [reflexivity |]. split; [reflexivity |].
  pose proof (unknown_payment_not_found demo_runtime (card_request "pay_zz")
    "u3" "t1" demo_pending "pay_zz" eq_refl eq_refl eq_refl) as (Hcreate & _).
  apply Hcreate. reflexivity.
Defined.

(** C3, as stated, fails on the create of the first program of part_000:
    for a paymentId that is not in the store (and names nothing that
    paymentsDb inherits) it answers 200 and stores a new record under that
    id. *)
Lemma create_unknown_counterexample :
  key_of (card_request "pay_zz") = Some "pay_zz" ∧
  demo_pending !! "pay_zz" = None ∧
  inherits demo_pending "pay_zz" = false ∧
  res_status (Variant1.create (card_request "pay_zz") "t1" "t1" demo_pending).1
    = 200 ∧
  stored (Variant1.create (card_request "pay_zz") "t1" "t1" demo_pending).2
    "pay_zz" "status" = Some (JStr "created") ∧
  (Variant1.create (card_request "pay_zz") "t1" "t1" demo_pending).2
    ≠ demo_pending.
Proof.
  split_and!; [evaluate | evaluate | evaluate | evaluate | evaluate |].
  intros Heq.
  apply (f_equal (λ db : store, is_Some (db !! "pay_zz"))) in Heq.
  assert (is_Some ((Variant1.create (card_request "pay_zz") "t1" "t1" demo_pending).2
                     !! "pay_zz")) as Hsome by (eexists; reflexivity).
  rewrite Heq in Hsome. destruct Hsome as [record Hrecord]. discriminate Hrecord.
Qed.

(** C4.  In server.js (the program with the status guards), capture on a
    stored record whose status is not 'created' (so also 'pending') answers
    400 and leaves the store as it was; from status 'created' it answers 200,
    sets the status to 'captured', records the request's amount as
    capturedAmount and touches no other record; it answers 200 only from
    status 'created'.  The status is what [payment.status] reads. *)
Theorem capture_requires_created (req : request) (uuid now : string)
    (db : store) (id : string) (payment : object) :
  key_of req = Some id →
  db !! id = Some payment →
  (get db payment "status" ≠ JStr "created" →
     rejected_with 400 db (Server.capture req uuid now db)) ∧
  (get db payment "status" = JStr "created" →
     res_status (Server.capture req uuid now db).1 = 200 ∧
     stored (Server.capture req uuid now db).2 id "status"
       = Some (JStr "captured") ∧
     stored (Server.capture req uuid now db).2 id "capturedAmount"
       = Some (own (body req) "amount") ∧
     others_kept id db (Server.capture req uuid now db).2) ∧
  (res_status (Server.capture req uuid now db).1 = 200 →
     get db payment "status" = JStr "created").
Proof.
  intros Hkey Hknown. split_and!.
  - intros Hst.
    rewrite (server_capture_conflict req db id payment Hkey Hknown uuid now Hst).
    apply rejected_with_intro.
  - intros Hst.
    rewrite (server_capture_created req db id payment Hkey Hknown uuid now Hst).
    simpl. rewrite !stored_insert_eq. split_and!; try done.
    + by rewrite own_insert_ne, own_insert_ne, own_insert_eq.
    + by rewrite own_insert_ne, own_insert_eq.
    + apply others_kept_insert.
  - destruct (strict_eq_str (get db payment "status") "created") eqn:Hst.
    + intros _. by apply strict_eq_str_spec.
    + apply strict_eq_str_false in Hst.
      rewrite (server_capture_conflict req db id payment Hkey Hknown uuid now Hst).
      discriminate.
Qed.

Lemma capture_requires_created_witness :
  key_of (amount_request "pay_u1") = Some "pay_u1" ∧
  demo_created !! "pay_u1" = Some created_record ∧
  stored (Server.capture (amount_request "pay_u1") "u3" "t2" demo_created).2
    "pay_u1" "capturedAmount" = Some (JNum "10").
Proof.
  split; [reflexivity |]. split; [reflexivity |].
  pose proof (capture_requires_created (amount_request "pay_u1") "u3" "t2"
    demo_created "pay_u1" created_record eq_refl eq_refl) as (_ & Hok & _).
  destruct (Hok eq_refl) as (_ & _ & Hamount & _). exact Hamount.
Defined.

(** C5 (amended).  In server.js refund on a stored record answers 200
    exactly when the status is 'captured', then sets the status to
    'refunded' and records the request's amount as refundedAmount; from any
    other status (so from 'canceled' and 'pending') it answers 400 and
    leaves the store as it was.  The first program of part_000 has no status
    guard: there refund answers 200 and sets 'refunded' for every stored
    record.  The status is what [payment.status] reads. *)
Theorem refund_requires_captured (req : request) (uuid now : string)
    (db : store) (id : string) (payment : object) :
  key_of req = Some id →
  db !! id = Some payment →
  (res_status (Server.refund req uuid now db).1 = 200
     ↔ get db payment "status" = JStr "captured") ∧
  (get db payment "status" = JStr "captured" →
     stored (Server.refund req uuid now db).2 id "status"
       = Some (JStr "refunded") ∧
     stored (Server.refund req uuid now db).2 id "refundedAmount"
       = Some (own (body req) "amount") ∧
     others_kept id db (Server.refund req uuid now db).2) ∧
  (get db payment "status" ≠ JStr "captured" →
     rejected_with 400 db (Server.refund req uuid now db)) ∧
  (res_status (Variant1.refund req uuid now db).1 = 200 ∧
   stored (Variant1.refund req uuid now db).2 id "status"
     = Some (JStr "refunded")).
Proof.
  intros Hkey Hknown.
  assert (get db payment "status" ≠ JStr "captured" →
          rejected_with 400 db (Server.refund req uuid now db)) as Hconflict.
  { intros Hst.
    rewrite (server_refund_conflict req db id payment Hkey Hknown uuid now Hst).
    apply rejected_with_intro. }
  split_and!.
  - split.
    + destruct (strict_eq_str (get db payment "status") "captured") eqn:Hst.
      * intros _. by apply strict_eq_str_spec.
      * apply strict_eq_str_false in Hst. destruct (Hconflict Hst) as [-> _].
        discriminate.
    + intros Hst.
      by rewrite (server_refund_captured req db id payment Hkey Hknown uuid now Hst).
  - intros Hst.
    rewrite (server_refund_captured req db id payment Hkey Hknown uuid now Hst).
    simpl. rewrite !stored_insert_eq. split_and!.
    + by rewrite own_insert_ne, own_insert_ne, own_insert_eq.
    + by rewrite own_insert_ne, own_insert_eq.
    + apply others_kept_insert.
  - exact Hconflict.
  - by rewrite (variant1_refund_any req db id payment Hkey Hknown uuid now).
  - rewrite (variant1_refund_any req db id payment Hkey Hknown uuid now). simpl.
    rewrite stored_insert_eq.
    by rewrite own_insert_ne, own_insert_ne, own_insert_eq.
Qed.

Lemma refund_requires_captured_witness :
  key_of (amount_request "pay_u1") = Some "pay_u1" ∧
  demo_pending !! "pay_u1" = Some (pending_record "o1") ∧
  rejected_with 400 demo_pending
    (Server.refund (amount_request "pay_u1") "u4" "t3" demo_pending).
Proof.
  split; [reflexivity |]. split; [reflexivity |].
  pose proof (refund_requires_captured (amount_request "pay_u1") "u4" "t3"
    demo_pending "pay_u1" (pending_record "o1") eq_refl eq_refl)
    as (_ & _ & Hconflict & _).
  apply Hconflict. discriminate.
Defined.

(** C5, as stated, fails on the first program of part_000: a refund of the
    record that redirect has just stored with status 'pending' answers 200
    and moves it to 'refunded'. *)
Lemma refund_pending_counterexample :
  stored demo_pending "pay_u1" "status" = Some (JStr "pending") ∧
  res_status (Variant1.refund (amount_request "pay_u1") "u4" "t3" demo_pending).1
    = 200 ∧
  stored (Variant1.refund (amount_request "pay_u1") "u4" "t3" demo_pending).2
    "pay_u1" "status" = Some (JStr "refunded") ∧
  demo_pending =
    (Variant1.redirect demo_runtime (redirect_request "o1") "u1" "u2" "tok" "t0" ∅).2.
Proof. split_and!; evaluate. Qed.

(** C6.  In server.js and in the first program of part_000 (same handler
    text), cancel on a stored record answers 200 exactly when the status is
    'pending' or 'created', and then sets the status to 'canceled'; for every
    other status it answers 400 and leaves the store as it was.  The status
    is what [payment.status] reads. *)
Theorem cancel_requires_open (req : request) (uuid now : string)
    (db : store) (id : string) (payment : object) :
  key_of req = Some id →
  db !! id = Some payment →
  Variant1.cancel = Server.cancel ∧
  (res_status (Server.cancel req uuid now db).1 = 200
     ↔ get db payment "status" = JStr "pending"
       ∨ get db payment "status" = JStr "created") ∧
  (get db payment "status" = JStr "pending"
   ∨ get db payment "status" = JStr "created" →
     stored (Server.cancel req uuid now db).2 id "status"
       = Some (JStr "canceled") ∧
     others_kept id db (Server.cancel req uuid now db).2) ∧
  (get db payment "status" ≠ JStr "pending" →
   get db payment "status" ≠ JStr "created" →
     rejected_with 400 db (Server.cancel req uuid now db)).
Proof.
  intros Hkey Hknown.
  assert (get db payment "status" ≠ JStr "pending" →
          get db payment "status" ≠ JStr "created" →
          rejected_with 400 db (Server.cancel req uuid now db)) as Hconflict.
  { intros Hp Hc.
    rewrite (server_cancel_conflict req db id payment Hkey Hknown uuid now Hp Hc).
    apply rejected_with_intro. }
  split_and!.
  - reflexivity.
  - split.
    + destruct (strict_eq_str (get db payment "status") "pending") eqn:Hp.
      { intros _. left. by apply strict_eq_str_spec. }
      destruct (strict_eq_str (get db payment "status") "created") eqn:Hc.
      { intros _. right. by apply strict_eq_str_spec. }
      apply strict_eq_str_false in Hp, Hc.
      destruct (Hconflict Hp Hc) as [-> _]. discriminate.
    + intros Hst.
      by rewrite (server_cancel_open req db id payment Hkey Hknown uuid now Hst).
  - intros Hst.
    rewrite (server_cancel_open req db id payment Hkey Hknown uuid now Hst).
    simpl. rewrite stored_insert_eq. split.
    + by rewrite own_insert_ne, own_insert_eq.
    + apply others_kept_insert.
  - exact Hconflict.
Qed.

Lemma cancel_requires_open_witness :
  key_of (amount_request "pay_u1") = Some "pay_u1" ∧
  demo_captured !! "pay_u1"
    = Some (<["updatedAt" := JStr "t2"]>
              (<["capturedAmount" := JNum "10"]>
                 (<["status" := JStr "captured"]> created_record))) ∧
  rejected_with 400 demo_captured
    (Variant1.cancel (amount_request "pay_u1") "u5" "t4" demo_captured).
Proof.
  split; [reflexivity |]. split; [reflexivity |].
  pose proof (cancel_requires_open (amount_request "pay_u1") "u5" "t4"
    demo_captured "pay_u1" _ eq_refl eq_refl) as (-> & _ & _ & Hconflict).
  apply Hconflict; discriminate.
Defined.

(** *** Helpers for redirect, create and callback *)

Lemma run_fresh (db : store) (ids : gset string) (id : string) :
  dom (payments db) ⊆ dom (payments (∅ : store)) ∪ ids →
  id ∉ ids → db !! id = None.
Proof.
  intros Hdom Hid. apply (not_elem_of_dom (payments db)).
  intros Hin. apply Hdom in Hin. set_solver.
Qed.

Lemma define_stored (db : store) (key : string) (payment record : object) :
  db !! key = Some payment → define db key record = <[key := record]> db.
Proof. intros Hknown. unfold define. rewrite Hknown. by case_match. Qed.

Lemma member_defined (db : store) (v x : jsval) (f f' : string) :
  member db v f = Some x → is_Some (member db v f').
Proof. destruct v; simpl; try done; eauto. Qed.

(** The names that paymentsDb inherits are found, though nothing is stored
    under them: what is found is Object.prototype, a built-in function, or
    the record made prototype of paymentsDb. *)
Lemma find_payment_inherited (db : store) (id : string) :
  db !! id = None →
  proto_field db id = None →
  id = "__proto__" ∨ is_Some (object_prototype_function id) →
  ∃ p, find_payment db id = Some p ∧ is_stored p = false.
Proof.
  unfold find_payment, find_place, find_in_object_proto, proto_field.
  intros -> Hfield Hname.
  destruct (payments_proto db) as [proto |]; [rewrite Hfield |];
    (destruct Hname as [-> | [f Hf]];
     [simpl; eauto
     | rewrite Hf; destruct (String.eqb id "__proto__"); simpl; eauto]).
Qed.

Lemma server_callback_forged_at (rt : runtime) (req : request) (now : string)
    (db : store) (id : string) (p : place) :
  key_of req = Some id →
  find_payment db id = Some p →
  headers req !! "x-signature"
    ≠ Some (Server.generateSignature rt (JObj (body req))) →
  Server.callback rt req now db =
    (json 403 [("error", JStr "Invalid signature")], db).
Proof.
  intros Hkey Hfind Hsig. unfold key_of in Hkey.
  unfold Server.callback. cbv zeta. own_names. rewrite Hkey, Hfind.
  by rewrite bool_decide_eq_false_2.
Qed.

Lemma variant1_callback_forged_at (rt : runtime) (req : request) (now : string)
    (db : store) (id : string) (p : place) :
  key_of req = Some id →
  find_payment db id = Some p →
  headers req !! "x-signature"
    ≠ Some (Variant1.generateSignature rt (JObj (body req))) →
  Variant1.callback rt req now db =
    (json 403 [("error", JStr "Invalid signature")], db).
Proof.
  intros Hkey Hfind Hsig. unfold key_of in Hkey.
  unfold Variant1.callback. cbv zeta. own_names. rewrite Hkey, Hfind.
  by rewrite bool_decide_eq_false_2.
Qed.

(** The record of [demo_pending] holds the callback URLs of the demo. *)
Lemma demo_callbackUrls :
  own (pending_record "o1") "callbackUrls"
  = JObj (list_to_map
            [("success", JStr "https://x/s?o=1");
             ("failure", JStr "https://x/f?o=1");
             ("cancel", JStr "https://x/c?o=1")]).
Proof. reflexivity. Qed.

(** C7.  A redirect call without validation errors answers 200 and stores a
    record with status 'pending' under the paymentId it has generated,
    'pay_' followed by the uuidv4() result; the handler of the first program
    of part_000 is the handler of server.js.  In a store reached from the
    empty one by any sequence of calls, that paymentId is not yet a key, so
    no record is overwritten and the store gains exactly this key, given
    what uuidv4 is for: the generated paymentId is none of the paymentIds
    generated before (on server.js the only keys), and, on the first program
    of part_000, none of the paymentIds that callers of create have named
    before. *)
Theorem redirect_inserts_pending (rt : runtime) (req : request)
    (uuid1 uuid2 token now : string) (cs : list call) (db : store) :
  validationErrors req = [] →
  (db = Server.run rt cs ∅ ∧ "pay_" +:+ uuid1 ∉ ⋃ (generated_id <$> cs))
  ∨ (db = Variant1.run rt cs ∅ ∧ "pay_" +:+ uuid1 ∉ ⋃ (variant1_key <$> cs)) →
  Variant1.redirect rt = Server.redirect rt ∧
  db !! ("pay_" +:+ uuid1) = None ∧
  res_status (Server.redirect rt req uuid1 uuid2 token now db).1 = 200 ∧
  stored (Server.redirect rt req uuid1 uuid2 token now db).2
    ("pay_" +:+ uuid1) "status" = Some (JStr "pending") ∧
  stored (Server.redirect rt req uuid1 uuid2 token now db).2
    ("pay_" +:+ uuid1) "paymentId" = Some (JStr ("pay_" +:+ uuid1)) ∧
  (∀ id record, db !! id = Some record →
     id ≠ "pay_" +:+ uuid1 ∧
     (Server.redirect rt req uuid1 uuid2 token now db).2 !! id = Some record) ∧
  dom (payments (Server.redirect rt req uuid1 uuid2 token now db).2)
    = {["pay_" +:+ uuid1]} ∪ dom (payments db) ∧
  "pay_" +:+ uuid1 ∉ dom (payments db).
Proof.
  intros Hvalid Hrun.
  assert (db !! ("pay_" +:+ uuid1) = None) as Hfresh.
  { destruct Hrun as [[-> Hnew] | [-> Hnew]].
    - apply (run_fresh _ (⋃ (generated_id <$> cs))); [apply server_run_dom | done].
    - apply (run_fresh _ (⋃ (variant1_key <$> cs))); [apply variant1_run_dom | done]. }
  rewrite server_redirect_valid by done. cbn [fst snd res_status json].
  rewrite !stored_insert_eq. split_and!; try done.
  - intros id record Hid.
    assert (id ≠ "pay_" +:+ uuid1) as Hne by congruence.
    split; [done |]. by rewrite store_lookup_insert_ne.
  - by rewrite dom_store_insert.
  - by apply (not_elem_of_dom (payments db)).
Qed.

Lemma redirect_inserts_pending_witness :
  validationErrors (redirect_request "o2") = [] ∧
  demo_pending
    = Server.run demo_runtime
        [Redirect (redirect_request "o1") "u1" "u2" "tok" "t0"] ∅ ∧
  demo_pending !! "pay_u7" = None ∧
  stored (Server.redirect demo_runtime (redirect_request "o2") "u7" "u8" "tok" "t5"
            demo_pending).2 "pay_u7" "status" = Some (JStr "pending").
Proof.
  assert (demo_pending
          = Server.run demo_runtime
              [Redirect (redirect_request "o1") "u1" "u2" "tok" "t0"] ∅) as Hrun
    by (vm_compute; reflexivity).
  split; [reflexivity |]. split; [exact Hrun |].
  pose proof (redirect_inserts_pending demo_runtime (redirect_request "o2")
    "u7" "u8" "tok" "t5"
    [Redirect (redirect_request "o1") "u1" "u2" "tok" "t0"] demo_pending
    eq_refl) as Hredirect.
  destruct Hredirect as (_ & Hfresh & _ & Hst & _).
  - left. split; [exact Hrun |]. simpl. set_solver.
  - split; [exact Hfresh | exact Hst].
Defined.

(** C8 (the code departs from it).  For a card number sent as an array of at
    most four elements, [cardDetails.number.slice(-4)] is the whole array: a
    create call for a stored paymentId answers 200 and stores the whole card
    number, as cardLast4 on server.js and as cardDetails.last4 on the first
    program of part_000. *)
Theorem create_stores_array_number_whole (req : request) (now now' : string)
    (db : store) (id : string) (payment : object) (number : list jsval) :
  validationErrors req = [] →
  key_of req = Some id →
  db !! id = Some payment →
  member db (own (body req) "cardDetails") "number" = Some (JArr number ∅) →
  length number ≤ 4 →
  res_status (Server.create req now db).1 = 200 ∧
  stored (Server.create req now db).2 id "cardLast4" = Some (JArr number ∅) ∧
  res_status (Variant1.create req now now' db).1 = 200 ∧
  ∃ expiry,
    member db (own (body req) "cardDetails") "expiry" = Some expiry ∧
    stored (Variant1.create req now now' db).2 id "cardDetails"
      = Some (JObj (list_to_map [("last4", JArr number ∅); ("expiry", expiry)])).
Proof.
  intros Hvalid Hkey Hknown Hnumber Hshort.
  assert (member db (own (body req) "cardDetails") "number" ≫= call_slice_last4
          = Some (JArr number ∅)) as Hslice.
  { rewrite Hnumber. simpl. rewrite lookup_empty.
    by replace (length number - 4) with 0 by lia. }
  destruct (member_defined db _ _ "number" "expiry" Hnumber) as [expiry Hexpiry].
  rewrite (server_create_ok req db id payment Hkey Hknown now _ Hvalid Hslice).
  cbn [fst snd res_status json]. rewrite stored_insert_eq.
  split_and!; [done | by rewrite own_insert_ne, own_insert_eq | |].
  - unfold Variant1.create. cbv zeta. own_names.
    unfold key_of in Hkey. by rewrite Hslice, Hexpiry, Hkey.
  - exists expiry. split; [done |].
    unfold Variant1.create. cbv zeta. own_names.
    unfold key_of in Hkey. rewrite Hslice, Hexpiry, Hkey. cbn [snd].
    rewrite (define_stored db id payment) by done.
    by rewrite stored_insert_eq.
Qed.

Lemma create_stores_array_number_whole_witness :
  validationErrors (number_request "pay_u1" (JArr [JStr "4111111111111111"] ∅)) = [] ∧
  demo_pending !! "pay_u1" = Some (pending_record "o1") ∧
  res_status
    (Server.create (number_request "pay_u1" (JArr [JStr "4111111111111111"] ∅))
       "t1" demo_pending).1 = 200 ∧
  stored
    (Server.create (number_request "pay_u1" (JArr [JStr "4111111111111111"] ∅))
       "t1" demo_pending).2 "pay_u1" "cardLast4"
    = Some (JArr [JStr "4111111111111111"] ∅).
Proof.
  split; [reflexivity |]. split; [reflexivity |].
  pose proof (create_stores_array_number_whole
    (number_request "pay_u1" (JArr [JStr "4111111111111111"] ∅)) "t1" "t1"
    demo_pending "pay_u1" (pending_record "o1") [JStr "4111111111111111"]
    eq_refl eq_refl eq_refl eq_refl) as Hcreate.
  destruct Hcreate as (Hok & Hstored & _).
  - simpl. lia.
  - split; [exact Hok | exact Hstored].
Defined.

(** C9.  In server.js and in the first program of part_000, take a stored
    record whose callbackUrls object has exactly the keys 'success',
    'failure' and 'cancel' (the keys that redirect's frontend sends), and a
    request with a valid signature.  The handlers index callbackUrls with the
    request's status itself.  For status 'success' a URL is found: when it
    can be made a string, server.js answers 200 with that URL followed by
    '&sig=' and the HMAC of {paymentId, status}, and so does the first
    program when the URL is truthy; when it cannot be made a string (an
    object with a toString property of its own), server.js answers 500.  For
    status 'failed' or 'canceled' nothing is found: server.js answers 200
    with redirectUrl 'undefined&sig=...' and the first program of part_000
    with redirectUrl null.  In every case the status and updatedAt of the
    record are written. *)
Theorem callback_indexes_urls_by_status (rt : runtime) (req : request) (now : string)
    (db : store) (id : string) (payment : object) (urls : object) :
  key_of req = Some id →
  db !! id = Some payment →
  own payment "callbackUrls" = JObj urls →
  dom urls = {["success"; "failure"; "cancel"]} →
  headers req !! "x-signature"
    = Some (hmac_sha256_hex rt (HMAC_SECRET rt) (JSON_stringify rt (JObj (body req)))) →
  (get db (body req) "status" = JStr "success" →
     ∃ url,
       urls !! "success" = Some url ∧
       (∀ s, to_string url = Some s →
          Server.callback rt req now db =
            (json 200 [("redirectUrl",
                        JStr (s +:+ "&sig=" +:+
                              Server.generateSignature rt
                                (JObj (list_to_map
                                         [("paymentId", own (body req) "paymentId");
                                          ("status", JStr "success")]))));
                       ("status", JStr "callback_processed")],
             <[id :=
                 <["updatedAt" := JStr now]>
                   (<["status" := JStr "success"]> payment)]> db) ∧
          (truthy url = true →
             (Variant1.callback rt req now db).1 =
               json 200 [("status", JStr "callback_processed");
                         ("redirectUrl",
                          JStr (s +:+ "&sig=" +:+
                                Variant1.generateSignature rt
                                  (JObj (list_to_map
                                           [("paymentId", own (body req) "paymentId");
                                            ("status", JStr "success")]))))])) ∧
       (to_string url = None →
          Server.callback rt req now db =
            (internal_error,
             <[id :=
                 <["updatedAt" := JStr now]>
                   (<["status" := JStr "success"]> payment)]> db))) ∧
  (get db (body req) "status" = JStr "failed"
   ∨ get db (body req) "status" = JStr "canceled" →
     (∀ key, to_string (get db (body req) "status") = Some key →
        urls !! key = None) ∧
     (Server.callback rt req now db).1 =
       json 200 [("redirectUrl",
                  JStr ("undefined" +:+ "&sig=" +:+
                        Server.generateSignature rt
                          (JObj (list_to_map
                                   [("paymentId", own (body req) "paymentId");
                                    ("status", get db (body req) "status")]))));
                 ("status", JStr "callback_processed")] ∧
     (Variant1.callback rt req now db).1 =
       json 200 [("status", JStr "callback_processed"); ("redirectUrl", JNull)] ∧
     stored (Server.callback rt req now db).2 id "status"
       = Some (get db (body req) "status") ∧
     stored (Variant1.callback rt req now db).2 id "status"
       = Some (get db (body req) "status")).
Proof.
  intros Hkey Hknown Hurls Hdom Hsigned.
  assert (is_Some (urls !! "success")) as [url Hurl].
  { apply elem_of_dom. rewrite Hdom. set_solver. }
  assert (urls !! "failed" = None) as Hfailed.
  { apply not_elem_of_dom. rewrite Hdom. set_solver. }
  assert (urls !! "canceled" = None) as Hcanceled.
  { apply not_elem_of_dom. rewrite Hdom. set_solver. }
  split.
  - intros Hst. exists url. split; [done |]. split.
    + intros s Hs. split.
      * rewrite (server_callback_signed rt req db id payment Hkey Hknown now
                   Hsigned s); [by rewrite Hst |].
        rewrite Hst, Hurls. simpl. by rewrite Hurl.
      * intros Htruthy.
        rewrite (variant1_callback_signed_found rt req db id payment Hkey Hknown
                   now Hsigned (Data url)).
        -- simpl. rewrite Htruthy. simpl. by rewrite Hs, Hst.
        -- by rewrite Hurls.
        -- rewrite Hst, Hurls. simpl. by rewrite Hurl.
    + intros Hnone.
      rewrite (server_callback_signed_throws rt req db id payment Hkey Hknown now
                 Hsigned); [by rewrite Hst |].
      rewrite Hst, Hurls. simpl. by rewrite Hurl.
  - intros Hst.
    assert ((to_string (get db (body req) "status")
               ≫= index rt db (own payment "callbackUrls")) = Some (Data JUndefined))
      as Hfound.
    { rewrite Hurls. destruct Hst as [-> | ->]; simpl.
      - by rewrite Hfailed.
      - by rewrite Hcanceled. }
    rewrite (server_callback_signed rt req db id payment Hkey Hknown now
               Hsigned "undefined") by (by rewrite Hfound).
    rewrite (variant1_callback_signed_found rt req db id payment Hkey Hknown
               now Hsigned (Data JUndefined)) by (done || by rewrite Hurls).
    destruct (variant1_callback_signed rt req db id payment Hkey Hknown now Hsigned)
      as (answer & -> & _).
    cbn [fst snd]. rewrite !stored_insert_eq.
    split_and!; try done; try by rewrite own_insert_ne, own_insert_eq.
    intros key. by destruct Hst as [-> | ->]; intros [= <-].
Qed.

Lemma callback_indexes_urls_by_status_witness :
  key_of (signed_callback_request "pay_u1" "failed") = Some "pay_u1" ∧
  demo_pending !! "pay_u1" = Some (pending_record "o1") ∧
  (Variant1.callback demo_runtime (signed_callback_request "pay_u1" "failed")
     "t9" demo_pending).1 =
    json 200 [("status", JStr "callback_processed"); ("redirectUrl", JNull)].
Proof.
  split; [reflexivity |]. split; [reflexivity |].
  pose proof (callback_indexes_urls_by_status demo_runtime
    (signed_callback_request "pay_u1" "failed") "t9" demo_pending "pay_u1"
    (pending_record "o1") _ eq_refl eq_refl demo_callbackUrls) as Hcallback.
  destruct Hcallback as (_ & Hfailed).
  - evaluate.
  - evaluate.
  - destruct Hfailed as (_ & _ & Hnull & _); [left; reflexivity | exact Hnull].
Defined.

(** C10 (the code departs from it).  The callback handlers of server.js and
    of the first program of part_000 look the paymentId up before they read
    the signature: a paymentId that is not found answers 404, whatever the
    x-signature header is, and a stored one with a wrong or missing
    signature answers 403.  But the lookup [paymentsDb[paymentId]] finds
    what paymentsDb inherits: for the id '__proto__' or the name of a
    built-in function of Object.prototype ('constructor', 'toString', ...),
    under which no payment is stored, a request with a wrong or missing
    signature answers 403, not 404. *)
Theorem callback_lookup_before_signature (rt : runtime) (req : request)
    (now : string) (db : store) (id : string) :
  key_of req = Some id →
  db !! id = None →
  (inherits db id = false →
     rejected_with 404 db (Server.callback rt req now db) ∧
     rejected_with 404 db (Variant1.callback rt req now db)) ∧
  (proto_field db id = None →
   id = "__proto__" ∨ is_Some (object_prototype_function id) →
   headers req !! "x-signature"
     ≠ Some (hmac_sha256_hex rt (HMAC_SECRET rt) (JSON_stringify rt (JObj (body req)))) →
     rejected_with 403 db (Server.callback rt req now db) ∧
     rejected_with 403 db (Variant1.callback rt req now db)).
Proof.
  intros Hkey Hid. split.
  - intros Hno. pose proof (find_payment_unknown db id Hid Hno) as Hunknown.
    by rewrite (server_callback_unknown rt req db id),
      (variant1_callback_unknown rt req db id).
  - intros Hfield Hname Hsig.
    destruct (find_payment_inherited db id Hid Hfield Hname) as (p & Hfind & _).
    rewrite (server_callback_forged_at rt req now db id p),
      (variant1_callback_forged_at rt req now db id p) by done.
    split; apply rejected_with_intro.
Qed.

Lemma callback_lookup_before_signature_witness :
  key_of (callback_request "__proto__" "failed" "forged") = Some "__proto__" ∧
  (∅ : store) !! "__proto__" = None ∧
  rejected_with 403 ∅
    (Server.callback demo_runtime (callback_request "__proto__" "failed" "forged")
       "t9" ∅).
Proof.
  split; [reflexivity |]. split; [reflexivity |].
  pose proof (callback_lookup_before_signature demo_runtime
    (callback_request "__proto__" "failed" "forged") "t9" ∅ "__proto__"
    eq_refl eq_refl) as (_ & Hforged).
  apply Hforged.
  - reflexivity.
  - left. reflexivity.
  - vm_compute. discriminate.
Defined.

(** ** Further properties of the three programs *)

(** *** validateCardNumber (second program of part_000) *)

Lemma remove_non_digits_digits (s : string) :
  digits_of (Variant2.remove_non_digits s) = digits_of s.
Proof.
  induction s as [| c s IH]; simpl; [reflexivity |].
  destruct (Ascii.is_nat c) as [d |] eqn:Hc; simpl; [| exact IH].
  by rewrite Hc, IH.
Qed.

Lemma remove_non_digits_length (s : string) :
  String.length (Variant2.remove_non_digits s) = length (digits_of s).
Proof.
  induction s as [| c s IH]; simpl; [reflexivity |].
  destruct (Ascii.is_nat c); simpl; by rewrite IH.
Qed.

Lemma remove_non_digits_get (s : string) (i : nat) :
  String.get i (Variant2.remove_non_digits s) ≫= Ascii.is_nat = digits_of s !! i.
Proof.
  revert i. induction s as [| c s IH]; intros i; simpl; [by destruct i |].
  destruct (Ascii.is_nat c) as [d |] eqn:Hc; [| apply IH].
  destruct i as [| i]; simpl; [exact Hc | apply IH].
Qed.

Lemma luhn_loop_sum (s : string) (n sum : nat) (shouldDouble : bool) :
  n ≤ length (digits_of s) →
  Variant2.luhn_loop (Variant2.remove_non_digits s) n sum shouldDouble
    = sum + luhn_sum (rev (take n (digits_of s))) shouldDouble.
Proof.
  revert sum shouldDouble. induction n as [| i IH]; intros sum shouldDouble Hn.
  - simpl. lia.
  - destruct (lookup_lt_is_Some_2 (digits_of s) i) as [d Hd]; [lia |].
    rewrite (take_S_r _ _ d Hd), rev_app_distr. simpl.
    rewrite IH by lia. unfold Variant2.digit_at.
    rewrite remove_non_digits_get, Hd. simpl. lia.
Qed.

(** validateCardNumber is the Luhn test of the digits of the string. *)
Lemma validateCardNumber_sum (s : string) :
  Variant2.validateCardNumber s
    = (luhn_sum (rev (digits_of s)) false mod 10 =? 0).
Proof.
  unfold Variant2.validateCardNumber. cbv zeta.
  rewrite luhn_loop_sum by (rewrite remove_non_digits_length; lia).
  rewrite remove_non_digits_length, firstn_all. reflexivity.
Qed.

Lemma digits_of_app (s t : string) :
  digits_of (s +:+ t) = digits_of s ++ digits_of t.
Proof.
  induction s as [| c s IH]; [reflexivity |].
  change (String c s +:+ t) with (String c (s +:+ t)). simpl.
  destruct (Ascii.is_nat c); simpl; by rewrite IH.
Qed.

Lemma luhn_sum_app (l1 l2 : list nat) (shouldDouble : bool) :
  luhn_sum (l1 ++ l2) shouldDouble
    = luhn_sum l1 shouldDouble
      + luhn_sum l2 (if Nat.even (length l1) then shouldDouble else negb shouldDouble).
Proof.
  revert shouldDouble. induction l1 as [| d l1 IH]; intros shouldDouble.
  - reflexivity.
  - cbn [luhn_sum app length]. rewrite IH, Nat.even_succ, <- Nat.negb_even.
    destruct (Nat.even (length l1)), shouldDouble; simpl; lia.
Qed.

Lemma is_nat_lt (c : Ascii.ascii) (d : nat) : Ascii.is_nat c = Some d → d < 10.
Proof.
  destruct c as [[] [] [] [] [] [] [] []]; simpl; intros [= <-]; lia.
Qed.

Lemma is_nat_inj (c c' : Ascii.ascii) (d : nat) :
  Ascii.is_nat c = Some d → Ascii.is_nat c' = Some d → c = c'.
Proof.
  destruct c as [[] [] [] [] [] [] [] []]; simpl; try discriminate;
    intros [= <-];
    destruct c' as [[] [] [] [] [] [] [] []]; simpl; try discriminate;
    reflexivity.
Qed.

Lemma doubled_lt (d : nat) : d < 10 → Variant2.doubled d < 10.
Proof.
  intros Hd. unfold Variant2.doubled. cbv zeta.
  destruct (Nat.ltb_spec 9 (d * 2)); lia.
Qed.

Lemma doubled_inj (d d' : nat) :
  d < 10 → d' < 10 → Variant2.doubled d = Variant2.doubled d' → d = d'.
Proof.
  intros Hd Hd'. unfold Variant2.doubled. cbv zeta.
  destruct (Nat.ltb_spec 9 (d * 2)), (Nat.ltb_spec 9 (d' * 2)); lia.
Qed.

Lemma mod10_shift (k x y : nat) :
  x < 10 → y < 10 → (k + x) mod 10 = (k + y) mod 10 → x = y.
Proof.
  intros Hx Hy Heq.
  pose proof (Nat.div_mod_eq (k + x) 10). pose proof (Nat.div_mod_eq (k + y) 10).
  pose proof (Nat.mod_upper_bound (k + x) 10). pose proof (Nat.mod_upper_bound (k + y) 10).
  lia.
Qed.

Lemma validateCardNumber_true (s : string) :
  Variant2.validateCardNumber s = true
    ↔ luhn_sum (rev (digits_of s)) false mod 10 = 0.
Proof. rewrite validateCardNumber_sum. apply Nat.eqb_eq. Qed.

(** The Luhn sum of a number with one digit singled out: the digits after
    it, the digit with its weight, the digits before it. *)
Lemma luhn_sum_around (before after : list nat) (d : nat) :
  ∃ (k : nat) (b : bool),
    ∀ d', luhn_sum (rev (before ++ d' :: after)) false
            = k + (if b then Variant2.doubled d' else d').
Proof.
  exists (luhn_sum (rev after) false
          + luhn_sum (rev before)
              (negb (if Nat.even (length (rev after)) then false else true))),
         (if Nat.even (length (rev after)) then false else true).
  intros d'. rewrite rev_app_distr. simpl. rewrite <- app_assoc. simpl.
  rewrite luhn_sum_app. simpl. lia.
Qed.

(** X1.  validateCardNumber looks at the decimal digits of its argument
    only: a character that is not a digit (a space, a dash, a letter) can be
    put anywhere in the number without changing the verdict. *)
Theorem validateCardNumber_ignores_non_digits (pre post : string)
    (c : Ascii.ascii) :
  Ascii.is_nat c = None →
  Variant2.validateCardNumber (pre +:+ String c post)
    = Variant2.validateCardNumber (pre +:+ post).
Proof.
  intros Hc. rewrite !validateCardNumber_sum, !digits_of_app. simpl.
  by rewrite Hc.
Qed.

Lemma validateCardNumber_ignores_non_digits_witness :
  Ascii.is_nat " "%char = None ∧
  Variant2.validateCardNumber "4111 1111 1111 1111"
    = Variant2.validateCardNumber "41111111 1111 1111".
Proof.
  split; [reflexivity |].
  apply (validateCardNumber_ignores_non_digits "4111" "1111 1111 1111" " "%char).
  reflexivity.
Defined.

(** X2.  A string without any decimal digit, the empty string included,
    passes validateCardNumber: the loop runs zero times and the sum 0 is a
    multiple of 10. *)
Theorem validateCardNumber_accepts_digitless (s : string) :
  Variant2.remove_non_digits s = "" →
  Variant2.validateCardNumber s = true.
Proof.
  intros Hclean. unfold Variant2.validateCardNumber. by rewrite Hclean.
Qed.

Lemma validateCardNumber_accepts_digitless_witness :
  Variant2.remove_non_digits "n/a" = "" ∧
  Variant2.validateCardNumber "n/a" = true.
Proof.
  split; [reflexivity |].
  apply (validateCardNumber_accepts_digitless "n/a"). reflexivity.
Defined.

(** X3.  validateCardNumber detects every single-digit error: when a number
    passes, the number with one of its digits replaced by a different digit
    fails. *)
Theorem validateCardNumber_detects_digit_error (pre post : string)
    (c c' : Ascii.ascii) :
  is_Some (Ascii.is_nat c) → is_Some (Ascii.is_nat c') → c ≠ c' →
  Variant2.validateCardNumber (pre +:+ String c post) = true →
  Variant2.validateCardNumber (pre +:+ String c' post) = false.
Proof.
  intros [d Hd] [d' Hd'] Hne Hvalid.
  apply validateCardNumber_true in Hvalid.
  apply not_true_is_false. intros Hvalid'%validateCardNumber_true.
  rewrite digits_of_app in Hvalid, Hvalid'. cbn [digits_of] in Hvalid, Hvalid'.
  rewrite Hd in Hvalid. rewrite Hd' in Hvalid'.
  destruct (luhn_sum_around (digits_of pre) (digits_of post) d) as (k & b & Hsum).
  rewrite Hsum in Hvalid, Hvalid'.
  pose proof (is_nat_lt c d Hd) as Hlt. pose proof (is_nat_lt c' d' Hd') as Hlt'.
  assert (d = d') as <-; [| by apply Hne, (is_nat_inj c c' d)].
  destruct b; cbv iota in Hvalid, Hvalid'.
  - apply doubled_inj; [done | done |].
    apply (mod10_shift k); [by apply doubled_lt | by apply doubled_lt |].
    by rewrite Hvalid, Hvalid'.
  - apply (mod10_shift k); [done | done |]. by rewrite Hvalid, Hvalid'.
Qed.

Lemma validateCardNumber_detects_digit_error_witness :
  Variant2.validateCardNumber "4111111111111111" = true ∧
  Variant2.validateCardNumber "4111111711111111" = false.
Proof.
  split; [reflexivity |].
  apply (validateCardNumber_detects_digit_error "4111111" "11111111"
           "1"%char "7"%char).
  - by eexists.
  - by eexists.
  - discriminate.
  - reflexivity.
Defined.

Lemma is_nat_digit_char (d : nat) :
  d < 10 → Ascii.is_nat (digit_char d) = Some d.
Proof.
  intros Hd. do 10 (destruct d as [| d]; [reflexivity |]). lia.
Qed.

Lemma mod10_complement (k : nat) : ∃ d, d < 10 ∧ (k + d) mod 10 = 0.
Proof.
  pose proof (Nat.div_mod_eq k 10) as Hk.
  pose proof (Nat.mod_upper_bound k 10) as Hr.
  destruct (decide (k mod 10 = 0)) as [Hz | Hnz].
  - exists 0. split; [lia |]. by rewrite Nat.add_0_r.
  - exists (10 - k mod 10). split; [lia |].
    replace (k + (10 - k mod 10)) with ((k / 10 + 1) * 10) by lia.
    apply Nat.Div0.mod_mul.
Qed.

(** X4.  Every string can be completed to a number that passes
    validateCardNumber by appending one digit, and by exactly one: the check
    digit. *)
Theorem validateCardNumber_check_digit (s : string) :
  ∃ c, is_Some (Ascii.is_nat c) ∧
       Variant2.validateCardNumber (s +:+ String c "") = true ∧
       ∀ c', is_Some (Ascii.is_nat c') →
             Variant2.validateCardNumber (s +:+ String c' "") = true → c' = c.
Proof.
  assert (∀ c d, Ascii.is_nat c = Some d →
            luhn_sum (rev (digits_of (s +:+ String c ""))) false
              = luhn_sum (rev (digits_of s)) true + d) as Hlast.
  { intros c d Hc. rewrite digits_of_app. cbn [digits_of]. rewrite Hc.
    rewrite rev_app_distr. simpl. lia. }
  destruct (mod10_complement (luhn_sum (rev (digits_of s)) true))
    as (d & Hd & Hzero).
  exists (digit_char d). split_and!.
  - rewrite is_nat_digit_char by done. by eexists.
  - apply validateCardNumber_true.
    by rewrite (Hlast _ d) by (by apply is_nat_digit_char).
  - intros c' [d' Hd'] Hvalid%validateCardNumber_true.
    rewrite (Hlast c' d' Hd') in Hvalid.
    assert (d' = d) as ->.
    { apply (mod10_shift (luhn_sum (rev (digits_of s)) true));
        [by eapply is_nat_lt | done |].
      by rewrite Hvalid, Hzero. }
    apply (is_nat_inj c' (digit_char d) d); [done |].
    by apply is_nat_digit_char.
Qed.

Lemma luhn_sum_around_pair (before after : list nat) :
  ∃ (k : nat) (b : bool),
    ∀ x y, luhn_sum (rev (before ++ x :: y :: after)) false
             = k + (if b then x + Variant2.doubled y else y + Variant2.doubled x).
Proof.
  exists (luhn_sum (rev after) false
          + luhn_sum (rev before)
              (if Nat.even (length (rev after)) then false else true)),
         (if Nat.even (length (rev after)) then false else true).
  intros x y. rewrite rev_app_distr. simpl. rewrite <- !app_assoc. simpl.
  rewrite luhn_sum_app. simpl.
  destruct (Nat.even (length (rev after))); simpl; lia.
Qed.

Lemma swap_unseen (k x y : nat) :
  x < 10 → y < 10 →
  (k + (x + Variant2.doubled y)) mod 10 = 0 →
  (k + (y + Variant2.doubled x)) mod 10 = 0
    ↔ x = y ∨ (x = 0 ∧ y = 9) ∨ (x = 9 ∧ y = 0).
Proof.
  intros Hx Hy. unfold Variant2.doubled. cbv zeta.
  destruct (Nat.ltb_spec 9 (x * 2)), (Nat.ltb_spec 9 (y * 2)).
  all: set (u := k + (x + _)); set (v := k + (y + _)).
  all: pose proof (Nat.div_mod_eq u 10); pose proof (Nat.div_mod_eq v 10).
  all: pose proof (Nat.mod_upper_bound u 10); pose proof (Nat.mod_upper_bound v 10).
  all: intros Hz; rewrite Hz in *; split; [intros Hz'; rewrite Hz' in * | intros Hxy].
  all: subst u v; lia.
Qed.

(** X5.  validateCardNumber detects the exchange of two adjacent digits,
    except for the pair 0 and 9: when a number passes, the number with two
    neighbouring digits exchanged passes too exactly when the two digits are
    equal or are 0 and 9. *)
Theorem validateCardNumber_adjacent_swap (pre post : string) (a b : ascii)
    (x y : nat) :
  Ascii.is_nat a = Some x → Ascii.is_nat b = Some y →
  Variant2.validateCardNumber (pre +:+ String a (String b post)) = true →
  Variant2.validateCardNumber (pre +:+ String b (String a post)) = true
    ↔ x = y ∨ (x = 0 ∧ y = 9) ∨ (x = 9 ∧ y = 0).
Proof.
  intros Ha Hb Hvalid%validateCardNumber_true.
  rewrite validateCardNumber_true.
  rewrite digits_of_app in Hvalid |- *. cbn [digits_of] in Hvalid |- *.
  rewrite Ha, Hb in Hvalid |- *.
  destruct (luhn_sum_around_pair (digits_of pre) (digits_of post))
    as (k & w & Hsum).
  rewrite Hsum in Hvalid |- *.
  pose proof (is_nat_lt a x Ha) as Hx. pose proof (is_nat_lt b y Hb) as Hy.
  destruct w; cbv iota in Hvalid |- *.
  - rewrite (swap_unseen k x y Hx Hy Hvalid). reflexivity.
  - rewrite (swap_unseen k y x Hy Hx Hvalid). intuition lia.
Qed.

Lemma validateCardNumber_adjacent_swap_witness :
  Variant2.validateCardNumber "4111111111111111" = true ∧
  Variant2.validateCardNumber "1411111111111111" ≠ true.
Proof.
  split; [reflexivity |].
  rewrite (validateCardNumber_adjacent_swap "" "11111111111111"
             "4"%char "1"%char 4 1 eq_refl eq_refl eq_refl).
  lia.
Defined.

(** *** The handlers of the second program of part_000 *)

Lemma truthy_with_prop (f : string) (x v : jsval) :
  truthy (with_prop f x v) = truthy v.
Proof. by destruct v. Qed.

Lemma name_not_proto (w : written) : name w ≠ "__proto__".
Proof. by destruct w. Qed.

Lemma truthy_at_write (db : store) (p : place) (w : written) (v : jsval) :
  truthy_at (write db p w v) p = truthy_at db p.
Proof.
  destruct p as [id | | k | | w' | key]; simpl; try done.
  - unfold proto_field. simpl. destruct (payments_proto db) as [proto |]; [| done].
    simpl. rewrite lookup_alter_eq. destruct (proto !! k); [| done].
    simpl. apply truthy_with_prop.
  - rewrite lookup_alter_eq. destruct (object_proto db !! w'); [| done].
    simpl. apply truthy_with_prop.
Qed.

Lemma find_place_write (db : store) (key : string) (p : place) (w : written)
    (v : jsval) :
  find_place db key = Some p → find_place (write db p w v) key = Some p.
Proof.
  unfold find_place, find_in_object_proto.
  change ((write db p w v) !! key) with (payments (write db p w v) !! key).
  change (db !! key) with (payments db !! key).
  destruct (payments db !! key) as [record |] eqn:Hrecord.
  { intros [= <-]. simpl. by rewrite lookup_alter_eq, Hrecord. }
  destruct (payments_proto db) as [proto |] eqn:Hproto;
    [destruct (proto !! key) as [x |] eqn:Hx |];
    (try destruct (String.eqb key "__proto__") eqn:Hkey);
    (try destruct (object_prototype_function key) as [f |] eqn:Hf);
    (try destruct (written_of key) as [w' |] eqn:Hw');
    (try destruct (object_proto db !! w') as [y |] eqn:Hadded);
    intros [= <-]; simpl; rewrite ?Hrecord, ?Hproto; simpl;
    rewrite ?lookup_alter_eq, ?Hx, ?Hkey, ?Hf, ?Hw', ?lookup_alter_eq, ?Hadded;
    simpl; try reflexivity.
  all: apply String.eqb_eq in Hkey as ->;
    rewrite lookup_insert_ne by apply name_not_proto; by rewrite Hx.
Qed.

(** After an assignment to a field of the payment that a lookup has found,
    the same lookup finds the same payment: the handlers of the second
    program, which write [paymentsDb[paymentId]] anew in every statement,
    work on one object throughout. *)
Lemma find_payment_write (db : store) (key : string) (p : place) (w : written)
    (v : jsval) :
  find_payment db key = Some p → find_payment (write db p w v) key = Some p.
Proof.
  unfold find_payment. intros Hfind.
  destruct (find_place db key) as [q |] eqn:Hplace; [| done].
  destruct (truthy_at db q) eqn:Htruthy; [| done]. injection Hfind as ->.
  by rewrite (find_place_write db key p), truthy_at_write, Htruthy.
Qed.

Section Variant2Moves.
Context (rt : runtime) (req : request) (db : store).

Lemma variant2_redirect_moves (uuid1 uuid2 token now : string) :
  db !! ("pay_" +:+ uuid1) = None →
  moves (λ _ _, False) db (Variant2.redirect req uuid1 uuid2 token now db).2
  ∧ (records_have_status db →
     records_have_status (Variant2.redirect req uuid1 uuid2 token now db).2).
Proof.
  intros Hfresh.
  destruct (truthy (own (body req) "orderId") && truthy (own (body req) "amount")
            && truthy (own (body req) "currency")
            && truthy (own (body req) "callbackUrls")) eqn:Hok.
  - rewrite variant2_redirect_ok by done. cbn [snd]. split.
    + apply moves_insert. intros payment Hpayment. congruence.
    + intros Hstatus. still_has_status.
  - rewrite variant2_redirect_missing by done. split; [apply moves_refl | done].
Qed.

Lemma variant2_create_moves (now1 now2 : string) :
  moves (λ _ s', s' = JStr "created") db (Variant2.create req now1 now2 db).2
  ∧ (records_have_status db →
     records_have_status (Variant2.create req now1 now2 db).2).
Proof.
  destruct (key_of req) as [id |] eqn:Hkey; last first.
  { rewrite variant2_create_no_key by done. split; [apply moves_refl | done]. }
  destruct (db !! id) as [payment |] eqn:Hknown; last first.
  { pose proof (variant2_create_keeps_records req db id Hkey Hknown now1 now2)
      as Hkeeps.
    split; [by apply moves_same_records | by apply (records_have_status_same db)]. }
  destruct (variant2_create_cases req db id payment Hkey Hknown now1 now2)
    as [[_ ->] | [_ ->]]; [split; [apply moves_refl | done] |].
  unfold variant2_created_record.
  split; [moved | intros Hstatus; still_has_status].
Qed.

Lemma variant2_capture_moves (uuid now1 now2 : string) :
  records_have_status db →
  moves (λ s s', s = JStr "created" ∧ s' = JStr "captured") db
    (Variant2.capture req uuid now1 now2 db).2
  ∧ records_have_status (Variant2.capture req uuid now1 now2 db).2.
Proof.
  intros Hstatus.
  destruct (key_of req) as [id |] eqn:Hkey; last first.
  { rewrite variant2_capture_no_key by done. split; [apply moves_refl | done]. }
  destruct (db !! id) as [payment |] eqn:Hknown; last first.
  { pose proof (variant2_capture_keeps_records req db id Hkey Hknown uuid now1 now2)
      as Hkeeps.
    split; [by apply moves_same_records | by apply (records_have_status_same db)]. }
  pose proof (get_status db id payment Hstatus Hknown) as Hown.
  destruct (strict_eq_str (get db payment "status") "created") eqn:Hst.
  - apply strict_eq_str_spec in Hst.
    rewrite (variant2_capture_created req db id payment) by done.
    rewrite Hown in Hst. split; [moved | cbn [snd]; still_has_status].
  - apply strict_eq_str_false in Hst.
    rewrite (variant2_capture_conflict req db id payment) by done.
    split; [apply moves_refl | done].
Qed.

Lemma variant2_refund_moves (uuid now1 now2 : string) :
  records_have_status db →
  moves (λ s s', s = JStr "captured" ∧ s' = JStr "refunded") db
    (Variant2.refund req uuid now1 now2 db).2
  ∧ records_have_status (Variant2.refund req uuid now1 now2 db).2.
Proof.
  intros Hstatus.
  destruct (key_of req) as [id |] eqn:Hkey; last first.
  { rewrite variant2_refund_no_key by done. split; [apply moves_refl | done]. }
  destruct (db !! id) as [payment |] eqn:Hknown; last first.
  { pose proof (variant2_refund_keeps_records req db id Hkey Hknown uuid now1 now2)
      as Hkeeps.
    split; [by apply moves_same_records | by apply (records_have_status_same db)]. }
  pose proof (get_status db id payment Hstatus Hknown) as Hown.
  destruct (strict_eq_str (get db payment "status") "captured") eqn:Hst.
  - apply strict_eq_str_spec in Hst.
    rewrite (variant2_refund_captured req db id payment) by done.
    rewrite Hown in Hst. split; [moved | cbn [snd]; still_has_status].
  - apply strict_eq_str_false in Hst.
    rewrite (variant2_refund_conflict req db id payment) by done.
    split; [apply moves_refl | done].
Qed.

Lemma variant2_cancel_moves (uuid now1 now2 : string) :
  records_have_status db →
  moves (λ s s', (s = JStr "pending" ∨ s = JStr "created") ∧ s' = JStr "canceled")
    db (Variant2.cancel req uuid now1 now2 db).2
  ∧ records_have_status (Variant2.cancel req uuid now1 now2 db).2.
Proof.
  intros Hstatus.
  destruct (key_of req) as [id |] eqn:Hkey; last first.
  { rewrite variant2_cancel_no_key by done. split; [apply moves_refl | done]. }
  destruct (db !! id) as [payment |] eqn:Hknown; last first.
  { pose proof (variant2_cancel_keeps_records req db id Hkey Hknown uuid now1 now2)
      as Hkeeps.
    split; [by apply moves_same_records | by apply (records_have_status_same db)]. }
  pose proof (get_status db id payment Hstatus Hknown) as Hown.
  destruct (strict_eq_str (get db payment "status") "pending") eqn:Hp;
    [| destruct (strict_eq_str (get db payment "status") "created") eqn:Hc].
  - apply strict_eq_str_spec in Hp.
    rewrite (variant2_cancel_open req db id payment) by auto.
    rewrite Hown in Hp. split; [moved | cbn [snd]; still_has_status].
  - apply strict_eq_str_spec in Hc.
    rewrite (variant2_cancel_open req db id payment) by auto.
    rewrite Hown in Hc. split; [moved | cbn [snd]; still_has_status].
  - apply strict_eq_str_false in Hp, Hc.
    rewrite (variant2_cancel_conflict req db id payment) by done.
    split; [apply moves_refl | done].
Qed.

Lemma variant2_callback_moves (now1 now2 : string) :
  moves (variant2_edge db Variant2.PostCallback req) db
    (Variant2.callback rt req now1 now2 db).2
  ∧ (records_have_status db →
     records_have_status (Variant2.callback rt req now1 now2 db).2).
Proof.
  destruct (key_of req) as [id |] eqn:Hkey; last first.
  { rewrite variant2_callback_no_key by done. split; [apply moves_refl | done]. }
  destruct (db !! id) as [payment |] eqn:Hknown; last first.
  { pose proof (variant2_callback_keeps_records rt req db id Hkey Hknown now1 now2)
      as Hkeeps.
    split; [by apply moves_same_records | by apply (records_have_status_same db)]. }
  destruct (includes ["success"; "failed"; "canceled"] (get db (body req) "status"))
    eqn:Hst; last first.
  { rewrite (variant2_callback_invalid rt req db id payment) by done.
    split; [apply moves_refl | done]. }
  destruct (variant2_callback_valid rt req db id payment Hkey Hknown now1 now2 Hst)
    as [-> _].
  split; [| intros Hstatus; still_has_status].
  apply moves_insert. intros ? ?. right. simpl.
  rewrite !own_insert_ne, own_insert_eq by done. split; [done |].
  apply includes_spec in Hst as (lit & Hlit & ->).
  rewrite !elem_of_cons, elem_of_nil in Hlit.
  destruct Hlit as [-> | [-> | [-> | []]]]; auto.
Qed.

End Variant2Moves.

(** X6.  The create of the second program of part_000 stores nothing of the
    card details: when it answers 200 the record is the old record with
    status, paymentMethod and updatedAt written, and with any other answer
    the store is as it was. *)
Theorem variant2_create_stores_no_card_data (req : request) (now1 now2 : string)
    (db : store) (id : string) (payment : object) :
  key_of req = Some id →
  db !! id = Some payment →
  (res_status (Variant2.create req now1 now2 db).1 = 200 →
     (Variant2.create req now1 now2 db).2
       = <[id :=
             variant2_created_record payment (get db (body req) "paymentMethod")
               now1]> db)
  ∧ (res_status (Variant2.create req now1 now2 db).1 ≠ 200 →
       (Variant2.create req now1 now2 db).2 = db).
Proof.
  intros Hkey Hknown.
  destruct (variant2_create_cases req db id payment Hkey Hknown now1 now2)
    as [[Hcode Hstore] | [Hcode Hstore]]; split; intros; done.
Qed.

Lemma variant2_create_stores_no_card_data_witness :
  key_of (method_request "pay_u1" (JStr "credit_card") (JStr "4111111111111111"))
    = Some "pay_u1" ∧
  demo_pending2 !! "pay_u1" = Some (pending_record "o1") ∧
  stored
    (Variant2.create
       (method_request "pay_u1" (JStr "credit_card") (JStr "4111111111111111"))
       "t1" "t1'" demo_pending2).2 "pay_u1" "cardDetails" = Some JUndefined.
Proof.
  split; [reflexivity |]. split; [reflexivity |].
  pose proof (variant2_create_stores_no_card_data
    (method_request "pay_u1" (JStr "credit_card") (JStr "4111111111111111"))
    "t1" "t1'" demo_pending2 "pay_u1" (pending_record "o1") eq_refl eq_refl)
    as [Hok _].
  rewrite (Hok eq_refl). reflexivity.
Defined.

(** X7.  The create of the second program of part_000 checks the card only
    when paymentMethod is the string 'credit_card': with any other value, or
    none, it answers 200 for every stored record, whatever cardDetails is,
    and sets the status to 'created'. *)
Theorem variant2_create_skips_card_check (req : request) (now1 now2 : string)
    (db : store) (id : string) (payment : object) :
  key_of req = Some id →
  db !! id = Some payment →
  get db (body req) "paymentMethod" ≠ JStr "credit_card" →
  res_status (Variant2.create req now1 now2 db).1 = 200 ∧
  stored (Variant2.create req now1 now2 db).2 id "status"
    = Some (JStr "created").
Proof.
  intros Hkey Hknown Hmethod%strict_eq_str_false.
  handler_at Hkey Hknown. rewrite Hmethod. stored_writes Hknown.
  cbn [fst snd res_status json]. split; [reflexivity |].
  rewrite stored_insert_eq. by rewrite !own_insert_ne, own_insert_eq by done.
Qed.

Lemma variant2_create_skips_card_check_witness :
  key_of (method_request "pay_u1" (JStr "bank_transfer") JUndefined)
    = Some "pay_u1" ∧
  get demo_pending2
    (body (method_request "pay_u1" (JStr "bank_transfer") JUndefined)) "paymentMethod"
    ≠ JStr "credit_card" ∧
  res_status
    (Variant2.create (method_request "pay_u1" (JStr "bank_transfer") JUndefined)
       "t1" "t1'" demo_pending2).1 = 200.
Proof.
  split; [reflexivity |]. split; [discriminate |].
  apply (variant2_create_skips_card_check
           (method_request "pay_u1" (JStr "bank_transfer") JUndefined)
           "t1" "t1'" demo_pending2 "pay_u1" (pending_record "o1")).
  - reflexivity.
  - reflexivity.
  - discriminate.
Defined.

(** X8.  With paymentMethod 'credit_card' the create of the second program
    of part_000 answers 400 and leaves the store as it was when cardDetails,
    its number, its expiry or its cvv is missing or falsy; otherwise it
    answers 200 when the number is a string that passes validateCardNumber,
    400 when it is a string that fails, and 500 when it is not a string; the
    store is unchanged in the last two cases. *)
Theorem variant2_create_credit_card (req : request) (now1 now2 : string)
    (db : store) (id : string) (payment : object) :
  key_of req = Some id →
  db !! id = Some payment →
  get db (body req) "paymentMethod" = JStr "credit_card" →
  (truthy (own (body req) "cardDetails")
   && truthy (Variant2.field db (own (body req) "cardDetails") "number")
   && truthy (Variant2.field db (own (body req) "cardDetails") "expiry")
   && truthy (Variant2.field db (own (body req) "cardDetails") "cvv") = false →
     rejected_with 400 db (Variant2.create req now1 now2 db)) ∧
  (truthy (own (body req) "cardDetails")
   && truthy (Variant2.field db (own (body req) "cardDetails") "number")
   && truthy (Variant2.field db (own (body req) "cardDetails") "expiry")
   && truthy (Variant2.field db (own (body req) "cardDetails") "cvv") = true →
     (∀ number,
        Variant2.field db (own (body req) "cardDetails") "number" = JStr number →
        if Variant2.validateCardNumber number
        then res_status (Variant2.create req now1 now2 db).1 = 200
        else rejected_with 400 db (Variant2.create req now1 now2 db)) ∧
     ((∀ number,
         Variant2.field db (own (body req) "cardDetails") "number" ≠ JStr number) →
      rejected_with 500 db (Variant2.create req now1 now2 db))).
Proof.
  intros Hkey Hknown Hmethod%strict_eq_str_spec.
  handler_at Hkey Hknown. rewrite Hmethod.
  destruct (truthy (own (body req) "cardDetails")),
    (truthy (Variant2.field db (own (body req) "cardDetails") "number")) eqn:Hnumber,
    (truthy (Variant2.field db (own (body req) "cardDetails") "expiry")),
    (truthy (Variant2.field db (own (body req) "cardDetails") "cvv"));
    simpl; split; try done.
  intros _. split.
  - intros number Hstr. rewrite Hstr. simpl.
    by destruct (Variant2.validateCardNumber number).
  - intros Hother.
    destruct (Variant2.field db (own (body req) "cardDetails") "number") as
      [| | | | number | |] eqn:Hfield; simpl; try done.
    by destruct (Hother number).
Qed.

Lemma variant2_create_credit_card_witness :
  key_of (method_request "pay_u1" (JStr "credit_card") (JNum "4111111111111111"))
    = Some "pay_u1" ∧
  get demo_pending2
    (body (method_request "pay_u1" (JStr "credit_card") (JNum "4111111111111111")))
    "paymentMethod" = JStr "credit_card" ∧
  rejected_with 500 demo_pending2
    (Variant2.create
       (method_request "pay_u1" (JStr "credit_card") (JNum "4111111111111111"))
       "t1" "t1'" demo_pending2).
Proof.
  split; [reflexivity |]. split; [reflexivity |].
  pose proof (variant2_create_credit_card
    (method_request "pay_u1" (JStr "credit_card") (JNum "4111111111111111"))
    "t1" "t1'" demo_pending2 "pay_u1" (pending_record "o1") eq_refl eq_refl eq_refl)
    as [_ Hpresent].
  destruct (Hpresent eq_refl) as [_ Hother]. apply Hother.
  intros number. discriminate.
Defined.

(** X9.  On the second program of part_000 every operation on a stored
    record is refused for a paymentId that [paymentsDb[paymentId]] does not
    find, one that is neither a key of the store nor the name of a property
    that paymentsDb inherits ('__proto__', 'constructor', 'toString', ...):
    create, capture, refund, cancel and callback answer 404 and leave the
    store as it was. *)
Theorem variant2_unknown_payment_not_found (rt : runtime) (req : request)
    (uuid now1 now2 : string) (db : store) (id : string) :
  key_of req = Some id →
  db !! id = None →
  inherits db id = false →
  rejected_with 404 db (Variant2.create req now1 now2 db) ∧
  rejected_with 404 db (Variant2.capture req uuid now1 now2 db) ∧
  rejected_with 404 db (Variant2.refund req uuid now1 now2 db) ∧
  rejected_with 404 db (Variant2.cancel req uuid now1 now2 db) ∧
  rejected_with 404 db (Variant2.callback rt req now1 now2 db).
Proof.
  intros Hkey Hid Hno.
  pose proof (find_payment_unknown db id Hid Hno) as Hunknown. split_and!.
  - by rewrite (variant2_create_unknown req db id).
  - by rewrite (variant2_capture_unknown req db id).
  - by rewrite (variant2_refund_unknown req db id).
  - by rewrite (variant2_cancel_unknown req db id).
  - by rewrite (variant2_callback_unknown rt req db id).
Qed.

Lemma variant2_unknown_payment_not_found_witness :
  key_of (amount_request "pay_zz") = Some "pay_zz" ∧
  demo_pending2 !! "pay_zz" = None ∧
  inherits demo_pending2 "pay_zz" = false ∧
  rejected_with 404 demo_pending2
    (Variant2.capture (amount_request "pay_zz") "u3" "t2" "t2'" demo_pending2).
Proof.
  split; [reflexivity |]. split; [reflexivity |]. split; [reflexivity |].
  pose proof (variant2_unknown_payment_not_found demo_runtime
    (amount_request "pay_zz") "u3" "t2" "t2'" demo_pending2 "pay_zz"
    eq_refl eq_refl eq_refl) as (_ & Hcapture & _).
  exact Hcapture.
Defined.

(** X10.  Every request to the second program of part_000 keeps every stored
    record and changes its status only along these edges: create, from any
    status to 'created'; capture, from 'created' to 'captured'; refund, from
    'captured' to 'refunded'; cancel, from 'pending' or 'created' to
    'canceled'; callback, from any status to 'success', 'failed' or
    'canceled' as the request names it; redirect under a paymentId that is
    not yet a key changes no stored record.  The stored records are taken to
    have a status of their own, as every record that redirect stores has;
    every request keeps it so. *)
Theorem variant2_status_moves (rt : runtime) (r : Variant2.route)
    (req : request) (e : Variant2.draws) (db : store) :
  (r = Variant2.PostRedirect → db !! ("pay_" +:+ Variant2.uuid1 e) = None) →
  records_have_status db →
  moves (variant2_edge db r req) db (Variant2.handle rt r req e db).2 ∧
  records_have_status (Variant2.handle rt r req e db).2.
Proof.
  intros Hfresh Hstatus. destruct r; simpl.
  - destruct (variant2_redirect_moves req db (Variant2.uuid1 e) (Variant2.uuid2 e)
                (Variant2.token e) (Variant2.now1 e) (Hfresh eq_refl)); auto.
  - destruct (variant2_create_moves req db (Variant2.now1 e) (Variant2.now2 e));
      auto.
  - by apply variant2_capture_moves.
  - by apply variant2_refund_moves.
  - by apply variant2_cancel_moves.
  - destruct (variant2_callback_moves rt req db (Variant2.now1 e) (Variant2.now2 e));
      auto.
Qed.

Lemma variant2_status_moves_witness :
  moves (variant2_edge demo_pending2 Variant2.PostCallback
           (callback_request "pay_u1" "failed" ""))
    demo_pending2
    (Variant2.handle demo_runtime Variant2.PostCallback
       (callback_request "pay_u1" "failed" "") (demo_draws "9") demo_pending2).2.
Proof.
  apply (variant2_status_moves demo_runtime Variant2.PostCallback
           (callback_request "pay_u1" "failed" "") (demo_draws "9") demo_pending2).
  - discriminate.
  - unfold demo_pending2.
    apply (variant2_redirect_moves (redirect_request "o1") ∅ "u1" "u2" "tok" "t0");
      [reflexivity | apply records_have_status_empty].
Defined.

(** X11.  The callback of the second program of part_000 selects the URL by
    outcome: for status 'success', 'failed' or 'canceled' and a record whose
    callbackUrls is an object, it reads the URL stored under 'success',
    'failure' or 'cancel' respectively; when that value can be made a string
    it answers 200 with a redirectUrl made of that string followed by
    '&sig=' and the signature of paymentId and status, and when it cannot
    (an object with a toString property of its own) it answers 500. *)
Theorem variant2_callback_selects_url (rt : runtime) (req : request)
    (now1 now2 : string) (db : store) (id : string) (payment urls : object)
    (status key : string) :
  key_of req = Some id →
  db !! id = Some payment →
  own payment "callbackUrls" = JObj urls →
  get db (body req) "status" = JStr status →
  (status, key) ∈ [("success", "success"); ("failed", "failure");
                   ("canceled", "cancel")] →
  (∀ url, to_string (own urls key) = Some url →
     (Variant2.callback rt req now1 now2 db).1 =
       json 200 [("redirectUrl",
                  JStr (url +:+ "&sig=" +:+
                        Variant2.generateSignature rt
                          (JObj (list_to_map
                                   [("paymentId", own (body req) "paymentId");
                                    ("status", JStr status)]))));
                 ("status", JStr "callback_processed");
                 ("timestamp", JStr now2)]) ∧
  (to_string (own urls key) = None →
     (Variant2.callback rt req now1 now2 db).1 = Variant2.caught).
Proof.
  intros Hkey Hknown Hurls Hstatus Hpair.
  handler_at Hkey Hknown. rewrite Hstatus.
  rewrite !elem_of_cons, elem_of_nil in Hpair.
  stored_writes Hknown. own_names. rewrite !own_insert_ne, Hurls by done.
  destruct Hpair as [[= -> ->] | [[= -> ->] | [[= -> ->] | []]]]; simpl;
    own_names; (split; [intros url -> | intros ->]); reflexivity.
Qed.

Lemma variant2_callback_selects_url_witness :
  key_of (callback_request "pay_u1" "failed" "") = Some "pay_u1" ∧
  demo_pending2 !! "pay_u1" = Some (pending_record "o1") ∧
  (Variant2.callback demo_runtime (callback_request "pay_u1" "failed" "")
     "t9" "t9'" demo_pending2).1 =
    json 200 [("redirectUrl",
               JStr ("https://x/f?o=1" +:+ "&sig=" +:+
                     Variant2.generateSignature demo_runtime
                       (JObj (list_to_map
                                [("paymentId", JStr "pay_u1");
                                 ("status", JStr "failed")]))));
              ("status", JStr "callback_processed");
              ("timestamp", JStr "t9'")].
Proof.
  split; [reflexivity |]. split; [reflexivity |].
  pose proof (variant2_callback_selects_url demo_runtime
    (callback_request "pay_u1" "failed" "") "t9" "t9'" demo_pending2 "pay_u1"
    (pending_record "o1")
    (list_to_map
       [("success", JStr "https://x/s?o=1");
        ("failure", JStr "https://x/f?o=1");
        ("cancel", JStr "https://x/c?o=1")])
    "failed" "failure" eq_refl eq_refl eq_refl eq_refl) as Hselect.
  destruct Hselect as [Hurl _].
  - apply list_elem_of_further, list_elem_of_here.
  - apply (Hurl "https://x/f?o=1"). reflexivity.
Defined.

(** X12.  The redirect of the second program of part_000 tests its four
    fields for truthiness: it answers 400 and leaves the store as it was
    when orderId, amount, currency or callbackUrls is missing or falsy (an
    amount of 0, an empty orderId, no currency), and otherwise answers 200
    and stores a 'pending' record that carries the four values. *)
Theorem variant2_redirect_requires_fields (req : request)
    (uuid1 uuid2 token now : string) (db : store) :
  (truthy (own (body req) "orderId") && truthy (own (body req) "amount")
   && truthy (own (body req) "currency") && truthy (own (body req) "callbackUrls")
     = false →
   rejected_with 400 db (Variant2.redirect req uuid1 uuid2 token now db)) ∧
  (truthy (own (body req) "orderId") && truthy (own (body req) "amount")
   && truthy (own (body req) "currency") && truthy (own (body req) "callbackUrls")
     = true →
   res_status (Variant2.redirect req uuid1 uuid2 token now db).1 = 200 ∧
   stored (Variant2.redirect req uuid1 uuid2 token now db).2
     ("pay_" +:+ uuid1) "status" = Some (JStr "pending") ∧
   ∀ f, f ∈ ["orderId"; "amount"; "currency"; "callbackUrls"] →
     stored (Variant2.redirect req uuid1 uuid2 token now db).2
       ("pay_" +:+ uuid1) f = Some (own (body req) f)).
Proof.
  split.
  - intros Hmissing. by rewrite variant2_redirect_missing.
  - intros Hok. rewrite variant2_redirect_ok by done. split; [reflexivity |].
    cbn [snd]. split; [by rewrite stored_insert_eq |].
    intros f Hf. rewrite stored_insert_eq.
    rewrite !elem_of_cons, elem_of_nil in Hf.
    destruct Hf as [-> | [-> | [-> | [-> | []]]]]; reflexivity.
Qed.

Lemma variant2_redirect_requires_fields_witness :
  rejected_with 400 demo_pending2
    (Variant2.redirect
       (api_request [("orderId", JStr "o2"); ("amount", JNum "0");
                     ("currency", JStr "EUR"); ("callbackUrls", demo_urls)])
       "u7" "u8" "tok" "t5" demo_pending2).
Proof.
  apply (variant2_redirect_requires_fields
           (api_request [("orderId", JStr "o2"); ("amount", JNum "0");
                         ("currency", JStr "EUR"); ("callbackUrls", demo_urls)])
           "u7" "u8" "tok" "t5" demo_pending2).
  reflexivity.
Defined.

(** *** Authentication, validation and error answers *)

(** X13.  On server.js every route but the callback is closed to a request
    whose x-api-key header is missing or is not the configured key: the
    answer is 401 and the store is as it was, whatever the body is. *)
Theorem server_api_key_gate (rt : runtime) (c : call) (db : store) :
  authenticated_route c = true →
  headers (request_of c) !! "x-api-key" ≠ Some (API_KEY rt) →
  rejected_with 401 db (Server.step rt c db).
Proof.
  intros Hroute Hkey.
  destruct c; simpl in *; try discriminate;
    unfold Server.authenticated, Server.authenticate;
    by rewrite bool_decide_eq_false_2.
Qed.

Lemma server_api_key_gate_witness :
  rejected_with 401 demo_created
    (Server.step demo_runtime
       (Capture (Request {["authorization" := "Bearer tok"]}
                   (body (amount_request "pay_u1")) []) "u3" "t2")
       demo_created).
Proof.
  apply (server_api_key_gate demo_runtime
           (Capture (Request {["authorization" := "Bearer tok"]}
                       (body (amount_request "pay_u1")) []) "u3" "t2")
           demo_created).
  - reflexivity.
  - discriminate.
Defined.

(** X14.  On the first program of part_000 the x-wix-signature header never
    opens a route: a request without the configured API key is answered 401,
    or 500 when it carries a non-empty x-wix-signature (the call of the
    undeclared verifyWixSignature throws), and the store is as it was. *)
Theorem variant1_api_key_gate (rt : runtime) (c : call) (db : store) :
  authenticated_route c = true →
  headers (request_of c) !! "x-api-key" ≠ Some (API_KEY rt) →
  rejected_with
    (match headers (request_of c) !! "x-wix-signature" with
     | Some wixSignature => if bool_decide (wixSignature = "") then 401 else 500
     | None => 401
     end) db (Variant1.step rt c db).
Proof.
  intros Hroute Hkey.
  destruct c; simpl in *; try discriminate;
    unfold Variant1.authenticated, Variant1.authenticate;
    rewrite bool_decide_eq_false_2 by done;
    destruct (headers _ !! "x-wix-signature") as [w |];
    try destruct (bool_decide (w = "")); by split.
Qed.

Lemma variant1_api_key_gate_witness :
  rejected_with 500 demo_created
    (Variant1.step demo_runtime
       (Capture (Request {["x-wix-signature" := "c2ln"]}
                   (body (amount_request "pay_u1")) []) "u3" "t2")
       demo_created).
Proof.
  assert (headers (Request {["x-wix-signature" := "c2ln"]}
                     (body (amount_request "pay_u1")) []) !! "x-api-key"
          ≠ Some (API_KEY demo_runtime)) as Hkey by discriminate.
  exact (variant1_api_key_gate demo_runtime
           (Capture (Request {["x-wix-signature" := "c2ln"]}
                       (body (amount_request "pay_u1")) []) "u3" "t2")
           demo_created eq_refl Hkey).
Defined.

(** X15.  The validators in front of the routes only matter where the
    handler asks for their result: on server.js that is redirect and create,
    on the first program of part_000 redirect alone.  Every other route
    answers and updates the store in the same way whatever validation errors
    the request carries. *)
Theorem validation_result_unused (rt : runtime) (c : call)
    (errors : list jsval) (db : store) :
  (server_validates c = false →
   Server.step rt (with_request c (with_errors (request_of c) errors)) db
     = Server.step rt c db) ∧
  (variant1_validates c = false →
   Variant1.step rt (with_request c (with_errors (request_of c) errors)) db
     = Variant1.step rt c db).
Proof.
  split; intros Hroute; destruct c as [[] | [] | [] | [] | [] | []];
    simpl in *; try discriminate; reflexivity.
Qed.

Lemma validation_result_unused_witness :
  res_status
    (Server.step demo_runtime
       (Capture (with_errors (amount_request "pay_u1")
                   [JStr "amount: Invalid value"]) "u3" "t2")
       demo_created).1 = 200.
Proof.
  pose proof (validation_result_unused demo_runtime
    (Capture (amount_request "pay_u1") "u3" "t2")
    [JStr "amount: Invalid value"] demo_created) as [Hserver _].
  specialize (Hserver eq_refl). cbn [with_request request_of] in Hserver.
  rewrite Hserver. reflexivity.
Defined.

(** Splits a handler into its paths and closes each by [tac]. *)
Ltac by_paths tac :=
  repeat (cbv zeta;
          match goal with
          | |- context [match ?x with _ => _ end] =>
              let H := fresh "Hpath" in destruct x eqn:H
          end);
  tac.

Ltac quiet := unfold quiet_unless_done; simpl; auto.

Lemma server_handlers_quiet (rt : runtime) (c : call) (db : store) :
  quiet_unless_done db (Server.step rt c db).
Proof.
  destruct c; cbn [Server.step];
    unfold Server.authenticated, Server.redirect, Server.create, Server.capture,
      Server.refund, Server.cancel, Server.callback;
    by_paths quiet.
Qed.

Lemma variant1_handlers_quiet (rt : runtime) (c : call) (db : store) :
  quiet_unless_done db (Variant1.step rt c db).
Proof.
  destruct c; cbn [Variant1.step];
    unfold Variant1.authenticated, Variant1.redirect, Server.redirect,
      Variant1.create, Variant1.capture, Variant1.refund, Variant1.cancel,
      Server.cancel, Variant1.callback;
    by_paths quiet.
Qed.

Lemma variant2_handlers_quiet (rt : runtime) (r : Variant2.route)
    (req : request) (e : Variant2.draws) (db : store) :
  quiet_unless_done db (Variant2.handle rt r req e db).
Proof.
  destruct r; cbn [Variant2.handle];
    unfold Variant2.redirect, Variant2.create, Variant2.capture,
      Variant2.refund, Variant2.cancel, Variant2.callback;
    by_paths quiet.
Qed.

(** X16.  In the three programs a request changes the store only when it is
    answered 200 or 500: with every other answer (400, 401, 403, 404) the
    store is exactly as it was. *)
Theorem rejected_requests_change_nothing (rt : runtime) (c : call)
    (r : Variant2.route) (req : request) (e : Variant2.draws) (db : store) :
  (res_status (Server.step rt c db).1 ≠ 200 →
   res_status (Server.step rt c db).1 ≠ 500 →
   (Server.step rt c db).2 = db) ∧
  (res_status (Variant1.step rt c db).1 ≠ 200 →
   res_status (Variant1.step rt c db).1 ≠ 500 →
   (Variant1.step rt c db).2 = db) ∧
  (res_status (Variant2.handle rt r req e db).1 ≠ 200 →
   res_status (Variant2.handle rt r req e db).1 ≠ 500 →
   (Variant2.handle rt r req e db).2 = db).
Proof.
  split_and!; intros H200 H500.
  - destruct (server_handlers_quiet rt c db) as [? | [? | ?]]; done.
  - destruct (variant1_handlers_quiet rt c db) as [? | [? | ?]]; done.
  - destruct (variant2_handlers_quiet rt r req e db) as [? | [? | ?]]; done.
Qed.

Lemma rejected_requests_change_nothing_witness :
  (Server.step demo_runtime
     (Callback (callback_request "pay_u1" "success" "forged") "t9") demo_captured).2
    = demo_captured.
Proof.
  pose proof (rejected_requests_change_nothing demo_runtime
    (Callback (callback_request "pay_u1" "success" "forged") "t9")
    Variant2.PostCallback (callback_request "pay_u1" "success" "forged")
    (demo_draws "9") demo_captured) as (Hserver & _).
  apply Hserver; vm_compute; discriminate.
Defined.

(** *** Life of a record on server.js *)

(** X17.  A 500 from create on server.js is not a no-op: for a stored
    record and a request that passed validation, when
    cardDetails.number.slice(-4) throws (cardDetails missing, number missing
    or a JSON number) the handler has already set the status to 'created';
    cardLast4 and updatedAt are not written. *)
Theorem server_create_failure_keeps_status_write (req : request) (now : string)
    (db : store) (id : string) (payment : object) :
  validationErrors req = [] →
  key_of req = Some id →
  db !! id = Some payment →
  member db (own (body req) "cardDetails") "number" ≫= call_slice_last4 = None →
  res_status (Server.create req now db).1 = 500 ∧
  stored (Server.create req now db).2 id "status" = Some (JStr "created") ∧
  stored (Server.create req now db).2 id "cardLast4"
    = Some (own payment "cardLast4") ∧
  stored (Server.create req now db).2 id "updatedAt"
    = Some (own payment "updatedAt").
Proof.
  intros Hvalid Hkey Hknown Hthrow.
  rewrite (server_create_throws req db id payment) by done.
  cbn [fst snd res_status internal_error json].
  rewrite !stored_insert_eq. split_and!; try done.
  - by rewrite own_insert_eq.
  - by rewrite own_insert_ne.
  - by rewrite own_insert_ne.
Qed.

Lemma server_create_failure_keeps_status_write_witness :
  res_status
    (Server.create (method_request "pay_u1" JUndefined (JNum "4111111111111111"))
       "t1" demo_pending).1 = 500 ∧
  stored
    (Server.create (method_request "pay_u1" JUndefined (JNum "4111111111111111"))
       "t1" demo_pending).2 "pay_u1" "status" = Some (JStr "created").
Proof.
  pose proof (server_create_failure_keeps_status_write
    (method_request "pay_u1" JUndefined (JNum "4111111111111111")) "t1"
    demo_pending "pay_u1" (pending_record "o1") eq_refl eq_refl eq_refl eq_refl)
    as (Hcode & Hstatus & _).
  split; [exact Hcode | exact Hstatus].
Defined.

Lemma framed_refl (fields : list string) (db : store) : framed fields db db.
Proof. intros id record Hid. exists record. auto. Qed.

Lemma framed_fresh (fields : list string) (db : store) (k : string)
    (record : object) :
  db !! k = None → framed fields db (<[k := record]> db).
Proof.
  intros Hk id record0 Hid. exists record0.
  rewrite store_lookup_insert_ne by congruence. auto.
Qed.

Lemma server_step_framed (rt : runtime) (c : call) (db : store) :
  fresh_id c db → framed mutable_fields db (Server.step rt c db).2.
Proof.
  intros Hfresh.
  destruct c as [req u1 u2 tok now | req now1 now2 | req u now
    | req u now | req u now | req now]; simpl in *;
    unfold Server.authenticated;
    try (destruct (Server.authenticate rt req); [| apply framed_refl]).
  - destruct (decide (validationErrors req = [])) as [Hvalid | Hinvalid].
    + rewrite server_redirect_valid by done. by apply framed_fresh.
    + rewrite server_redirect_invalid by done. apply framed_refl.
  - apply assigned_framed, server_create_assigned.
  - apply assigned_framed, server_capture_assigned.
  - apply assigned_framed, server_refund_assigned.
  - apply assigned_framed, server_cancel_assigned.
  - apply assigned_framed, server_callback_assigned.
Qed.

(** X18.  What redirect has stored of the order stays as it is: on server.js
    no call changes a field of a stored record other than status, cardLast4,
    capturedAmount, refundedAmount and updatedAt, so paymentId, orderId,
    amount, currency, callbackUrls and createdAt keep their values
    (redirect itself under a paymentId that is not yet a key). *)
Theorem server_order_fields_immutable (rt : runtime) (c : call) (db : store)
    (id f : string) (record : object) :
  fresh_id c db →
  db !! id = Some record →
  f ∉ mutable_fields →
  stored (Server.step rt c db).2 id f = Some (own record f).
Proof.
  intros Hfresh Hid Hf.
  destruct (server_step_framed rt c db Hfresh id record Hid)
    as (record' & Hid' & Hframe).
  unfold stored, own. rewrite Hid'. simpl. by rewrite (Hframe f Hf).
Qed.

Lemma server_order_fields_immutable_witness :
  stored
    (Server.step demo_runtime
       (Callback (signed_callback_request "pay_u1" "failed") "t9") demo_captured).2
    "pay_u1" "callbackUrls" = Some demo_urls.
Proof.
  assert ("callbackUrls" ∉ mutable_fields) as Hf.
  { unfold mutable_fields. rewrite !elem_of_cons, elem_of_nil.
    intros [? | [? | [? | [? | [? | []]]]]]; discriminate. }
  rewrite (server_order_fields_immutable demo_runtime
             (Callback (signed_callback_request "pay_u1" "failed") "t9")
             demo_captured "pay_u1" "callbackUrls"
             (<["updatedAt" := JStr "t2"]>
                (<["capturedAmount" := JNum "10"]>
                   (<["status" := JStr "captured"]> created_record)))
             I eq_refl Hf).
  reflexivity.
Defined.

Lemma server_step_keeps_paymentId (rt : runtime) (c : call) (db : store) :
  (∀ id record, db !! id = Some record → own record "paymentId" = JStr id) →
  ∀ id record, (Server.step rt c db).2 !! id = Some record →
               own record "paymentId" = JStr id.
Proof.
  intros Hinv id record' Hid'.
  assert ("paymentId" ∉ mutable_fields) as Hf.
  { unfold mutable_fields. rewrite !elem_of_cons, elem_of_nil.
    intros [? | [? | [? | [? | [? | []]]]]]; discriminate. }
  assert (∀ db', framed mutable_fields db db' →
            dom (payments db') ⊆ dom (payments db) →
            db' !! id = Some record' → own record' "paymentId" = JStr id)
    as Hframed.
  { intros db' Hframe Hdom Hlookup.
    assert (is_Some (db !! id)) as [record Hid].
    { apply (elem_of_dom (payments db)), Hdom, elem_of_dom. eauto. }
    destruct (Hframe id record Hid) as (record2 & Hid2 & Hfields).
    assert (record2 = record') as -> by congruence.
    unfold own. rewrite (Hfields "paymentId" Hf). by apply Hinv. }
  destruct c as [req u1 u2 tok now | req now1 now2 | req u now
    | req u now | req u now | req now].
  - simpl in Hid'. unfold Server.authenticated in Hid'.
    destruct (Server.authenticate rt req); [| by apply Hinv].
    destruct (decide (validationErrors req = [])) as [Hvalid | Hinvalid].
    + rewrite server_redirect_valid in Hid' by done. cbn [snd] in Hid'.
      destruct (decide (id = "pay_" +:+ u1)) as [-> | Hne].
      * rewrite store_lookup_insert_eq in Hid'. by injection Hid' as <-.
      * rewrite store_lookup_insert_ne in Hid' by done. by apply Hinv.
    + rewrite server_redirect_invalid in Hid' by done. by apply Hinv.
  - apply (Hframed (Server.step rt (Create req now1 now2) db).2);
      [by apply server_step_framed | | done].
    pose proof (server_step_dom rt (Create req now1 now2) db). set_solver.
  - apply (Hframed (Server.step rt (Capture req u now) db).2);
      [by apply server_step_framed | | done].
    pose proof (server_step_dom rt (Capture req u now) db). set_solver.
  - apply (Hframed (Server.step rt (Refund req u now) db).2);
      [by apply server_step_framed | | done].
    pose proof (server_step_dom rt (Refund req u now) db). set_solver.
  - apply (Hframed (Server.step rt (Cancel req u now) db).2);
      [by apply server_step_framed | | done].
    pose proof (server_step_dom rt (Cancel req u now) db). set_solver.
  - apply (Hframed (Server.step rt (Callback req now) db).2);
      [by apply server_step_framed | | done].
    pose proof (server_step_dom rt (Callback req now) db). set_solver.
Qed.

Lemma server_run_keeps_paymentId (rt : runtime) (cs : list call) (db : store) :
  (∀ id record, db !! id = Some record → own record "paymentId" = JStr id) →
  ∀ id record, Server.run rt cs db !! id = Some record →
               own record "paymentId" = JStr id.
Proof.
  revert db. induction cs as [| c cs IH]; intros db Hinv; simpl; [exact Hinv |].
  apply IH. by apply server_step_keeps_paymentId.
Qed.

(** X19.  On server.js the key of a record and its paymentId field never
    part: after any sequence of calls from the empty store, every stored
    record carries its own key as paymentId, and the key is 'pay_' followed
    by the uuid that one of the redirect calls has drawn. *)
Theorem server_records_keep_their_id (rt : runtime) (cs : list call)
    (id : string) (record : object) :
  Server.run rt cs ∅ !! id = Some record →
  own record "paymentId" = JStr id ∧
  ∃ req uuid1 uuid2 token now,
    Redirect req uuid1 uuid2 token now ∈ cs ∧ id = "pay_" +:+ uuid1.
Proof.
  intros Hid. split.
  - apply (server_run_keeps_paymentId rt cs ∅); [| done].
    intros id' record'. by rewrite store_lookup_empty.
  - assert (id ∈ dom (payments (Server.run rt cs ∅))) as Hdom
      by (apply elem_of_dom; eauto).
    apply server_run_dom in Hdom.
    apply elem_of_union in Hdom as [Hdom | Hdom].
    { change (payments ∅) with (∅ : gmap string object) in Hdom.
      rewrite dom_empty_L in Hdom. by apply elem_of_empty in Hdom. }
    apply elem_of_union_list in Hdom as (ids & Hids & Hin).
    apply list_elem_of_fmap in Hids as (c & -> & Hc).
    destruct c as [req u1 u2 tok now | | | | |]; simpl in Hin.
    2-6: by apply elem_of_empty in Hin.
    exists req, u1, u2, tok, now. split; [done | by apply elem_of_singleton in Hin].
Qed.

Lemma server_records_keep_their_id_witness :
  own created_record "paymentId" = JStr "pay_u1".
Proof.
  apply (server_records_keep_their_id demo_runtime
           [Redirect (redirect_request "o1") "u1" "u2" "tok" "t0";
            Create (card_request "pay_u1") "t1" "t1"]
           "pay_u1" created_record).
  reflexivity.
Defined.

Section Success.
Context (req : request) (db : store) (id : string) (payment : object).
Hypothesis Hkey : key_of req = Some id.
Hypothesis Hknown : db !! id = Some payment.

Lemma server_create_success (now : string) :
  res_status (Server.create req now db).1 = 200 →
  validationErrors req = [] ∧
  ∃ last4,
    member db (own (body req) "cardDetails") "number" ≫= call_slice_last4
      = Some last4.
Proof.
  intros Hok.
  destruct (decide (validationErrors req = [])) as [Hvalid | Hinvalid]; last first.
  { rewrite server_create_invalid in Hok by done. discriminate. }
  split; [done |].
  destruct (member db (own (body req) "cardDetails") "number" ≫= call_slice_last4)
    as [last4 |] eqn:Hslice; [eauto |].
  rewrite (server_create_throws req db id payment) in Hok by done. discriminate.
Qed.

Lemma server_capture_success (uuid now : string) :
  res_status (Server.capture req uuid now db).1 = 200 →
  get db payment "status" = JStr "created".
Proof.
  intros Hok.
  destruct (strict_eq_str (get db payment "status") "created") eqn:Hst;
    [by apply strict_eq_str_spec |].
  apply strict_eq_str_false in Hst.
  rewrite (server_capture_conflict req db id payment) in Hok by done. discriminate.
Qed.

Lemma server_refund_success (uuid now : string) :
  res_status (Server.refund req uuid now db).1 = 200 →
  get db payment "status" = JStr "captured".
Proof.
  intros Hok.
  destruct (strict_eq_str (get db payment "status") "captured") eqn:Hst;
    [by apply strict_eq_str_spec |].
  apply strict_eq_str_false in Hst.
  rewrite (server_refund_conflict req db id payment) in Hok by done. discriminate.
Qed.

Lemma server_cancel_success (uuid now : string) :
  res_status (Server.cancel req uuid now db).1 = 200 →
  get db payment "status" = JStr "pending"
  ∨ get db payment "status" = JStr "created".
Proof.
  intros Hok.
  destruct (strict_eq_str (get db payment "status") "pending") eqn:Hp;
    [left; by apply strict_eq_str_spec |].
  destruct (strict_eq_str (get db payment "status") "created") eqn:Hc;
    [right; by apply strict_eq_str_spec |].
  apply strict_eq_str_false in Hp, Hc.
  rewrite (server_cancel_conflict req db id payment) in Hok by done. discriminate.
Qed.

(** A record whose own status is a string other than 'pending', 'created'
    and 'captured' is closed to capture, refund and cancel. *)
Lemma server_closed_record (uuid now : string) (status : string) :
  payment !! "status" = Some (JStr status) →
  status ∉ ["pending"; "created"; "captured"] →
  rejected_with 400 db (Server.capture req uuid now db) ∧
  rejected_with 400 db (Server.refund req uuid now db) ∧
  rejected_with 400 db (Server.cancel req uuid now db).
Proof.
  intros Hst Hclosed. rewrite !elem_of_cons, elem_of_nil in Hclosed.
  assert (get db payment "status" = JStr status) as Hget
    by (unfold get; by rewrite Hst).
  split_and!.
  - rewrite (server_capture_conflict req db id payment); [done | done | done |].
    rewrite Hget. intros [= ->]. tauto.
  - rewrite (server_refund_conflict req db id payment); [done | done | done |].
    rewrite Hget. intros [= ->]. tauto.
  - rewrite (server_cancel_conflict req db id payment); [done | done | done | |];
      rewrite Hget; intros [= ->]; tauto.
Qed.

(** A create that answers 200 and a capture after it: the record is open
    to capture again, whatever its status was. *)
Lemma server_create_reopens (req' : request) (now uuid' now' : string) :
  key_of req' = Some id →
  res_status (Server.create req now db).1 = 200 →
  stored (Server.create req now db).2 id "status" = Some (JStr "created") ∧
  res_status (Server.capture req' uuid' now' (Server.create req now db).2).1 = 200.
Proof.
  intros Hkey' Hok.
  destruct (server_create_success now Hok) as (Hvalid & last4 & Hslice).
  rewrite (server_create_ok req db id payment Hkey Hknown now last4 Hvalid Hslice).
  cbn [snd]. rewrite stored_insert_eq. split.
  - by rewrite !own_insert_ne, own_insert_eq by done.
  - erewrite (server_capture_created req' _ id);
      [done | done | apply store_lookup_insert_eq |].
    by rewrite !get_insert_ne, get_insert_eq by done.
Qed.

End Success.

(** X20.  On server.js, directly after a capture of a stored payment that
    answered 200, a second capture of the same paymentId and a cancel are
    answered 400 and change nothing, while a refund is answered 200.  The
    payment is not closed to capture for good: create has no status guard,
    so a create for the same paymentId that answers 200 sets the status back
    to 'created', and the capture after it answers 200 again. *)
Theorem server_after_capture (req req' req_c : request)
    (uuid now uuid' now' now_c : string) (db : store) (id : string)
    (payment : object) :
  key_of req = Some id →
  key_of req' = Some id →
  key_of req_c = Some id →
  db !! id = Some payment →
  res_status (Server.capture req uuid now db).1 = 200 →
  rejected_with 400 (Server.capture req uuid now db).2
    (Server.capture req' uuid' now' (Server.capture req uuid now db).2) ∧
  rejected_with 400 (Server.capture req uuid now db).2
    (Server.cancel req' uuid' now' (Server.capture req uuid now db).2) ∧
  res_status (Server.refund req' uuid' now' (Server.capture req uuid now db).2).1
    = 200 ∧
  (res_status (Server.create req_c now_c (Server.capture req uuid now db).2).1
     = 200 →
   res_status
     (Server.capture req' uuid' now'
        (Server.create req_c now_c (Server.capture req uuid now db).2).2).1
     = 200).
Proof.
  intros Hkey Hkey' Hkey_c Hknown Hok.
  pose proof (server_capture_success req db id payment Hkey Hknown uuid now Hok)
    as Hst.
  rewrite (server_capture_created req db id payment Hkey Hknown uuid now Hst).
  cbn [snd].
  set (payment' := <["updatedAt" := JStr now]> _).
  assert (<[id := payment']> db !! id = Some payment') as Hknown'
    by apply store_lookup_insert_eq.
  assert (get (<[id := payment']> db) payment' "status" = JStr "captured") as Hst'.
  { unfold payment'. by rewrite !get_insert_ne, get_insert_eq by done. }
  split_and!.
  - rewrite (server_capture_conflict req' _ id payment' Hkey' Hknown'); [done |].
    by rewrite Hst'.
  - rewrite (server_cancel_conflict req' _ id payment' Hkey' Hknown'); [done | |];
      by rewrite Hst'.
  - by rewrite (server_refund_captured req' _ id payment' Hkey' Hknown').
  - intros Hcreate.
    by apply (server_create_reopens req_c _ id payment' Hkey_c Hknown' req').
Qed.

Lemma server_after_capture_witness :
  key_of (amount_request "pay_u1") = Some "pay_u1" ∧
  demo_created !! "pay_u1" = Some created_record ∧
  rejected_with 400 demo_captured
    (Server.capture (amount_request "pay_u1") "u5" "t4" demo_captured) ∧
  res_status
    (Server.capture (amount_request "pay_u1") "u5" "t4"
       (Server.create (card_request "pay_u1") "t3" demo_captured).2).1 = 200.
Proof.
  split; [reflexivity |]. split; [reflexivity |].
  pose proof (server_after_capture (amount_request "pay_u1")
    (amount_request "pay_u1") (card_request "pay_u1") "u3" "t2" "u5" "t4" "t3"
    demo_created "pay_u1" created_record eq_refl eq_refl eq_refl eq_refl eq_refl)
    as (Hagain & _ & _ & Hreopen).
  split; [exact Hagain |]. apply Hreopen. vm_compute. reflexivity.
Defined.

(** X21.  On server.js, directly after a refund or a cancel of a stored
    payment that answered 200, each of capture, refund and cancel, for the
    same paymentId, is answered 400 and changes nothing.  The payment is
    not closed for good: a create for the same paymentId that answers 200
    sets the status back to 'created', and the capture after it answers
    200. *)
Theorem server_after_refund_or_cancel (req req' req_c : request)
    (uuid now uuid' now' now_c : string) (db : store) (id : string)
    (payment : object) :
  key_of req = Some id →
  key_of req' = Some id →
  key_of req_c = Some id →
  db !! id = Some payment →
  (res_status (Server.refund req uuid now db).1 = 200 →
   rejected_with 400 (Server.refund req uuid now db).2
     (Server.capture req' uuid' now' (Server.refund req uuid now db).2) ∧
   rejected_with 400 (Server.refund req uuid now db).2
     (Server.refund req' uuid' now' (Server.refund req uuid now db).2) ∧
   rejected_with 400 (Server.refund req uuid now db).2
     (Server.cancel req' uuid' now' (Server.refund req uuid now db).2) ∧
   (res_status (Server.create req_c now_c (Server.refund req uuid now db).2).1
      = 200 →
    res_status
      (Server.capture req' uuid' now'
         (Server.create req_c now_c (Server.refund req uuid now db).2).2).1
      = 200)) ∧
  (res_status (Server.cancel req uuid now db).1 = 200 →
   rejected_with 400 (Server.cancel req uuid now db).2
     (Server.capture req' uuid' now' (Server.cancel req uuid now db).2) ∧
   rejected_with 400 (Server.cancel req uuid now db).2
     (Server.refund req' uuid' now' (Server.cancel req uuid now db).2) ∧
   rejected_with 400 (Server.cancel req uuid now db).2
     (Server.cancel req' uuid' now' (Server.cancel req uuid now db).2) ∧
   (res_status (Server.create req_c now_c (Server.cancel req uuid now db).2).1
      = 200 →
    res_status
      (Server.capture req' uuid' now'
         (Server.create req_c now_c (Server.cancel req uuid now db).2).2).1
      = 200)).
Proof.
  intros Hkey Hkey' Hkey_c Hknown. split; intros Hok.
  - pose proof (server_refund_success req db id payment Hkey Hknown uuid now Hok)
      as Hst.
    rewrite (server_refund_captured req db id payment Hkey Hknown uuid now Hst).
    cbn [snd]. set (payment' := <["updatedAt" := JStr now]> _).
    assert (<[id := payment']> db !! id = Some payment') as Hknown'
      by apply store_lookup_insert_eq.
    destruct (server_closed_record req' _ id payment' Hkey' Hknown' uuid' now'
                "refunded") as (Hcapture & Hrefund & Hcancel).
    { unfold payment'. by rewrite !lookup_insert_ne, lookup_insert_eq by done. }
    { rewrite !elem_of_cons, elem_of_nil. intros [? | [? | [? | []]]]; discriminate. }
    split_and!; try done. intros Hcreate.
    by apply (server_create_reopens req_c _ id payment' Hkey_c Hknown' req').
  - pose proof (server_cancel_success req db id payment Hkey Hknown uuid now Hok)
      as Hst.
    rewrite (server_cancel_open req db id payment Hkey Hknown uuid now Hst).
    cbn [snd]. set (payment' := <["updatedAt" := JStr now]> _).
    assert (<[id := payment']> db !! id = Some payment') as Hknown'
      by apply store_lookup_insert_eq.
    destruct (server_closed_record req' _ id payment' Hkey' Hknown' uuid' now'
                "canceled") as (Hcapture & Hrefund & Hcancel).
    { unfold payment'. by rewrite !lookup_insert_ne, lookup_insert_eq by done. }
    { rewrite !elem_of_cons, elem_of_nil. intros [? | [? | [? | []]]]; discriminate. }
    split_and!; try done. intros Hcreate.
    by apply (server_create_reopens req_c _ id payment' Hkey_c Hknown' req').
Qed.

Lemma server_after_refund_or_cancel_witness :
  key_of (amount_request "pay_u1") = Some "pay_u1" ∧
  rejected_with 400 demo_refunded
    (Server.refund (amount_request "pay_u1") "u6" "t5" demo_refunded) ∧
  res_status
    (Server.capture (amount_request "pay_u1") "u6" "t5"
       (Server.create (card_request "pay_u1") "t4" demo_refunded).2).1 = 200.
Proof.
  split; [reflexivity |].
  pose proof (server_after_refund_or_cancel (amount_request "pay_u1")
    (amount_request "pay_u1") (card_request "pay_u1") "u4" "t3" "u6" "t5" "t4"
    demo_captured "pay_u1" _ eq_refl eq_refl eq_refl eq_refl) as [Hrefunded _].
  destruct (Hrefunded eq_refl) as (_ & Hagain & _ & Hreopen).
  split; [exact Hagain |]. apply Hreopen. vm_compute. reflexivity.
Defined.

Section ServerRoundTrip.
Context (rt : runtime) (req_r req_c req_p req_f : request)
  (u1 u2 tok t0 t1 t1' u3 t2 u4 t3 : string) (db : store) (last4 : jsval).
Hypothesis Ha_r : Server.authenticate rt req_r = true.
Hypothesis Ha_c : Server.authenticate rt req_c = true.
Hypothesis Ha_p : Server.authenticate rt req_p = true.
Hypothesis Ha_f : Server.authenticate rt req_f = true.
Hypothesis Hv_r : validationErrors req_r = [].
Hypothesis Hv_c : validationErrors req_c = [].
Hypothesis Hk_c : key_of req_c = Some ("pay_" +:+ u1).
Hypothesis Hk_p : key_of req_p = Some ("pay_" +:+ u1).
Hypothesis Hk_f : key_of req_f = Some ("pay_" +:+ u1).
Hypothesis Hslice :
  member db (own (body req_c) "cardDetails") "number" ≫= call_slice_last4
    = Some last4.

Lemma server_round_trip_record :
  Server.run rt [Redirect req_r u1 u2 tok t0; Create req_c t1 t1';
                 Capture req_p u3 t2; Refund req_f u4 t3] db !! ("pay_" +:+ u1)
    = Some (<["updatedAt" := JStr t3]>
              (<["refundedAmount" := own (body req_f) "amount"]>
                 (<["status" := JStr "refunded"]>
                    (<["updatedAt" := JStr t2]>
                       (<["capturedAmount" := own (body req_p) "amount"]>
                          (<["status" := JStr "captured"]>
                             (<["updatedAt" := JStr t1]>
                                (<["cardLast4" := last4]>
                                   (<["status" := JStr "created"]>
                                      (list_to_map
                                         [("paymentId", JStr ("pay_" +:+ u1));
                                          ("orderId", own (body req_r) "orderId");
                                          ("amount", own (body req_r) "amount");
                                          ("currency",
                                           or_else (own (body req_r) "currency")
                                             (JStr "USD"));
                                          ("status", JStr "pending");
                                          ("callbackUrls",
                                           own (body req_r) "callbackUrls");
                                          ("createdAt", JStr t0)])))))))))).
Proof.
  unfold Server.run. cbn [foldl Server.step]. unfold Server.authenticated.
  rewrite Ha_r, Ha_c, Ha_p, Ha_f.
  rewrite server_redirect_valid by done. cbn [snd].
  erewrite (server_create_ok req_c _ ("pay_" +:+ u1));
    [| done | apply store_lookup_insert_eq | done | exact Hslice].
  cbn [snd]. rewrite store_insert_insert.
  erewrite (server_capture_created req_p _ ("pay_" +:+ u1));
    [| done | apply store_lookup_insert_eq
     | by rewrite !get_insert_ne, get_insert_eq by done].
  cbn [snd]. rewrite store_insert_insert.
  erewrite (server_refund_captured req_f _ ("pay_" +:+ u1));
    [| done | apply store_lookup_insert_eq
     | by rewrite !get_insert_ne, get_insert_eq by done].
  cbn [snd]. rewrite store_insert_insert.
  apply store_lookup_insert_eq.
Qed.

End ServerRoundTrip.

(** X22.  The life of a payment on server.js: redirect, create, capture and
    refund, sent with the API key for the paymentId that redirect has
    generated (redirect and create without validation errors, a card number
    that can be sliced), leave a record with status 'refunded' that carries
    the refund's amount as refundedAmount, the capture's amount as
    capturedAmount, the slice of the card number as cardLast4, the time of
    the refund as updatedAt, and the orderId and createdAt that redirect has
    stored. *)
Theorem server_round_trip (rt : runtime) (req_r req_c req_p req_f : request)
    (u1 u2 tok t0 t1 t1' u3 t2 u4 t3 : string) (db : store) (last4 : jsval) :
  Server.authenticate rt req_r = true →
  Server.authenticate rt req_c = true →
  Server.authenticate rt req_p = true →
  Server.authenticate rt req_f = true →
  validationErrors req_r = [] →
  validationErrors req_c = [] →
  key_of req_c = Some ("pay_" +:+ u1) →
  key_of req_p = Some ("pay_" +:+ u1) →
  key_of req_f = Some ("pay_" +:+ u1) →
  member db (own (body req_c) "cardDetails") "number" ≫= call_slice_last4
    = Some last4 →
  ∀ f v,
    (f, v) ∈ [("status", JStr "refunded");
              ("refundedAmount", own (body req_f) "amount");
              ("capturedAmount", own (body req_p) "amount");
              ("cardLast4", last4);
              ("updatedAt", JStr t3);
              ("createdAt", JStr t0);
              ("orderId", own (body req_r) "orderId")] →
    stored (Server.run rt [Redirect req_r u1 u2 tok t0; Create req_c t1 t1';
                           Capture req_p u3 t2; Refund req_f u4 t3] db)
      ("pay_" +:+ u1) f = Some v.
Proof.
  intros Ha_r Ha_c Ha_p Ha_f Hv_r Hv_c Hk_c Hk_p Hk_f Hslice f v Hfield.
  unfold stored.
  rewrite (server_round_trip_record rt req_r req_c req_p req_f
             u1 u2 tok t0 t1 t1' u3 t2 u4 t3 db last4) by done.
  simpl. f_equal. rewrite !elem_of_cons, elem_of_nil in Hfield.
  destruct Hfield as [[= -> ->] | [[= -> ->] | [[= -> ->] | [[= -> ->]
    | [[= -> ->] | [[= -> ->] | [[= -> ->] | []]]]]]]];
    by rewrite ?own_insert_eq, ?own_insert_ne, ?own_insert_eq, ?own_insert_ne,
      ?own_insert_eq, ?own_insert_ne, ?own_insert_eq by done.
Qed.

Lemma server_round_trip_witness :
  stored
    (Server.run demo_runtime
       [Redirect (redirect_request "o1") "u1" "u2" "tok" "t0";
        Create (card_request "pay_u1") "t1" "t1";
        Capture (amount_request "pay_u1") "u3" "t2";
        Refund (amount_request "pay_u1") "u4" "t3"] ∅)
    "pay_u1" "refundedAmount" = Some (JNum "10").
Proof.
  apply (server_round_trip demo_runtime (redirect_request "o1")
    (card_request "pay_u1") (amount_request "pay_u1") (amount_request "pay_u1")
    "u1" "u2" "tok" "t0" "t1" "t1" "u3" "t2" "u4" "t3" ∅ (JStr "1111")
    eq_refl eq_refl eq_refl eq_refl eq_refl eq_refl eq_refl eq_refl eq_refl eq_refl
    "refundedAmount" (JNum "10")).
  apply list_elem_of_further, list_elem_of_here.
Defined.

(** *** Life of a record on the second program of part_000 *)

Section Variant2RoundTrip.
Context (rt : runtime) (req_r req_c req_p req_f : request)
  (e_r e_c e_p e_f : Variant2.draws) (db : store).
Hypothesis Hfields :
  truthy (own (body req_r) "orderId") && truthy (own (body req_r) "amount")
  && truthy (own (body req_r) "currency") && truthy (own (body req_r) "callbackUrls")
    = true.
Hypothesis Hk_c : key_of req_c = Some ("pay_" +:+ Variant2.uuid1 e_r).
Hypothesis Hk_p : key_of req_p = Some ("pay_" +:+ Variant2.uuid1 e_r).
Hypothesis Hk_f : key_of req_f = Some ("pay_" +:+ Variant2.uuid1 e_r).
Hypothesis Hcreated :
  res_status
    (Variant2.create req_c (Variant2.now1 e_c) (Variant2.now2 e_c)
       (Variant2.redirect req_r (Variant2.uuid1 e_r) (Variant2.uuid2 e_r)
          (Variant2.token e_r) (Variant2.now1 e_r) db).2).1 = 200.

Lemma variant2_round_trip_record :
  Variant2.run rt
    [(Variant2.PostRedirect, req_r, e_r); (Variant2.PostCreate, req_c, e_c);
     (Variant2.PostCapture, req_p, e_p); (Variant2.PostRefund, req_f, e_f)] db
    !! ("pay_" +:+ Variant2.uuid1 e_r)
    = Some (<["updatedAt" := JStr (Variant2.now1 e_f)]>
              (<["refundReason" := own (body req_f) "reason"]>
                 (<["refundedAmount" := own (body req_f) "amount"]>
                    (<["status" := JStr "refunded"]>
                       (<["updatedAt" := JStr (Variant2.now1 e_p)]>
                          (<["capturedAmount" := own (body req_p) "amount"]>
                             (<["status" := JStr "captured"]>
                                (variant2_created_record
                                   (list_to_map
                                      [("paymentId",
                                        JStr ("pay_" +:+ Variant2.uuid1 e_r));
                                       ("orderId", own (body req_r) "orderId");
                                       ("amount", own (body req_r) "amount");
                                       ("currency", own (body req_r) "currency");
                                       ("status", JStr "pending");
                                       ("createdAt", JStr (Variant2.now1 e_r));
                                       ("callbackUrls",
                                        own (body req_r) "callbackUrls")])
                                   (get db (body req_c) "paymentMethod")
                                   (Variant2.now1 e_c))))))))).
Proof.
  unfold Variant2.run. cbn [foldl Variant2.handle].
  revert Hcreated. rewrite variant2_redirect_ok by done. cbn [snd]. intros Hcreated'.
  match type of Hcreated' with
  | context [Variant2.create _ _ _ (<[?k := ?record]> _)] =>
      assert (<[k := record]> db !! k = Some record) as Hknown
        by apply store_lookup_insert_eq
  end.
  destruct (variant2_create_cases req_c _ _ _ Hk_c Hknown
              (Variant2.now1 e_c) (Variant2.now2 e_c))
    as [[Hcode _] | [_ ->]]; [done |].
  rewrite store_insert_insert.
  erewrite (variant2_capture_created req_p _ ("pay_" +:+ Variant2.uuid1 e_r));
    [| done | apply store_lookup_insert_eq
     | unfold variant2_created_record;
       by rewrite !get_insert_ne, get_insert_eq by done].
  cbn [snd]. rewrite store_insert_insert.
  erewrite (variant2_refund_captured req_f _ ("pay_" +:+ Variant2.uuid1 e_r));
    [| done | apply store_lookup_insert_eq
     | by rewrite !get_insert_ne, get_insert_eq by done].
  cbn [snd]. rewrite store_insert_insert.
  apply store_lookup_insert_eq.
Qed.

End Variant2RoundTrip.

(** X23.  The life of a payment on the second program of part_000: a
    redirect with its four fields, then create, capture and refund for the
    paymentId that redirect has generated, create being answered 200, leave
    a record with status 'refunded' that carries the refund's amount and
    reason as refundedAmount and refundReason, the capture's amount as
    capturedAmount, the payment method, the first clock reading of the
    refund as updatedAt, and the orderId and createdAt that redirect has
    stored. *)
Theorem variant2_round_trip (rt : runtime) (req_r req_c req_p req_f : request)
    (e_r e_c e_p e_f : Variant2.draws) (db : store) :
  truthy (own (body req_r) "orderId") && truthy (own (body req_r) "amount")
  && truthy (own (body req_r) "currency") && truthy (own (body req_r) "callbackUrls")
    = true →
  key_of req_c = Some ("pay_" +:+ Variant2.uuid1 e_r) →
  key_of req_p = Some ("pay_" +:+ Variant2.uuid1 e_r) →
  key_of req_f = Some ("pay_" +:+ Variant2.uuid1 e_r) →
  res_status
    (Variant2.create req_c (Variant2.now1 e_c) (Variant2.now2 e_c)
       (Variant2.redirect req_r (Variant2.uuid1 e_r) (Variant2.uuid2 e_r)
          (Variant2.token e_r) (Variant2.now1 e_r) db).2).1 = 200 →
  ∀ f v,
    (f, v) ∈ [("status", JStr "refunded");
              ("refundedAmount", own (body req_f) "amount");
              ("refundReason", own (body req_f) "reason");
              ("capturedAmount", own (body req_p) "amount");
              ("paymentMethod", get db (body req_c) "paymentMethod");
              ("updatedAt", JStr (Variant2.now1 e_f));
              ("createdAt", JStr (Variant2.now1 e_r));
              ("orderId", own (body req_r) "orderId")] →
    stored
      (Variant2.run rt
         [(Variant2.PostRedirect, req_r, e_r); (Variant2.PostCreate, req_c, e_c);
          (Variant2.PostCapture, req_p, e_p); (Variant2.PostRefund, req_f, e_f)] db)
      ("pay_" +:+ Variant2.uuid1 e_r) f = Some v.
Proof.
  intros Hfields Hk_c Hk_p Hk_f Hcreated f v Hfield.
  unfold stored.
  rewrite (variant2_round_trip_record rt req_r req_c req_p req_f
             e_r e_c e_p e_f db) by done.
  simpl. f_equal. unfold variant2_created_record.
  rewrite !elem_of_cons, elem_of_nil in Hfield.
  destruct Hfield as [[= -> ->] | [[= -> ->] | [[= -> ->] | [[= -> ->]
    | [[= -> ->] | [[= -> ->] | [[= -> ->] | [[= -> ->] | []]]]]]]]];
    by rewrite ?own_insert_eq, ?own_insert_ne, ?own_insert_eq, ?own_insert_ne,
      ?own_insert_eq, ?own_insert_ne, ?own_insert_eq by done.
Qed.

Lemma variant2_round_trip_witness :
  stored
    (Variant2.run demo_runtime
       [(Variant2.PostRedirect, redirect_request "o1", demo_draws "1");
        (Variant2.PostCreate,
         method_request "pay_u1" (JStr "credit_card") (JStr "4111 1111 1111 1111"),
         demo_draws "2");
        (Variant2.PostCapture, amount_request "pay_u1", demo_draws "3");
        (Variant2.PostRefund, reason_request "pay_u1" "returned", demo_draws "4")] ∅)
    "pay_u1" "refundReason" = Some (JStr "returned").
Proof.
  assert (res_status
            (Variant2.create
               (method_request "pay_u1" (JStr "credit_card")
                  (JStr "4111 1111 1111 1111"))
               (Variant2.now1 (demo_draws "2")) (Variant2.now2 (demo_draws "2"))
               (Variant2.redirect (redirect_request "o1")
                  (Variant2.uuid1 (demo_draws "1")) (Variant2.uuid2 (demo_draws "1"))
                  (Variant2.token (demo_draws "1")) (Variant2.now1 (demo_draws "1"))
                  ∅).2).1 = 200) as Hcreated by (vm_compute; reflexivity).
  apply (variant2_round_trip demo_runtime (redirect_request "o1")
    (method_request "pay_u1" (JStr "credit_card") (JStr "4111 1111 1111 1111"))
    (amount_request "pay_u1") (reason_request "pay_u1" "returned")
    (demo_draws "1") (demo_draws "2") (demo_draws "3") (demo_draws "4") ∅
    eq_refl eq_refl eq_refl eq_refl Hcreated "refundReason" (JStr "returned")).
  do 2 apply list_elem_of_further. apply list_elem_of_here.
Defined.

(** *** create on the first program of part_000 *)

Lemma define_other (db : store) (key : string) (record : object) :
  key ≠ "__proto__" → define db key record = <[key := record]> db.
Proof.
  intros Hne. unfold define.
  destruct (String.eqb_spec key "__proto__"); [done | reflexivity].
Qed.

Lemma variant1_create_success (req : request) (now1 now2 : string) (db : store)
    (id : string) :
  key_of req = Some id →
  res_status (Variant1.create req now1 now2 db).1 = 200 →
  ∃ last4 expiry,
    member db (own (body req) "cardDetails") "number" ≫= call_slice_last4
      = Some last4 ∧
    member db (own (body req) "cardDetails") "expiry" = Some expiry ∧
    (Variant1.create req now1 now2 db).2
      = define db id (variant1_created_record req last4 expiry now1 now2).
Proof.
  unfold Variant1.create, key_of. cbv zeta. own_names. intros ->.
  destruct (member db _ "number" ≫= call_slice_last4) as [last4 |]; [| done].
  destruct (member db _ "expiry") as [expiry |]; [| done].
  intros _. by exists last4, expiry.
Qed.

(** X24.  The create of the first program of part_000 replaces the record:
    after a create answered 200 (for a paymentId other than '__proto__',
    which is no key of an object) the record under the paymentId has the
    fields id, status, cardDetails, createdAt and updatedAt and no other, so
    what a redirect had stored there (orderId, amount, callbackUrls) is
    gone, and a correctly signed callback for that paymentId is answered 200
    with redirectUrl null. *)
Theorem variant1_create_replaces_record (rt : runtime) (req req_cb : request)
    (now1 now2 now : string) (db : store) (id : string) :
  key_of req = Some id →
  id ≠ "__proto__" →
  key_of req_cb = Some id →
  res_status (Variant1.create req now1 now2 db).1 = 200 →
  headers req_cb !! "x-signature"
    = Some (hmac_sha256_hex rt (HMAC_SECRET rt)
              (JSON_stringify rt (JObj (body req_cb)))) →
  (∀ f, f ∉ ["id"; "status"; "cardDetails"; "createdAt"; "updatedAt"] →
     stored (Variant1.create req now1 now2 db).2 id f = Some JUndefined) ∧
  (Variant1.callback rt req_cb now (Variant1.create req now1 now2 db).2).1
    = json 200 [("status", JStr "callback_processed"); ("redirectUrl", JNull)].
Proof.
  intros Hkey Hne Hkey_cb Hok Hsigned.
  destruct (variant1_create_success req now1 now2 db id Hkey Hok)
    as (last4 & expiry & _ & _ & ->).
  rewrite define_other by done. split.
  - intros f Hf. rewrite stored_insert_eq. f_equal.
    rewrite !elem_of_cons, elem_of_nil in Hf.
    unfold own, variant1_created_record. simpl.
    rewrite !lookup_insert_ne by (intros Heq; apply Hf; subst f; auto 10).
    by rewrite lookup_empty.
  - by rewrite (variant1_callback_signed_no_urls rt req_cb _ id
               (variant1_created_record req last4 expiry now1 now2) Hkey_cb
               (store_lookup_insert_eq _ _ _) now Hsigned).
Qed.

Lemma variant1_create_replaces_record_witness :
  key_of (card_request "pay_u1") = Some "pay_u1" ∧
  stored (Variant1.create (card_request "pay_u1") "t1" "t1" demo_pending).2
    "pay_u1" "callbackUrls" = Some JUndefined.
Proof.
  split; [reflexivity |].
  assert ("pay_u1" ≠ "__proto__") as Hne by discriminate.
  pose proof (variant1_create_replaces_record demo_runtime
    (card_request "pay_u1") (signed_callback_request "pay_u1" "success")
    "t1" "t1" "t9" demo_pending "pay_u1" eq_refl Hne eq_refl eq_refl eq_refl)
    as [Hfields _].
  apply Hfields. rewrite !elem_of_cons, elem_of_nil.
  intros [? | [? | [? | [? | [? | []]]]]]; discriminate.
Defined.

(** *** PaymentIds that are no keys of the store *)

Lemma find_payment_object_proto (db : store) :
  db !! "__proto__" = None → payments_proto db = None →
  find_payment db "__proto__" = Some ObjectProto.
Proof.
  intros Hid Hproto. unfold find_payment, find_place. by rewrite Hid, Hproto.
Qed.

(** Names that no handler assigns are read the same in every store. *)
Lemma member_unwritten (db db' : store) (v : jsval) (f : string) :
  written_of f = None → member db' v f = member db v f.
Proof.
  intros Hf. destruct v; simpl; unfold get, inherited; rewrite ?Hf; reflexivity.
Qed.

(** X25.  On server.js a create for the paymentId '__proto__' is answered
    200 though no payment is stored under that id: [paymentsDb['__proto__']]
    is Object.prototype, and the handler assigns status, cardLast4 and
    updatedAt to it.  The stored records are as they were, and from then on
    every object that has no status of its own, so also a request body
    without a status, reads the status 'created'. *)
Theorem server_create_writes_object_prototype (req : request) (now : string)
    (db : store) (last4 : jsval) :
  validationErrors req = [] →
  key_of req = Some "__proto__" →
  db !! "__proto__" = None →
  payments_proto db = None →
  member db (own (body req) "cardDetails") "number" ≫= call_slice_last4
    = Some last4 →
  res_status (Server.create req now db).1 = 200 ∧
  payments (Server.create req now db).2 = payments db ∧
  (∀ o : object, o !! "status" = None →
     get (Server.create req now db).2 o "status" = JStr "created") ∧
  (∀ o : object, o !! "cardLast4" = None →
     get (Server.create req now db).2 o "cardLast4" = last4).
Proof.
  intros Hvalid Hkey Hid Hproto Hslice. unfold key_of in Hkey.
  unfold Server.create. rewrite Hvalid. cbn [bool_decide decide_rel negb].
  cbv zeta. own_names. rewrite Hkey.
  rewrite (find_payment_object_proto db Hid Hproto).
  rewrite (member_unwritten db) by reflexivity.
  rewrite Hslice. cbn [fst snd res_status json]. split_and!; try done.
  - intros o Ho. unfold get, inherited. rewrite Ho. cbn.
    by rewrite !lookup_insert_ne, lookup_insert_eq by done.
  - intros o Ho. unfold get, inherited. rewrite Ho. cbn.
    by rewrite lookup_insert_ne, lookup_insert_eq by done.
Qed.

Lemma server_create_writes_object_prototype_witness :
  key_of (card_request "__proto__") = Some "__proto__" ∧
  res_status (Server.create (card_request "__proto__") "t1" ∅).1 = 200 ∧
  get (Server.create (card_request "__proto__") "t1" ∅).2
    (body (amount_request "pay_u1")) "status" = JStr "created".
Proof.
  split; [reflexivity |].
  pose proof (server_create_writes_object_prototype (card_request "__proto__")
    "t1" ∅ (JStr "1111") eq_refl eq_refl eq_refl eq_refl eq_refl)
    as (Hok & _ & Hstatus & _).
  split; [exact Hok |]. apply Hstatus. reflexivity.
Defined.

(** X26.  A paymentId that cannot be made a property key (a JSON object
    with a toString property of its own) makes the conversion in
    [paymentsDb[paymentId]] throw: every handler that looks a payment up
    answers 500 and leaves the store as it was, on server.js (create for a
    request without validation errors), on the first program of part_000,
    whose create assigns under the paymentId, and on the second program,
    whose catch blocks answer. *)
Theorem unusable_paymentId_internal_error (rt : runtime) (req : request)
    (uuid now now' : string) (db : store) :
  key_of req = None →
  (validationErrors req = [] →
     rejected_with 500 db (Server.create req now db)) ∧
  rejected_with 500 db (Server.capture req uuid now db) ∧
  rejected_with 500 db (Server.refund req uuid now db) ∧
  rejected_with 500 db (Server.cancel req uuid now db) ∧
  rejected_with 500 db (Server.callback rt req now db) ∧
  rejected_with 500 db (Variant1.create req now now' db) ∧
  rejected_with 500 db (Variant1.capture req now db) ∧
  rejected_with 500 db (Variant1.refund req uuid now db) ∧
  rejected_with 500 db (Variant1.cancel req uuid now db) ∧
  rejected_with 500 db (Variant1.callback rt req now db) ∧
  rejected_with 500 db (Variant2.create req now now' db) ∧
  rejected_with 500 db (Variant2.capture req uuid now now' db) ∧
  rejected_with 500 db (Variant2.refund req uuid now now' db) ∧
  rejected_with 500 db (Variant2.cancel req uuid now now' db) ∧
  rejected_with 500 db (Variant2.callback rt req now now' db).
Proof.
  intros Hkey. split_and!.
  - intros Hvalid. by rewrite server_create_no_key.
  - by rewrite server_capture_no_key.
  - by rewrite server_refund_no_key.
  - by rewrite server_cancel_no_key.
  - by rewrite server_callback_no_key.
  - unfold Variant1.create. cbv zeta. own_names. unfold key_of in Hkey.
    rewrite Hkey. by repeat case_match.
  - by rewrite variant1_capture_no_key.
  - by rewrite variant1_refund_no_key.
  - unfold Variant1.cancel. by rewrite server_cancel_no_key.
  - by rewrite variant1_callback_no_key.
  - by rewrite variant2_create_no_key.
  - by rewrite variant2_capture_no_key.
  - by rewrite variant2_refund_no_key.
  - by rewrite variant2_cancel_no_key.
  - by rewrite variant2_callback_no_key.
Qed.

Lemma unusable_paymentId_internal_error_witness :
  key_of (api_request [("paymentId", JObj {["toString" := JNum "1"]});
                       ("amount", JNum "10")]) = None ∧
  rejected_with 500 demo_created
    (Server.capture
       (api_request [("paymentId", JObj {["toString" := JNum "1"]});
                     ("amount", JNum "10")]) "u3" "t2" demo_created).
Proof.
  split; [reflexivity |].
  pose proof (unusable_paymentId_internal_error demo_runtime
    (api_request [("paymentId", JObj {["toString" := JNum "1"]});
                  ("amount", JNum "10")]) "u3" "t2" "t2" demo_created eq_refl)
    as (_ & Hcapture & _).
  exact Hcapture.
Defined.

(** *** What create keeps of the card number *)

Lemma drop_chars_suffix (n : nat) (s : string) :
  ∃ pre, s = pre +:+ drop_chars n s ∧ String.length pre = n `min` String.length s.
Proof.
  revert s. induction n as [|n IH]; intros s.
  - exists "". destruct s; simpl; auto.
  - destruct s as [|c s]; simpl.
    + exists "". auto.
    + destruct (IH s) as (pre & Heq & Hlen).
      exists (String c pre). split.
      * change (String c s = String c (pre +:+ drop_chars n s)). by f_equal.
      * simpl. by rewrite Hlen.
Qed.

Lemma slice_last4_proper (s : string) :
  4 < String.length s → slice_last4 s ≠ s.
Proof.
  intros Hlen Heq. pose proof (slice_last4_length s) as H.
  rewrite Heq in H. lia.
Qed.

Lemma slice_last4_suffix (s : string) :
  ∃ pre, s = pre +:+ slice_last4 s.
Proof.
  destruct (drop_chars_suffix (String.length s - 4) s) as (pre & Heq & _).
  by exists pre.
Qed.

(** X27.  Of the card details a create call for a stored paymentId that
    answers 200 keeps [cardDetails.number.slice(-4)] and nothing else of the
    number or the CVV: server.js writes status, the slice as cardLast4 and
    updatedAt on the existing record; the first program of part_000 stores a
    record made of the id, the status, the slice, the expiry and two
    timestamps.  For a number sent as a string the slice is the string of
    its last four characters, which is not the number when the number is
    longer; for a number sent as an array the slice is the array of its
    last four elements. *)
Theorem create_stores_number_slice (req : request) (now now' : string)
    (db : store) (id : string) (payment : object) :
  key_of req = Some id →
  db !! id = Some payment →
  (res_status (Server.create req now db).1 = 200 →
   ∃ last4,
     member db (own (body req) "cardDetails") "number" ≫= call_slice_last4
       = Some last4 ∧
     (Server.create req now db).2 =
       <[id :=
           <["updatedAt" := JStr now]>
             (<["cardLast4" := last4]>
                (<["status" := JStr "created"]> payment))]> db) ∧
  (res_status (Variant1.create req now now' db).1 = 200 →
   ∃ last4 expiry,
     member db (own (body req) "cardDetails") "number" ≫= call_slice_last4
       = Some last4 ∧
     member db (own (body req) "cardDetails") "expiry" = Some expiry ∧
     (Variant1.create req now now' db).2 =
       <[id := variant1_created_record req last4 expiry now now']> db) ∧
  (∀ number,
     member db (own (body req) "cardDetails") "number" = Some (JStr number) →
     member db (own (body req) "cardDetails") "number" ≫= call_slice_last4
       = Some (JStr (slice_last4 number)) ∧
     String.length (slice_last4 number) ≤ 4 ∧
     (∃ head, number = head +:+ slice_last4 number) ∧
     (4 < String.length number → slice_last4 number ≠ number)) ∧
  (∀ number,
     member db (own (body req) "cardDetails") "number" = Some (JArr number ∅) →
     member db (own (body req) "cardDetails") "number" ≫= call_slice_last4
       = Some (JArr (drop (length number - 4) number) ∅)).
Proof.
  intros Hkey Hknown. split_and!.
  - intros Hok.
    destruct (server_create_success req db id payment Hkey Hknown now Hok)
      as (Hvalid & last4 & Hslice).
    exists last4. split; [done |].
    by rewrite (server_create_ok req db id payment Hkey Hknown now last4).
  - intros Hok.
    destruct (variant1_create_success req now now' db id Hkey Hok)
      as (last4 & expiry & Hslice & Hexpiry & ->).
    exists last4, expiry. split_and!; try done.
    by apply (define_stored db id payment).
  - intros number Hnumber. rewrite Hnumber. simpl. split_and!.
    + reflexivity.
    + rewrite slice_last4_length. lia.
    + apply slice_last4_suffix.
    + apply slice_last4_proper.
  - intros number Hnumber. rewrite Hnumber. simpl. by rewrite lookup_empty.
Qed.

Lemma create_stores_number_slice_witness :
  key_of (card_request "pay_u1") = Some "pay_u1" ∧
  res_status (Server.create (card_request "pay_u1") "t1" demo_pending).1 = 200 ∧
  (Server.create (card_request "pay_u1") "t1" demo_pending).2
    = <["pay_u1" := created_record]> demo_pending ∧
  slice_last4 "4111111111111111" = "1111".
Proof.
  split; [reflexivity |]. split; [reflexivity |].
  pose proof (create_stores_number_slice (card_request "pay_u1") "t1" "t1"
    demo_pending "pay_u1" (pending_record "o1") eq_refl eq_refl)
    as (Hserver & _ & _).
  destruct (Hserver eq_refl) as (last4 & Hslice & Hstore).
  injection Hslice as <-.
  split; [exact Hstore | reflexivity].
Defined.
